(** * VocabMaster (my-app/App.js): the definition cache and derived-state layer

    A shallow embedding of the cache-key deriver, the definition cache
    (index + AsyncStorage entries), the history ledger, the favorites and
    quiz lists and the request orchestrator of [src/my-app/App.js], and the
    properties of the specification proved (or refuted) on it; then the
    sorted views and the handlers of the screens that call them, with
    further properties of the code.

    Modelling conventions.
    - JavaScript strings are sequences of ASCII characters ([string]);
      [toLowerCase] and [trim] are the ASCII restrictions of the built-ins.
    - The Numbers that the code computes with are [NaN], the infinities
      and integers ([JS.number]); the two zeros are the one integer 0, which
      they are alike for every operation of the code. The integer that
      [parseInt] reads is rounded to the nearest Number (a significand of 53
      bits, ties to the even one, an infinity from 2^1024 - 2^970 on), and
      [Number::toString] prints an integer below 2^53 as its decimal
      numeral, a larger one with its shortest digits, and with an exponent
      from 10^21 on.
    - The numbers of a JSON value are integers. [JSON.stringify] writes each
      as its decimal numeral and [JSON.parse] reads such a numeral exactly,
      which is how JavaScript writes and reads the integers below 2^53; for
      the larger ones the text of JavaScript has other digits and names one
      number as well. A numeral with a fraction or an exponent is refused.
    - React state is an explicit record that every action transforms;
      AsyncStorage is a finite map from keys to strings, and the outcome of
      each asynchronous call that may reject (a read, a write, a bulk
      removal, the network request) is an argument chosen by the environment.
      A reading of [Date.now()] is likewise an argument: a [positive] number
      of milliseconds since the epoch.
    - The write-behind mirror of [useSimplePersistentState] (each collection
      is re-serialised under its own fixed key after it changes) is not part
      of the model: the properties below concern the in-memory collections
      and the cache entries. *)

From Stdlib Require Import ZArith String Ascii List Lia Bool.
From Stdlib Require Import DecimalString DecimalZ DecimalPos DecimalFacts.
From Stdlib Require Import Sorted.
From stdpp Require Import gmap strings list.

Set Warnings "-register-all".
Open Scope Z_scope.

(** ** JavaScript built-ins on strings and numbers *)

Module JS.

(** [StrWhiteSpaceChar], restricted to ASCII: TAB, LF, VT, FF, CR, SP. *)
Definition isWhiteSpace (c : ascii) : bool :=
  let n := N_of_ascii c in
  ((9 <=? n) && (n <=? 13) || (n =? 32))%N.

Definition isDigit (c : ascii) : bool :=
  let n := N_of_ascii c in ((48 <=? n) && (n <=? 57))%N.

Definition isEmpty (s : string) : bool :=
  match s with EmptyString => true | String _ _ => false end.

(** [String.prototype.toLowerCase] on ASCII. *)
Definition lowerChar (c : ascii) : ascii :=
  let n := N_of_ascii c in
  if ((65 <=? n) && (n <=? 90))%N then ascii_of_N (n + 32) else c.

Fixpoint toLowerCase (s : string) : string :=
  match s with
  | EmptyString => EmptyString
  | String c s' => String (lowerChar c) (toLowerCase s')
  end.

Fixpoint trimStart (s : string) : string :=
  match s with
  | EmptyString => EmptyString
  | String c s' => if isWhiteSpace c then trimStart s' else s
  end.

Fixpoint trimEnd (s : string) : string :=
  match s with
  | EmptyString => EmptyString
  | String c s' =>
      let t := trimEnd s' in
      if isWhiteSpace c && isEmpty t then EmptyString else String c t
  end.

(** [String.prototype.trim]. *)
Definition trim (s : string) : string := trimEnd (trimStart s).

(** The longest prefix of characters satisfying [p], and what follows. *)
Fixpoint span (p : ascii -> bool) (s : string) : string * string :=
  match s with
  | EmptyString => (EmptyString, EmptyString)
  | String c s' =>
      if p c then let '(a, b) := span p s' in (String c a, b)
      else (EmptyString, s)
  end.

(** The decimal numeral of an integer. *)
Definition decimal (n : Z) : string :=
  NilZero.string_of_int (Z.to_int n).

(** The value of a non-empty run of decimal digits. *)
Definition digitsValue (ds : string) : option Z :=
  option_map Z.of_uint (NilEmpty.uint_of_string ds).

(** A Number that is [NaN], an integer or an infinity. *)
Inductive number : Type :=
| NaN
| Finite (n : Z)
| Infinity (negative : bool).

(** The Number nearest to the natural number [m]: [m] itself below 2^53,
    and above it the nearest number with a significand of 53 bits, the even
    significand when two are as near; [None] is the overflow, from
    2^1024 - 2^970 on. *)
Definition nearest (m : Z) : option Z :=
  if m <? 2 ^ 53 then Some m
  else
    let e := Z.log2 m - 52 in
    let q := Z.shiftr m e in
    let r := m - Z.shiftl q e in
    let half := Z.shiftl 1 (e - 1) in
    let q' := if (half <? r) || ((r =? half) && Z.odd q) then q + 1 else q in
    let x := Z.shiftl q' e in
    if 1024 <=? Z.log2 x then None else Some x.

(** The Number for the integer [m]. *)
Definition ofInteger (m : Z) : number :=
  match nearest (Z.abs m) with
  | Some x => Finite (Z.sgn m * x)
  | None => Infinity (m <? 0)
  end.

(** The numeral [s * 10 ^ j] is read as the Number [x]. *)
Definition reads (x s : Z) (j : nat) : bool :=
  match nearest (s * 10 ^ Z.of_nat j) with
  | Some y => y =? x
  | None => false
  end.

(** The numerals [s * 10 ^ j] with [k] digits in [s] that are read as [x],
    a number of [d] digits: such a numeral has [d] digits or one more. *)
Definition candidates (x : Z) (d k : nat) : list (Z * nat) :=
  flat_map
    (fun n =>
       let j := (n - k)%nat in
       let low := x / 10 ^ Z.of_nat j in
       List.filter
         (fun c => (10 ^ Z.of_nat (k - 1) <=? fst c) && (fst c <? 10 ^ Z.of_nat k)
                   && reads x (fst c) (snd c))
         [(low, j); (low + 1, j)])
    [d; S d].

Definition distance (x : Z) (c : Z * nat) : Z :=
  Z.abs (fst c * 10 ^ Z.of_nat (snd c) - x).

(** The nearer of two numerals, the even one when they are as near. *)
Definition nearer (x : Z) (a b : Z * nat) : Z * nat :=
  if (distance x b <? distance x a)
     || ((distance x b =? distance x a) && Z.even (fst b) && Z.odd (fst a))
  then b else a.

Fixpoint shortestFrom (x : Z) (d k fuel : nat) : Z * nat :=
  match fuel with
  | O => (x, O)
  | S fuel' =>
      match candidates x d k with
      | [] => shortestFrom x d (S k) fuel'
      | c :: cs => fold_left (nearer x) cs c
      end
  end.

(** The digits [s] and the number [j] of zeros after them that
    [Number::toString] prints for the Number [x] from 2^53 on: as few digits
    as are read as [x], and of these the nearest to [x]. *)
Definition shortest (x : Z) : Z * nat :=
  let d := String.length (decimal x) in
  shortestFrom x d 1 d.

Fixpoint zeros (j : nat) : string :=
  match j with
  | O => EmptyString
  | S j' => String "0" (zeros j')
  end.

(** Plain notation up to 21 digits, and from there on the notation with an
    exponent. *)
Definition render (s : Z) (j : nat) : string :=
  let digits := decimal s in
  let n := (String.length digits + j)%nat in
  if (n <=? 21)%nat then digits +:+ zeros j
  else
    match digits with
    | EmptyString => EmptyString
    | String c EmptyString => String c ("e+" +:+ decimal (Z.of_nat (n - 1)))
    | String c rest => String c ("." +:+ rest +:+ "e+" +:+ decimal (Z.of_nat (n - 1)))
    end.

(** [Number.prototype.toString] (radix 10) on a Number that is an integer:
    below 2^53 its decimal numeral. *)
Definition Number_toString (n : Z) : string :=
  if Z.abs n <? 2 ^ 53 then decimal n
  else
    let '(s, j) := shortest (Z.abs n) in
    (if n <? 0 then "-" else "") +:+ render s j.

(** [parseInt(s, 10)] on a string: leading white space is skipped, one
    sign is accepted, then the longest run of decimal digits is read; the
    result is [NaN] when that run is empty, and otherwise the Number for the
    integer that the digits denote. *)
Definition parseInt_string (s : string) : number :=
  let s1 := trimStart s in
  let '(sign, s2) :=
    match s1 with
    | String "-" r => (-1, r)
    | String "+" r => (1, r)
    | _ => (1, s1)
    end in
  let ds := fst (span isDigit s2) in
  if isEmpty ds then NaN
  else
    match digitsValue ds with
    | Some v => ofInteger (sign * v)
    | None => NaN
    end.

(** What the code passes as a length: [undefined], a number that is an
    integer, or a string (the form keeps the length as text). *)
Inductive value : Type :=
| Undefined
| Num (n : Z)
| Str (s : string).

(** [ToBoolean]. *)
Definition truthy (v : value) : bool :=
  match v with
  | Undefined => false
  | Num n => negb (n =? 0)
  | Str s => negb (isEmpty s)
  end.

(** [a || b]. *)
Definition or (a b : value) : value := if truthy a then a else b.

(** [ToString]. *)
Definition toString (v : value) : string :=
  match v with
  | Undefined => "undefined"
  | Num n => Number_toString n
  | Str s => s
  end.

(** [parseInt(v, 10)]: the argument is first converted to a string. *)
Definition parseInt (v : value) : number := parseInt_string (toString v).

(** [s || d] for an optional string: absent and empty are both falsy. *)
Definition strOr (s : option string) (d : string) : string :=
  match s with
  | Some (String c r) => String c r
  | _ => d
  end.

End JS.


(** ** JSON values, [JSON.stringify] and [JSON.parse] *)

Module JSON.

(** A JavaScript object is a list of properties in creation order; a
    well-formed one ([wf]) names each property once. *)
Inductive t : Type :=
| Null
| Bool (b : bool)
| Num (n : Z)
| Str (s : string)
| Arr (l : list t)
| Obj (m : list (string * t)).

Definition dquote : ascii := Eval cbv in ascii_of_N 34.
Definition backslash : ascii := Eval cbv in ascii_of_N 92.

Definition hexDigit (n : N) : ascii :=
  if (n <? 10)%N then ascii_of_N (48 + n) else ascii_of_N (87 + n).

(** One character of [QuoteJSONString]. *)
Definition quoteChar (c : ascii) : string :=
  match N_of_ascii c with
  | 8%N => String backslash "b"
  | 9%N => String backslash "t"
  | 10%N => String backslash "n"
  | 12%N => String backslash "f"
  | 13%N => String backslash "r"
  | 34%N => String backslash (String dquote "")
  | 92%N => String backslash (String backslash "")
  | n =>
      if (n <? 32)%N
      then String backslash
             (String "u" (String "0" (String "0"
                (String (hexDigit (n / 16)) (String (hexDigit (n mod 16)) "")))))
      else String c ""
  end.

Fixpoint quoteBody (s : string) : string :=
  match s with
  | EmptyString => EmptyString
  | String c s' => quoteChar c +:+ quoteBody s'
  end.

Definition quote (s : string) : string :=
  String dquote (quoteBody s +:+ String dquote "").

Fixpoint joinComma (l : list string) : string :=
  match l with
  | [] => ""
  | [x] => x
  | x :: l' => x +:+ "," +:+ joinComma l'
  end.

(** [JSON.stringify(v)] without indentation; a number is written as its
    decimal numeral. *)
Fixpoint stringify (v : t) : string :=
  match v with
  | Null => "null"
  | Bool true => "true"
  | Bool false => "false"
  | Num n => JS.decimal n
  | Str s => quote s
  | Arr l => "[" +:+ joinComma (map stringify l) +:+ "]"
  | Obj m =>
      "{" +:+ joinComma (map (fun kv => quote (fst kv) +:+ ":" +:+ stringify (snd kv)) m)
          +:+ "}"
  end.

(** [o[k] = v]: an existing property keeps its place, a new one goes last. *)
Fixpoint setProp (k : string) (v : t) (m : list (string * t)) : list (string * t) :=
  match m with
  | [] => [(k, v)]
  | (k', v') :: m' =>
      if String.eqb k' k then (k', v) :: m' else (k', v') :: setProp k v m'
  end.

Fixpoint getProp (k : string) (m : list (string * t)) : option t :=
  match m with
  | [] => None
  | (k', v') :: m' => if String.eqb k' k then Some v' else getProp k m'
  end.

(** JSON white space: SP, TAB, LF, CR. *)
Definition isWs (c : ascii) : bool :=
  match N_of_ascii c with
  | 32%N | 9%N | 10%N | 13%N => true
  | _ => false
  end.

Fixpoint skipWs (s : string) : string :=
  match s with
  | EmptyString => EmptyString
  | String c s' => if isWs c then skipWs s' else s
  end.

Definition hexValue (c : ascii) : option N :=
  let n := N_of_ascii c in
  if ((48 <=? n) && (n <=? 57))%N then Some (n - 48)%N
  else if ((97 <=? n) && (n <=? 102))%N then Some (n - 87)%N
  else if ((65 <=? n) && (n <=? 70))%N then Some (n - 55)%N
  else None.

(** The code unit of a [\uXXXX] escape; code units above 255 have no
    counterpart among the characters of the model. *)
Definition unicodeEscape (h1 h2 h3 h4 : ascii) : option ascii :=
  match hexValue h1, hexValue h2, hexValue h3, hexValue h4 with
  | Some a, Some b, Some c, Some d =>
      let n := (((a * 16 + b) * 16 + c) * 16 + d)%N in
      if (n <? 256)%N then Some (ascii_of_N n) else None
  | _, _, _, _ => None
  end.

Definition consTo (c : ascii) (r : option (string * string)) : option (string * string) :=
  match r with
  | Some (s, rest) => Some (String c s, rest)
  | None => None
  end.

(** The characters of a string literal after its opening quote, up to and
    including the closing quote. *)
Fixpoint parseString (s : string) : option (string * string) :=
  match s with
  | EmptyString => None
  | String c r =>
      match N_of_ascii c with
      | 34%N => Some (EmptyString, r)
      | 92%N =>
          match r with
          | EmptyString => None
          | String e r1 =>
              match N_of_ascii e with
              | 34%N => consTo dquote (parseString r1)
              | 92%N => consTo backslash (parseString r1)
              | 47%N => consTo "/" (parseString r1)
              | 98%N => consTo (ascii_of_N 8) (parseString r1)
              | 102%N => consTo (ascii_of_N 12) (parseString r1)
              | 110%N => consTo (ascii_of_N 10) (parseString r1)
              | 114%N => consTo (ascii_of_N 13) (parseString r1)
              | 116%N => consTo (ascii_of_N 9) (parseString r1)
              | 117%N =>
                  match r1 with
                  | String h1 (String h2 (String h3 (String h4 r2))) =>
                      match unicodeEscape h1 h2 h3 h4 with
                      | Some u => consTo u (parseString r2)
                      | None => None
                      end
                  | _ => None
                  end
              | _ => None
              end
          end
      | n => if (n <? 32)%N then None else consTo c (parseString r)
      end
  end.

(** A JSON number that is an integer literal: an optional minus sign and
    digits without a superfluous leading zero. A fraction or an exponent
    denotes a number outside the integers of the model and is refused. *)
Definition parseNumber (s : string) : option (Z * string) :=
  let '(sign, s1) :=
    match s with
    | String "-" r => (-1, r)
    | _ => (1, s)
    end in
  let '(ds, rest) := JS.span JS.isDigit s1 in
  match ds with
  | EmptyString => None
  | String "0" (String _ _) => None
  | _ =>
      match rest with
      | String "." _ | String "e" _ | String "E" _ => None
      | _ =>
          match JS.digitsValue ds with
          | Some n => Some (sign * n, rest)
          | None => None
          end
      end
  end.

(** The rest of [s] after the literal [lit], when [s] starts with it. *)
Fixpoint stripPrefix (lit s : string) : option string :=
  match lit with
  | EmptyString => Some s
  | String a lit' =>
      match s with
      | String b s' => if Ascii.eqb a b then stripPrefix lit' s' else None
      | EmptyString => None
      end
  end.

Definition literal (lit : string) (v : t) (s : string) : option (t * string) :=
  match stripPrefix lit s with
  | Some rest => Some (v, rest)
  | None => None
  end.

(** The rest of [s] after optional white space and the character [c]. *)
Definition expect (c : ascii) (s : string) : option string :=
  match skipWs s with
  | String c' r => if Ascii.eqb c c' then Some r else None
  | EmptyString => None
  end.

(** Recursive descent; [fuel] bounds the number of nested calls and the
    length of the text is always enough (see [parse]). *)
Fixpoint parseValue (fuel : nat) (s : string) : option (t * string) :=
  match fuel with
  | O => None
  | S f =>
      match skipWs s with
      | EmptyString => None
      | String c r =>
          match N_of_ascii c with
          | 123%N => (* an object *)
              match expect "}" r with
              | Some r' => Some (Obj [], r')
              | None =>
                  match parseMembers f r with
                  | Some (m, r') =>
                      Some (Obj (fold_left (fun o kv => setProp (fst kv) (snd kv) o) m []), r')
                  | None => None
                  end
              end
          | 91%N => (* an array *)
              match expect "]" r with
              | Some r' => Some (Arr [], r')
              | None =>
                  match parseElements f r with
                  | Some (l, r') => Some (Arr l, r')
                  | None => None
                  end
              end
          | 34%N =>
              match parseString r with
              | Some (str, r') => Some (Str str, r')
              | None => None
              end
          | 116%N => literal "true" (Bool true) (String c r)
          | 102%N => literal "false" (Bool false) (String c r)
          | 110%N => literal "null" Null (String c r)
          | _ =>
              match parseNumber (String c r) with
              | Some (n, r') => Some (Num n, r')
              | None => None
              end
          end
      end
  end
with parseElements (fuel : nat) (s : string) : option (list t * string) :=
  match fuel with
  | O => None
  | S f =>
      match parseValue f s with
      | Some (v, r) =>
          match expect "," r with
          | Some r' =>
              match parseElements f r' with
              | Some (l, r'') => Some (v :: l, r'')
              | None => None
              end
          | None =>
              match expect "]" r with
              | Some r' => Some ([v], r')
              | None => None
              end
          end
      | None => None
      end
  end
with parseMembers (fuel : nat) (s : string) : option (list (string * t) * string) :=
  match fuel with
  | O => None
  | S f =>
      match expect dquote s with
      | Some r =>
          match parseString r with
          | Some (k, r1) =>
              match expect ":" r1 with
              | Some r2 =>
                  match parseValue f r2 with
                  | Some (v, r3) =>
                      match expect "," r3 with
                      | Some r4 =>
                          match parseMembers f r4 with
                          | Some (m, r5) => Some ((k, v) :: m, r5)
                          | None => None
                          end
                      | None =>
                          match expect "}" r3 with
                          | Some r4 => Some ([(k, v)], r4)
                          | None => None
                          end
                      end
                  | None => None
                  end
              | None => None
              end
          | None => None
          end
      | None => None
      end
  end.

(** [JSON.parse(s)]: [None] stands for the [SyntaxError] it throws (and
    for the texts that [parseNumber] and [unicodeEscape] leave out). *)
Definition parse (s : string) : option t :=
  match parseValue (S (String.length s)) s with
  | Some (v, rest) => if JS.isEmpty (skipWs rest) then Some v else None
  | None => None
  end.

(** No object names a property twice. *)
Inductive wf : t -> Prop :=
| wf_Null : wf Null
| wf_Bool b : wf (Bool b)
| wf_Num n : wf (Num n)
| wf_Str s : wf (Str s)
| wf_Arr l : Forall wf l -> wf (Arr l)
| wf_Obj m : NoDup (map fst m) -> Forall (fun kv => wf (snd kv)) m -> wf (Obj m).

End JSON.


Import JS(isEmpty).

(** ** Constants *)

Definition MAX_REQUESTED_LENGTH : Z := 250.
Definition HISTORY_MAX_ITEMS : nat := 50.
Definition CACHE_KEY_PREFIX : string := "@DefinitionCache:".

(** ** Utility functions *)

Definition invalidLengthMessage : string :=
  "Please enter a valid length (1-" +:+ JS.Number_toString MAX_REQUESTED_LENGTH +:+ ").".

(** [validateInputs]: [None] is the [null] of a valid input, [Some msg] the
    message of a validation error. *)
Definition validateInputs (wordToValidate : string) (lengthToValidate : JS.value)
  : option string :=
  if isEmpty wordToValidate || isEmpty (JS.trim wordToValidate)
  then Some "Please enter a word or phrase."%string
  else
    match JS.parseInt lengthToValidate with
    | JS.NaN => Some invalidLengthMessage
    | JS.Finite numLength =>
        if (numLength <? 1) || (numLength >? MAX_REQUESTED_LENGTH)
        then Some invalidLengthMessage
        else None
    | JS.Infinity negative =>
        (* [-Infinity < 1] and [Infinity > MAX_REQUESTED_LENGTH] *)
        Some invalidLengthMessage
    end.

(** The parameters of a request as the callers build them: every field but
    the length is a string or absent. *)
Module RequestParams.
Record t : Type := mk {
  word : option string;
  length : JS.value;
  tone : option string;
  context : option string;
  lang : option string
}.
End RequestParams.

(** The [keyParams] object of [generateCacheKey]: the normalized request. *)
Module KeyParams.
Record t : Type := mk {
  word : string;
  length : JS.number;
  tone : string;
  context : string;
  lang : string
}.

(** [JSON.stringify] writes a number that is [NaN] or an infinity as
    [null]. *)
Definition number (n : JS.number) : JSON.t :=
  match n with
  | JS.Finite z => JSON.Num z
  | JS.NaN | JS.Infinity _ => JSON.Null
  end.

(** The properties in the order of the object literal. *)
Definition props (k : t) : list (string * JSON.t) :=
  [ ("word"%string, JSON.Str (word k));
    ("length"%string, number (length k));
    ("tone"%string, JSON.Str (tone k));
    ("context"%string, JSON.Str (context k));
    ("lang"%string, JSON.Str (lang k)) ].
End KeyParams.

Definition keyParams (params : RequestParams.t) : KeyParams.t :=
  {| KeyParams.word :=
       JS.toLowerCase (JS.trim (JS.strOr (RequestParams.word params) ""));
     KeyParams.length :=
       JS.parseInt (JS.or (RequestParams.length params) (JS.Num 0));
     KeyParams.tone := JS.toLowerCase (JS.strOr (RequestParams.tone params) "neutral");
     KeyParams.context := JS.toLowerCase (JS.strOr (RequestParams.context params) "none");
     KeyParams.lang := JS.toLowerCase (JS.strOr (RequestParams.lang params) "auto") |}.

(** [Array.prototype.sort] without a comparator, on strings: ascending in
    the order of their code units. *)
Fixpoint insertSorted (x : string) (l : list string) : list string :=
  match l with
  | [] => [x]
  | y :: l' => if String.leb x y then x :: l else y :: insertSorted x l'
  end.

Definition sortStrings (l : list string) : list string :=
  fold_right insertSorted [] l.

(** [sortedParams]: the properties of [keyParams] re-inserted key by key in
    sorted order. *)
Definition sortedParams (k : KeyParams.t) : list (string * JSON.t) :=
  let sortedKeys := sortStrings (map fst (KeyParams.props k)) in
  fold_left
    (fun o key =>
       match JSON.getProp key (KeyParams.props k) with
       | Some v => JSON.setProp key v o
       | None => o
       end)
    sortedKeys [].

Definition generateCacheKey (params : RequestParams.t) : string :=
  CACHE_KEY_PREFIX +:+ JSON.stringify (JSON.Obj (sortedParams (keyParams params))).

(** ** The persisted collections and the application state *)

Module HistoryResult.
Record t : Type := mk {
  actualLength : option JSON.t;
  status : option JSON.t;
  effectiveLang : option JSON.t
}.
End HistoryResult.

(** An entry of the history ledger. The word of a stored entry is a
    string: [addToHistory] stores no item without one. *)
Module HistoryItem.
Record t : Type := mk {
  word : string;
  length : option Z;
  tone : option string;
  context : option string;
  lang : option string;
  timestamp : Z;
  result : HistoryResult.t
}.
End HistoryItem.

(** The argument of [addToHistory]: an item whose word may be missing and
    whose timestamp is yet to be set. *)
Module HistoryInput.
Record t : Type := mk {
  word : option string;
  length : option Z;
  tone : option string;
  context : option string;
  lang : option string;
  result : HistoryResult.t
}.
End HistoryInput.

Module FavoriteItem.
Record t : Type := mk { word : string; timestamp : Z }.
End FavoriteItem.

Module QuizItem.
Record t : Type := mk { word : string; id : string }.
End QuizItem.

Inductive ToastType : Type := info | success | error.

Module Toast.
Record t : Type := mk { visible : bool; message : string; type : ToastType }.
End Toast.

(** What a run asks of its collaborators, in order: the AsyncStorage calls
    with their outcome and the requests sent to the Define Service. *)
Inductive ReadResult : Type :=
| ReadRejected
| ReadValue (v : option string).

Inductive Event : Type :=
| GetItem (key : string) (r : ReadResult)
| SetItem (key value : string) (resolved : bool)
| MultiRemove (keys : list string) (resolved : bool)
| Fetch (body : JSON.t).

(** The state of [AppProvider] together with the contents of AsyncStorage
    and the record of the calls made so far (latest first). *)
Module World.
Record t : Type := mk {
  (* form state *)
  word : string;
  length : string;
  tone : string;
  contextValue : string;
  lang : string;
  (* API/UI state *)
  definitionResult : option JSON.t;
  isLoading : bool;
  error : option string;
  (* persistent state *)
  favorites : list FavoriteItem.t;
  history : list HistoryItem.t;
  quizList : list QuizItem.t;
  definitionsCacheIndex : gmap string Z;
  favLoaded : bool;
  histLoaded : bool;
  quizLoaded : bool;
  cacheIdxLoaded : bool;
  toastState : Toast.t;
  (* collaborators *)
  storage : gmap string string;
  trace : list Event
}.

Definition setDefinitionResult (v : option JSON.t) (w : t) : t :=
  mk (word w) (length w) (tone w) (contextValue w) (lang w)
     v (isLoading w) (error w)
     (favorites w) (history w) (quizList w) (definitionsCacheIndex w)
     (favLoaded w) (histLoaded w) (quizLoaded w) (cacheIdxLoaded w) (toastState w)
     (storage w) (trace w).

Definition setIsLoading (b : bool) (w : t) : t :=
  mk (word w) (length w) (tone w) (contextValue w) (lang w)
     (definitionResult w) b (error w)
     (favorites w) (history w) (quizList w) (definitionsCacheIndex w)
     (favLoaded w) (histLoaded w) (quizLoaded w) (cacheIdxLoaded w) (toastState w)
     (storage w) (trace w).

Definition setError (e : option string) (w : t) : t :=
  mk (word w) (length w) (tone w) (contextValue w) (lang w)
     (definitionResult w) (isLoading w) e
     (favorites w) (history w) (quizList w) (definitionsCacheIndex w)
     (favLoaded w) (histLoaded w) (quizLoaded w) (cacheIdxLoaded w) (toastState w)
     (storage w) (trace w).

(** The setters of the collections take the updater function, as
    [setState(prev => ...)] does. *)
Definition setFavorites (f : list FavoriteItem.t -> list FavoriteItem.t) (w : t) : t :=
  mk (word w) (length w) (tone w) (contextValue w) (lang w)
     (definitionResult w) (isLoading w) (error w)
     (f (favorites w)) (history w) (quizList w) (definitionsCacheIndex w)
     (favLoaded w) (histLoaded w) (quizLoaded w) (cacheIdxLoaded w) (toastState w)
     (storage w) (trace w).

Definition setHistory (f : list HistoryItem.t -> list HistoryItem.t) (w : t) : t :=
  mk (word w) (length w) (tone w) (contextValue w) (lang w)
     (definitionResult w) (isLoading w) (error w)
     (favorites w) (f (history w)) (quizList w) (definitionsCacheIndex w)
     (favLoaded w) (histLoaded w) (quizLoaded w) (cacheIdxLoaded w) (toastState w)
     (storage w) (trace w).

Definition setQuizList (f : list QuizItem.t -> list QuizItem.t) (w : t) : t :=
  mk (word w) (length w) (tone w) (contextValue w) (lang w)
     (definitionResult w) (isLoading w) (error w)
     (favorites w) (history w) (f (quizList w)) (definitionsCacheIndex w)
     (favLoaded w) (histLoaded w) (quizLoaded w) (cacheIdxLoaded w) (toastState w)
     (storage w) (trace w).

Definition setDefinitionsCacheIndex (f : gmap string Z -> gmap string Z) (w : t) : t :=
  mk (word w) (length w) (tone w) (contextValue w) (lang w)
     (definitionResult w) (isLoading w) (error w)
     (favorites w) (history w) (quizList w) (f (definitionsCacheIndex w))
     (favLoaded w) (histLoaded w) (quizLoaded w) (cacheIdxLoaded w) (toastState w)
     (storage w) (trace w).

Definition setToastState (ts : Toast.t) (w : t) : t :=
  mk (word w) (length w) (tone w) (contextValue w) (lang w)
     (definitionResult w) (isLoading w) (error w)
     (favorites w) (history w) (quizList w) (definitionsCacheIndex w)
     (favLoaded w) (histLoaded w) (quizLoaded w) (cacheIdxLoaded w) ts
     (storage w) (trace w).

Definition setStorage (s : gmap string string) (w : t) : t :=
  mk (word w) (length w) (tone w) (contextValue w) (lang w)
     (definitionResult w) (isLoading w) (error w)
     (favorites w) (history w) (quizList w) (definitionsCacheIndex w)
     (favLoaded w) (histLoaded w) (quizLoaded w) (cacheIdxLoaded w) (toastState w)
     s (trace w).

Definition emit (e : Event) (w : t) : t :=
  mk (word w) (length w) (tone w) (contextValue w) (lang w)
     (definitionResult w) (isLoading w) (error w)
     (favorites w) (history w) (quizList w) (definitionsCacheIndex w)
     (favLoaded w) (histLoaded w) (quizLoaded w) (cacheIdxLoaded w) (toastState w)
     (storage w) (e :: trace w).

Definition isInitialDataLoaded (w : t) : bool :=
  favLoaded w && histLoaded w && quizLoaded w && cacheIdxLoaded w.
End World.

(** ** AsyncStorage *)

Module AsyncStorage.

(** [getItem(key)]: rejects when the environment says so, and otherwise
    resolves to the stored string or to [null]. *)
Definition getItem (rejects : bool) (key : string) (w : World.t) : ReadResult * World.t :=
  let r := if rejects then ReadRejected else ReadValue (World.storage w !! key) in
  (r, World.emit (GetItem key r) w).

(** [setItem(key, value)]: a write that rejects leaves the store as it was. *)
Definition setItem (rejects : bool) (key value : string) (w : World.t) : bool * World.t :=
  if rejects then (false, World.emit (SetItem key value false) w)
  else (true, World.emit (SetItem key value true)
                (World.setStorage (<[key := value]> (World.storage w)) w)).

(** How a bulk removal ends: every key is removed, or the call rejects
    after having removed only those among [removed]. *)
Inductive RemoveOutcome : Type :=
| RemoveResolves
| RemoveRejects (removed : list string).

Definition removeAll (keys : list string) (s : gmap string string) : gmap string string :=
  fold_right (fun k m => delete k m) s keys.

Definition multiRemove (o : RemoveOutcome) (keys : list string) (w : World.t)
  : bool * World.t :=
  match o with
  | RemoveResolves =>
      (true, World.emit (MultiRemove keys true)
               (World.setStorage (removeAll keys (World.storage w)) w))
  | RemoveRejects removed =>
      let gone := filter (fun k => k ∈ keys) removed in
      (false, World.emit (MultiRemove keys false)
                (World.setStorage (removeAll gone (World.storage w)) w))
  end.

End AsyncStorage.

(** ** Actions of [AppProvider] *)

(** [showToast(message, type)]. The timer that hides the toast again after
    [TOAST_DURATION] is not modelled. *)
Definition showToast (message : string) (type : ToastType) (w : World.t) : World.t :=
  World.setToastState (Toast.mk true message type) w.

(** The own enumerable properties that the spread [{...v}] copies; an
    index is named by its decimal numeral. *)
Definition ownProps (v : JSON.t) : list (string * JSON.t) :=
  match v with
  | JSON.Obj m => m
  | JSON.Arr l => imap (fun i x => (JS.decimal (Z.of_nat i), x)) l
  | JSON.Str s =>
      imap (fun i c => (JS.decimal (Z.of_nat i), JSON.Str (String c "")))
           (list_ascii_of_string s)
  | _ => []
  end.

(** [!definitionsCacheIndex[cacheKey]] is false: the key has a truthy
    (non-zero) timestamp in the index. *)
Definition indexHas (index : gmap string Z) (cacheKey : string) : bool :=
  match index !! cacheKey with
  | Some ts => negb (ts =? 0)
  | None => false
  end.

Definition getCachedDefinition (readRejects : bool) (params : RequestParams.t)
    (w : World.t) : option JSON.t * World.t :=
  if negb (World.isInitialDataLoaded w) then (None, w)
  else
    let cacheKey := generateCacheKey params in
    if negb (indexHas (World.definitionsCacheIndex w) cacheKey) then (None, w)
    else
      let '(read, w1) := AsyncStorage.getItem readRejects cacheKey w in
      let removeFromIndex :=
        World.setDefinitionsCacheIndex (fun prev => delete cacheKey prev) in
      match read with
      | ReadValue (Some definitionData) =>
          if isEmpty definitionData then (None, removeFromIndex w1)
          else
            match JSON.parse definitionData with
            | Some parsed =>
                (Some (JSON.Obj (JSON.setProp "cacheHit" (JSON.Bool true) (ownProps parsed))),
                 w1)
            | None => (* JSON.parse throws: the catch block *)
                (None, removeFromIndex w1)
            end
      | ReadValue None => (None, removeFromIndex w1)
      | ReadRejected => (None, removeFromIndex w1)
      end.

(** [saveToCache]: [savedAt] and [indexedAt] are the two readings of
    [Date.now()]. *)
Definition saveToCache (writeRejects : bool) (savedAt indexedAt : positive)
    (params : RequestParams.t) (resultData : JSON.t) (w : World.t) : World.t :=
  let cacheKey := generateCacheKey params in
  let dataToSave := JSON.Obj (JSON.setProp "savedAt" (JSON.Num (Z.pos savedAt)) (ownProps resultData)) in
  let '(resolved, w1) := AsyncStorage.setItem writeRejects cacheKey (JSON.stringify dataToSave) w in
  if resolved
  then World.setDefinitionsCacheIndex (fun prev => <[cacheKey := Z.pos indexedAt]> prev) w1
  else showToast "Could not save definition locally." error w1.

(** [Object.keys(definitionsCacheIndex)]. *)
Definition indexKeys (index : gmap string Z) : list string :=
  (map_to_list index).*1.

(** [clearCache] has no [return] statement: the promise resolves to
    [undefined], and [clearedCount] only reaches the text of the toast. *)
Definition clearCache (outcome : AsyncStorage.RemoveOutcome) (w : World.t)
  : JS.value * World.t :=
  let keysToRemove := indexKeys (World.definitionsCacheIndex w) in
  let '(resolved, clearedCount, w1) :=
    if (0 <? List.length keysToRemove)%nat
    then
      let '(ok, w') := AsyncStorage.multiRemove outcome keysToRemove w in
      (ok, if ok then List.length keysToRemove else 0%nat, w')
    else (true, 0%nat, w) in
  if resolved
  then
    (JS.Undefined,
     showToast (JS.Number_toString (Z.of_nat clearedCount) +:+ " definition(s) cleared from cache.")
       success (World.setDefinitionsCacheIndex (fun _ => ∅) w1))
  else
    (JS.Undefined,
     World.setDefinitionsCacheIndex (fun _ => ∅)
       (showToast "Cache clear failed. Some items might remain." error w1)).

(** The test of the filter of [addToHistory]: the same search parameters,
    strings compared without regard to case. *)
Definition sameSearch (h newItem : HistoryItem.t) : bool :=
  String.eqb (JS.toLowerCase (HistoryItem.word h)) (JS.toLowerCase (HistoryItem.word newItem))
  && bool_decide (HistoryItem.length h = HistoryItem.length newItem)
  && String.eqb (JS.toLowerCase (JS.strOr (HistoryItem.tone h) ""))
                (JS.toLowerCase (JS.strOr (HistoryItem.tone newItem) ""))
  && String.eqb (JS.toLowerCase (JS.strOr (HistoryItem.context h) ""))
                (JS.toLowerCase (JS.strOr (HistoryItem.context newItem) ""))
  && String.eqb (JS.toLowerCase (JS.strOr (HistoryItem.lang h) ""))
                (JS.toLowerCase (JS.strOr (HistoryItem.lang newItem) "")).

(** The updater that [addToHistory] hands to [setHistory]. *)
Definition recordHistory (newItem : HistoryItem.t) (prevHistory : list HistoryItem.t)
  : list HistoryItem.t :=
  let updatedHistory := List.filter (fun h => negb (sameSearch h newItem)) prevHistory in
  take HISTORY_MAX_ITEMS (newItem :: updatedHistory).

Definition addToHistory (now : positive) (item : option HistoryInput.t) (w : World.t) : World.t :=
  match item with
  | None => w
  | Some i =>
      match HistoryInput.word i with
      | None | Some EmptyString => w
      | Some word =>
          let newItem :=
            HistoryItem.mk word (HistoryInput.length i) (HistoryInput.tone i)
              (HistoryInput.context i) (HistoryInput.lang i) (Z.pos now) (HistoryInput.result i) in
          World.setHistory (recordHistory newItem) w
      end
  end.

(** Property access [v.k] on a value that is not [null]. *)
Definition prop (v : JSON.t) (k : string) : option JSON.t :=
  match v with
  | JSON.Obj m => JSON.getProp k m
  | _ => None
  end.

(** Optional chaining [v?.k]. *)
Definition optProp (v : option JSON.t) (k : string) : option JSON.t :=
  match v with
  | None | Some JSON.Null => None
  | Some o => prop o k
  end.

(** The fields of a history item are read at the types of the data model. *)
Definition asString (v : option JSON.t) : option string :=
  match v with
  | Some (JSON.Str s) => Some s
  | _ => None
  end.

Definition asInteger (v : option JSON.t) : option Z :=
  match v with
  | Some (JSON.Num n) => Some n
  | _ => None
  end.

(** The item that [handleDefine] passes to [addToHistory] for a result. *)
Definition historyInput (r : JSON.t) : HistoryInput.t :=
  let config := prop r "config" in
  {| HistoryInput.word := asString (prop r "word");
     HistoryInput.length := asInteger (prop r "requestedLength");
     HistoryInput.tone := asString (optProp config "tone");
     HistoryInput.context := asString (optProp config "context");
     HistoryInput.lang := asString (optProp config "effectiveLang");
     HistoryInput.result :=
       {| HistoryResult.actualLength := prop r "actualLength";
          HistoryResult.status := prop r "status";
          HistoryResult.effectiveLang := optProp config "effectiveLang" |} |}.

(** How the request to the Define Service ends: [fetch] or
    [response.json()] rejects with an error carrying [message], or the
    service answers with a status and a JSON object. *)
Inductive FetchOutcome : Type :=
| FetchRejects (message : string)
| FetchResponds (ok : bool) (status : Z) (responseData : list (string * JSON.t)).

(** What the environment decides during one run of [handleDefine]. *)
Module DefineEnv.
Record t : Type := mk {
  readRejects : bool;
  fetched : FetchOutcome;
  historyNow : positive;
  writeRejects : bool;
  savedAt : positive;
  indexedAt : positive
}.
End DefineEnv.

(** [s || undefined]. *)
Definition nonEmpty (s : string) : option string :=
  if isEmpty s then None else Some s.

(** [...(s && { k: s })] in an object literal. *)
Definition optionalProp (k s : string) : list (string * JSON.t) :=
  if isEmpty s then [] else [(k, JSON.Str s)].

(** The catch block of [handleDefine], followed by its finally block. *)
Definition defineFailed (message : string) (w : World.t) : World.t :=
  let errorMessage :=
    if isEmpty message
    then "An unexpected error occurred while fetching the definition."%string
    else message in
  World.setIsLoading false
    (showToast errorMessage error
       (World.setDefinitionResult None (World.setError (Some errorMessage) w))).

(** [(params.word || word || '').trim()] and [params.length || length]:
    what [handleDefine] validates, the passed parameters first and the form
    state second. *)
Definition wordToDefine (params : RequestParams.t) (w : World.t) : string :=
  JS.trim (JS.strOr (RequestParams.word params) (World.word w)).

Definition requestedLength (params : RequestParams.t) (w : World.t) : JS.value :=
  JS.or (RequestParams.length params) (JS.Str (World.length w)).

Definition handleDefine (env : DefineEnv.t) (params : RequestParams.t) (w : World.t)
  : World.t :=
  let wordToDefine := wordToDefine params w in
  let requestedLength := requestedLength params w in
  let toneParam := default (World.tone w) (RequestParams.tone params) in
  let contextParam := default (World.contextValue w) (RequestParams.context params) in
  let langParam := default (World.lang w) (RequestParams.lang params) in
  match validateInputs wordToDefine requestedLength with
  | Some validationError =>
      showToast validationError error (World.setError (Some validationError) w)
  | None =>
      let w1 := World.setDefinitionResult None (World.setError None (World.setIsLoading true w)) in
      let requestParams :=
        RequestParams.mk (Some wordToDefine) requestedLength
          (nonEmpty toneParam) (nonEmpty contextParam) (nonEmpty langParam) in
      let '(cachedResult, w2) := getCachedDefinition (DefineEnv.readRejects env) requestParams w1 in
      match cachedResult with
      | Some cached =>
          let w3 := World.setIsLoading false (World.setDefinitionResult (Some cached) w2) in
          let w4 := addToHistory (DefineEnv.historyNow env) (Some (historyInput cached)) w3 in
          showToast "Definition loaded from local cache." info w4
      | None =>
          let apiRequestBody :=
            JSON.Obj ([ ("word"%string, JSON.Str wordToDefine);
                        ("length"%string, KeyParams.number (JS.parseInt requestedLength)) ]
                      ++ optionalProp "tone" toneParam
                      ++ optionalProp "context" contextParam
                      ++ optionalProp "lang" langParam) in
          let w3 := World.emit (Fetch apiRequestBody) w2 in
          match DefineEnv.fetched env with
          | FetchRejects message => defineFailed message w3
          | FetchResponds false status responseData =>
              let message :=
                match asString (JSON.getProp "message" responseData) with
                | Some (String c m) => String c m
                | _ => ("API request failed with status: " +:+ JS.Number_toString status)%string
                end in
              defineFailed message w3
          | FetchResponds true _ responseData =>
              let finalResultData :=
                JSON.Obj
                  (JSON.setProp "cacheHit" (JSON.Bool false)
                     (JSON.setProp "requestedLength"
                        (KeyParams.number (JS.parseInt requestedLength)) responseData)) in
              let w4 := World.setDefinitionResult (Some finalResultData) w3 in
              let w5 := addToHistory (DefineEnv.historyNow env) (Some (historyInput finalResultData)) w4 in
              let w6 :=
                saveToCache (DefineEnv.writeRejects env) (DefineEnv.savedAt env)
                  (DefineEnv.indexedAt env) requestParams finalResultData w5 in
              World.setIsLoading false w6
          end
      end
  end.

(** ** Favorites and quiz list *)

Definition sameWord (a b : string) : bool :=
  String.eqb (JS.toLowerCase a) (JS.toLowerCase b).

(** [!wordToAdd || !wordToAdd.trim()]. *)
Definition blank (w : option string) : bool :=
  match w with
  | None => true
  | Some s => isEmpty s || isEmpty (JS.trim s)
  end.

Definition addFavorite (now : positive) (wordToAdd : option string) (w : World.t) : World.t :=
  if blank wordToAdd then w
  else
    let trimmedWord := JS.trim (default "" wordToAdd) in
    if negb (existsb (fun fav => sameWord (FavoriteItem.word fav) trimmedWord)
               (World.favorites w))
    then
      showToast ("Favorited: " +:+ trimmedWord) success
        (World.setFavorites (fun prevFavorites => FavoriteItem.mk trimmedWord (Z.pos now) :: prevFavorites) w)
    else showToast (trimmedWord +:+ " is already in favorites.") info w.

Definition removeFavorite (wordToRemove : option string) (w : World.t) : World.t :=
  if blank wordToRemove then w
  else
    let trimmedWord := JS.trim (default "" wordToRemove) in
    showToast ("Unfavorited: " +:+ trimmedWord) info
      (World.setFavorites
         (fun prevFavorites =>
            List.filter (fun fav => negb (sameWord (FavoriteItem.word fav) trimmedWord))
              prevFavorites) w).

Definition isFavorite (wordToCheck : option string) (w : World.t) : bool :=
  if blank wordToCheck then false
  else
    let trimmedWord := JS.trim (default "" wordToCheck) in
    existsb (fun fav => sameWord (FavoriteItem.word fav) trimmedWord) (World.favorites w).

(** [addToQuiz]: the id is [Date.now().toString()]. *)
Definition addToQuiz (now : positive) (wordToAdd : option string) (w : World.t) : World.t :=
  if blank wordToAdd then w
  else
    let trimmedWord := JS.trim (default "" wordToAdd) in
    if negb (existsb (fun item => sameWord (QuizItem.word item) trimmedWord)
               (World.quizList w))
    then
      let newItem := QuizItem.mk trimmedWord (JS.Number_toString (Z.pos now)) in
      showToast ("Added to Quiz List: " +:+ trimmedWord) success
        (World.setQuizList (fun prevQuizList => newItem :: prevQuizList) w)
    else showToast (trimmedWord +:+ " is already in the Quiz list.") info w.

(** ** The rest of [AppProvider] and the handlers of the screens *)

(** The keys under which the four collections are persisted. *)
Definition FAVORITES_KEY : string := "@VocabMaster:favorites_v2".
Definition HISTORY_KEY : string := "@VocabMaster:history_v2".
Definition QUIZ_LIST_KEY : string := "@VocabMaster:quizList_v2".
Definition CACHE_INDEX_KEY : string := "@VocabMaster:definitionsCacheIndex_v2".

(** The [requestParams] object of [handleDefine], which it passes to
    [getCachedDefinition] and to [saveToCache]. *)
Definition requestParams (params : RequestParams.t) (w : World.t) : RequestParams.t :=
  RequestParams.mk (Some (wordToDefine params w)) (requestedLength params w)
    (nonEmpty (default (World.tone w) (RequestParams.tone params)))
    (nonEmpty (default (World.contextValue w) (RequestParams.context params)))
    (nonEmpty (default (World.lang w) (RequestParams.lang params))).

(** [handleDefine()] without an argument: [params = {}]. *)
Definition noParams : RequestParams.t :=
  RequestParams.mk None JS.Undefined None None None.

(** [removeFromQuiz]: the word of the toast is that of the first item with
    the id, or ['Word']. *)
Definition removeFromQuiz (idToRemove : string) (w : World.t) : World.t :=
  let word :=
    JS.strOr
      (option_map QuizItem.word
         (List.find (fun item => String.eqb (QuizItem.id item) idToRemove) (World.quizList w)))
      "Word" in
  showToast ("Removed from Quiz List: " +:+ word) info
    (World.setQuizList
       (fun prevQuizList =>
          List.filter (fun item => negb (String.eqb (QuizItem.id item) idToRemove))
            prevQuizList) w).

(** [clearHistory]: the alert offers "Cancel" and "Clear All"; [confirmed]
    says that "Clear All" was pressed. *)
Definition clearHistory (confirmed : bool) (w : World.t) : World.t :=
  if confirmed
  then showToast "Search History Cleared" success (World.setHistory (fun _ => []) w)
  else w.

(** The setters of the form state. *)
Definition setWord (v : string) (w : World.t) : World.t :=
  World.mk v (World.length w) (World.tone w) (World.contextValue w) (World.lang w)
    (World.definitionResult w) (World.isLoading w) (World.error w)
    (World.favorites w) (World.history w) (World.quizList w) (World.definitionsCacheIndex w)
    (World.favLoaded w) (World.histLoaded w) (World.quizLoaded w) (World.cacheIdxLoaded w)
    (World.toastState w) (World.storage w) (World.trace w).

Definition setTone (v : string) (w : World.t) : World.t :=
  World.mk (World.word w) (World.length w) v (World.contextValue w) (World.lang w)
    (World.definitionResult w) (World.isLoading w) (World.error w)
    (World.favorites w) (World.history w) (World.quizList w) (World.definitionsCacheIndex w)
    (World.favLoaded w) (World.histLoaded w) (World.quizLoaded w) (World.cacheIdxLoaded w)
    (World.toastState w) (World.storage w) (World.trace w).

Definition setContextValue (v : string) (w : World.t) : World.t :=
  World.mk (World.word w) (World.length w) (World.tone w) v (World.lang w)
    (World.definitionResult w) (World.isLoading w) (World.error w)
    (World.favorites w) (World.history w) (World.quizList w) (World.definitionsCacheIndex w)
    (World.favLoaded w) (World.histLoaded w) (World.quizLoaded w) (World.cacheIdxLoaded w)
    (World.toastState w) (World.storage w) (World.trace w).

Definition setLang (v : string) (w : World.t) : World.t :=
  World.mk (World.word w) (World.length w) (World.tone w) (World.contextValue w) v
    (World.definitionResult w) (World.isLoading w) (World.error w)
    (World.favorites w) (World.history w) (World.quizList w) (World.definitionsCacheIndex w)
    (World.favLoaded w) (World.histLoaded w) (World.quizLoaded w) (World.cacheIdxLoaded w)
    (World.toastState w) (World.storage w) (World.trace w).

(** The state of [AppProvider] that the cache and the collections do not
    read: the visibility of the optional filters and the two sort orders. *)
Module Ui.
Record t : Type := mk {
  world : World.t;
  showOptionalFilters : bool;
  favSortOrder : string;
  histSortOrder : string
}.
End Ui.

(** [clearSearch]: the length of the form is kept. *)
Definition clearSearch (ui : Ui.t) : Ui.t :=
  Ui.mk
    (World.setDefinitionResult None
       (World.setError None
          (setLang "" (setContextValue "" (setTone "" (setWord "" (Ui.world ui)))))))
    false (Ui.favSortOrder ui) (Ui.histSortOrder ui).

(** [Array.prototype.sort(compare)]: the sort is stable, so for a comparator
    that orders the elements consistently its result is the one of this
    insertion sort, which keeps elements that compare equal in their
    order. *)
Fixpoint insertBy {A : Type} (compare : A -> A -> Z) (x : A) (l : list A) : list A :=
  match l with
  | [] => [x]
  | y :: l' => if compare x y <=? 0 then x :: l else y :: insertBy compare x l'
  end.

Definition sortBy {A : Type} (compare : A -> A -> Z) (l : list A) : list A :=
  fold_right (insertBy compare) [] l.

Section Sorting.

(** [String.prototype.localeCompare] depends on the locale of the engine:
    it is a parameter of the sorted views. *)
Variable localeCompare : string -> string -> Z.

(** The comparator of [sortedFavorites] and [sortedHistory]; an order that
    is none of the four falls to the default of the [switch]. *)
Definition compareItems {A : Type} (word : A -> string) (timestamp : A -> Z)
    (sortOrder : string) (a b : A) : Z :=
  if String.eqb sortOrder "a-z" then localeCompare (word a) (word b)
  else if String.eqb sortOrder "z-a" then localeCompare (word b) (word a)
  else if String.eqb sortOrder "oldest" then timestamp a - timestamp b
  else timestamp b - timestamp a.

Definition sortedFavorites (ui : Ui.t) : list FavoriteItem.t :=
  sortBy (compareItems FavoriteItem.word FavoriteItem.timestamp (Ui.favSortOrder ui))
    (World.favorites (Ui.world ui)).

Definition sortedHistory (ui : Ui.t) : list HistoryItem.t :=
  sortBy (compareItems HistoryItem.word HistoryItem.timestamp (Ui.histSortOrder ui))
    (World.history (Ui.world ui)).

(** [RecentSearchesContainer]: the first five entries of the sorted
    history. *)
Definition recentHistory (ui : Ui.t) : list HistoryItem.t :=
  take 5 (sortedHistory ui).

End Sorting.

(** ** Handlers of the screens *)

(** [SearchForm]: the button is enabled when the form validates. *)
Definition canDefine (w : World.t) : bool :=
  match validateInputs (World.word w) (JS.Str (World.length w)) with
  | None => true
  | Some _ => false
  end.

(** [!error] is false. *)
Definition hasError (w : World.t) : bool :=
  match World.error w with
  | Some (String _ _) => true
  | _ => false
  end.

(** [submitDefine]: the first component is the message of the alert, when
    one is shown. *)
Definition submitDefine (env : DefineEnv.t) (w : World.t) : option string * World.t :=
  if canDefine w && negb (World.isLoading w)
  then (None, handleDefine env noParams w)
  else
    match validateInputs (World.word w) (JS.Str (World.length w)) with
    | Some validationError =>
        if JS.isEmpty validationError || hasError w then (None, w)
        else (Some validationError, w)
    | None => (None, w)
    end.

(** [item.length || 30]. *)
Definition lengthOr30 (length : option Z) : JS.value :=
  JS.or (match length with Some n => JS.Num n | None => JS.Undefined end) (JS.Num 30).

(** The parameters with which a history item is defined again. *)
Definition replayParams (item : HistoryItem.t) : RequestParams.t :=
  RequestParams.mk (Some (HistoryItem.word item)) (lengthOr30 (HistoryItem.length item))
    (HistoryItem.tone item) (HistoryItem.context item) (HistoryItem.lang item).

(** [handlePress] of [RecentSearchesContainer]. *)
Definition handlePress (env : DefineEnv.t) (item : option HistoryItem.t) (w : World.t)
  : World.t :=
  match item with
  | None => w
  | Some i =>
      if JS.isEmpty (HistoryItem.word i) then w
      else handleDefine env (replayParams i) w
  end.

(** The text [Defining "word"...] of the toasts of the list screens. *)
Definition definingMessage (word : string) : string :=
  "Defining " +:+ String JSON.dquote (word +:+ String JSON.dquote "...").

(** [handleHistoryPress] of [HistoryScreen] (the navigation to the Define
    tab is not part of the state). *)
Definition handleHistoryPress (env : DefineEnv.t) (item : option HistoryItem.t) (w : World.t)
  : World.t :=
  match item with
  | None => w
  | Some i =>
      if JS.isEmpty (HistoryItem.word i) then w
      else handleDefine env (replayParams i) (showToast (definingMessage (HistoryItem.word i)) info w)
  end.


(** [toggleFavorite] of [DefinitionResult]. The component renders only for
    a truthy result; [word] is the property of the result, ['Word'] when the
    result has none. The outcome is [None] when [word] is neither falsy nor
    a string: [word.trim] is not a function. *)
Definition toggleFavorite (now : positive) (w : World.t) : option World.t :=
  match World.definitionResult w with
  | None | Some JSON.Null | Some (JSON.Bool false) | Some (JSON.Num 0)
  | Some (JSON.Str EmptyString) => Some w
  | Some definitionResult =>
      match default (JSON.Str "Word") (prop definitionResult "word") with
      | JSON.Str word =>
          Some (if isFavorite (Some word) w then removeFavorite (Some word) w
                else addFavorite now (Some word) w)
      | JSON.Null | JSON.Bool false | JSON.Num 0 => Some w
      | _ => None
      end
  end.

(** [DefineScreen]: what is shown. *)
Definition showLoading (w : World.t) : bool := World.isLoading w.

Definition showError (w : World.t) : bool :=
  negb (World.isLoading w) && hasError w.

Definition showResult (w : World.t) : bool :=
  negb (World.isLoading w) && negb (hasError w)
  && match World.definitionResult w with Some _ => true | None => false end.

Definition showFormArea (w : World.t) : bool :=
  negb (World.isLoading w) && negb (hasError w)
  && match World.definitionResult w with Some _ => false | None => true end.

Definition showRecentSearches (localeCompare : string -> string -> Z) (ui : Ui.t) : bool :=
  showFormArea (Ui.world ui)
  && (0 <? length (sortedHistory localeCompare ui))%nat
  && JS.isEmpty (JS.trim (World.word (Ui.world ui))).

(** ** Notions used in the proofs about [JSON.parse] *)

Inductive startsWith (p : ascii -> bool) : string -> Prop :=
| startsWith_intro c s : p c = true -> startsWith p (String c s).

Definition noDigitAhead (s : string) : Prop := ~ startsWith JS.isDigit s.

Definition closes (rest : string) : bool :=
  match rest with
  | EmptyString => true
  | String c _ => Ascii.eqb c "," || Ascii.eqb c "]" || Ascii.eqb c "}"
  end.

Section JSON_induction.
Variable P : JSON.t -> Prop.
Hypothesis HNull : P JSON.Null.
Hypothesis HBool : forall b, P (JSON.Bool b).
Hypothesis HNum : forall n, P (JSON.Num n).
Hypothesis HStr : forall s, P (JSON.Str s).
Hypothesis HArr : forall l, Forall P l -> P (JSON.Arr l).
Hypothesis HObj : forall m, Forall (fun kv => P (snd kv)) m -> P (JSON.Obj m).

Fixpoint JSON_ind_nested (v : JSON.t) : P v :=
  match v with
  | JSON.Null => HNull
  | JSON.Bool b => HBool b
  | JSON.Num n => HNum n
  | JSON.Str s => HStr s
  | JSON.Arr l =>
      HArr l ((fix go (l : list JSON.t) : Forall P l :=
                 match l with
                 | [] => List.Forall_nil P
                 | x :: l' => @List.Forall_cons _ P x l' (JSON_ind_nested x) (go l')
                 end) l)
  | JSON.Obj m =>
      HObj m ((fix go (m : list (string * JSON.t)) : Forall (fun kv => P (snd kv)) m :=
                 match m with
                 | [] => List.Forall_nil _
                 | kv :: m' => @List.Forall_cons _ _ kv m' (JSON_ind_nested (snd kv)) (go m')
                 end) m)
  end.
End JSON_induction.

(** The fuel that parsing the text of [v] takes. *)
Fixpoint fuelOf (v : JSON.t) : nat :=
  match v with
  | JSON.Arr l => S (fold_right (fun x n => S (fuelOf x + n)) 0 l)%nat
  | JSON.Obj m => S (fold_right (fun kv n => S (fuelOf (snd kv) + n)) 0 m)%nat
  | _ => 1%nat
  end.

Definition member (kv : string * JSON.t) : string :=
  JSON.quote (fst kv) +:+ ":" +:+ JSON.stringify (snd kv).

(** The first character of a serialized value. *)
Definition startsValue (c : ascii) : bool :=
  match N_of_ascii c with
  | 123%N | 91%N | 34%N | 116%N | 102%N | 110%N | 45%N => true
  | _ => JS.isDigit c
  end.

Definition roundTrips (v : JSON.t) : Prop :=
  forall fuel rest, (fuelOf v <= fuel)%nat -> closes rest = true ->
    JSON.parseValue fuel (JSON.stringify v +:+ rest) = Some (v, rest).

(** ** Notions used in the statements *)

(** The identity tuple of a history entry, as [sameSearch] compares it. *)
Definition identity (h : HistoryItem.t) : string * option Z * string * string * string :=
  (JS.toLowerCase (HistoryItem.word h),
   HistoryItem.length h,
   JS.toLowerCase (JS.strOr (HistoryItem.tone h) ""),
   JS.toLowerCase (JS.strOr (HistoryItem.context h) ""),
   JS.toLowerCase (JS.strOr (HistoryItem.lang h) "")).

(** A sequence of [addToHistory] calls, each with its reading of the clock. *)
Definition recordCalls (calls : list (positive * option HistoryInput.t)) (w : World.t)
  : World.t :=
  fold_left (fun w' c => addToHistory (fst c) (snd c) w') calls w.

(** A sequence of additions to the favorites and to the quiz list. *)
Inductive AddCall : Type :=
| AddFavorite (now : positive) (wordToAdd : option string)
| AddToQuiz (now : positive) (wordToAdd : option string).

Definition addCall (w : World.t) (c : AddCall) : World.t :=
  match c with
  | AddFavorite now wordToAdd => addFavorite now wordToAdd w
  | AddToQuiz now wordToAdd => addToQuiz now wordToAdd w
  end.

Definition addCalls (calls : list AddCall) (w : World.t) : World.t :=
  fold_left addCall calls w.

(** The words of a collection as the membership tests compare them. *)
Definition favoriteWords (w : World.t) : list string :=
  map (fun fav => JS.toLowerCase (FavoriteItem.word fav)) (World.favorites w).

Definition quizWords (w : World.t) : list string :=
  map (fun item => JS.toLowerCase (QuizItem.word item)) (World.quizList w).

(** A normalized length as the key holds it: [JSON.stringify] writes [NaN]
    and the two infinities alike, as [null]. *)
Definition written (n : JS.number) : option Z :=
  match n with
  | JS.Finite z => Some z
  | JS.NaN | JS.Infinity _ => None
  end.

(** The fields of a normalized request as the key holds them. *)
Definition keyFields (k : KeyParams.t) : string * option Z * string * string * string :=
  (KeyParams.word k, written (KeyParams.length k), KeyParams.tone k,
   KeyParams.context k, KeyParams.lang k).

(** The normal form of a request in the words of the specification: the
    word trimmed and lower-cased; the tone, the context and the language
    lower-cased, with the defaults "neutral", "none" and "auto"; the length
    coerced to an integer, as the key holds it. *)
Definition normalForm (p : RequestParams.t)
  : string * option Z * string * string * string :=
  (JS.toLowerCase (JS.trim (JS.strOr (RequestParams.word p) "")),
   written (JS.parseInt (JS.or (RequestParams.length p) (JS.Num 0))),
   JS.toLowerCase (JS.strOr (RequestParams.tone p) "neutral"),
   JS.toLowerCase (JS.strOr (RequestParams.context p) "none"),
   JS.toLowerCase (JS.strOr (RequestParams.lang p) "auto")).

(** The key of a request in the form in which [JSON.stringify] writes it:
    the five properties in the order of their names. *)
Definition keyObject (k : KeyParams.t) : JSON.t :=
  JSON.Obj
    [ ("context"%string, JSON.Str (KeyParams.context k));
      ("lang"%string, JSON.Str (KeyParams.lang k));
      ("length"%string, KeyParams.number (KeyParams.length k));
      ("tone"%string, JSON.Str (KeyParams.tone k));
      ("word"%string, JSON.Str (KeyParams.word k)) ].

(** ** States used in the examples *)

(** The state of [AppProvider] before anything is loaded, over an empty
    store. *)
Definition initialWorld : World.t :=
  World.mk "" "30" "" "" "" None false None [] [] [] ∅
    false false false false (Toast.mk false "" info) ∅ [].

(** The same state once the four collections have been loaded. *)
Definition loadedWorld : World.t :=
  World.mk "" "30" "" "" "" None false None [] [] [] ∅
    true true true true (Toast.mk false "" info) ∅ [].

Definition noResult : HistoryResult.t := HistoryResult.mk None None None.

Definition catSearch : HistoryInput.t :=
  HistoryInput.mk (Some "Cat"%string) (Some 30) None None None noResult.

Definition dogSearch : HistoryInput.t :=
  HistoryInput.mk (Some "dog"%string) (Some 30) None None None noResult.

Definition catEntry : HistoryItem.t :=
  HistoryItem.mk "cat" (Some 30) None None None 1 noResult.

(** A loaded state whose history holds the same search twice. *)
Definition repeatedHistoryWorld : World.t :=
  World.mk "" "30" "" "" "" None false None [] [catEntry; catEntry] [] ∅
    true true true true (Toast.mk false "" info) ∅ [].

Definition catParams : RequestParams.t :=
  RequestParams.mk (Some "cat"%string) (JS.Num 30) None None None.

Definition catKey : string := Eval vm_compute in generateCacheKey catParams.

(** Two requests for one word: a length that is no number, and a length of
    310 digits, which is beyond the largest Number. *)
Definition unreadableLength : RequestParams.t :=
  RequestParams.mk (Some "cat"%string) (JS.Str "abc") None None None.

Definition hugeLength : RequestParams.t :=
  RequestParams.mk (Some "cat"%string) (JS.Str (String "1" (JS.zeros 309))) None None None.

Definition catPayload : JSON.t :=
  JSON.Obj [ ("word"%string, JSON.Str "cat");
             ("result"%string, JSON.Str "a small domesticated feline");
             ("requestedLength"%string, JSON.Num 30);
             ("cacheHit"%string, JSON.Bool false) ].

(** A loaded state whose index and store both hold an entry for
    [catParams]. *)
Definition cachedWorld : World.t :=
  World.mk "" "30" "" "" "" None false None [] [] []
    {[ catKey := 1700000000000 ]}
    true true true true (Toast.mk false "" info)
    {[ catKey := JSON.stringify catPayload ]} [].


(** The entry that [addToHistory] builds for an item with the word [word]
    at the clock reading [now]. *)
Definition historyItemOf (now : positive) (word : string) (i : HistoryInput.t)
  : HistoryItem.t :=
  HistoryItem.mk word (HistoryInput.length i) (HistoryInput.tone i)
    (HistoryInput.context i) (HistoryInput.lang i) (Z.pos now) (HistoryInput.result i).

(** Searches for one word that differ in their length. *)
Definition searchOfLength (n : nat) : positive * option HistoryInput.t :=
  (Pos.of_nat n,
   Some (HistoryInput.mk (Some "word"%string) (Some (Z.of_nat n)) None None None noResult)).

(** A loaded state whose history is full: [HISTORY_MAX_ITEMS] searches. *)
Definition fullHistoryWorld : World.t :=
  recordCalls (map searchOfLength (seq 1 HISTORY_MAX_ITEMS)) loadedWorld.

(** ** Notions used in the properties of [handleDefine] *)

(** The state in which [handleDefine] looks the request up: loading, with
    the error and the displayed result cleared. *)
Definition started (w : World.t) : World.t :=
  World.setDefinitionResult None (World.setError None (World.setIsLoading true w)).

(** The key under which [handleDefine] looks the request up and stores its
    result. *)
Definition requestKey (params : RequestParams.t) (w : World.t) : string :=
  generateCacheKey (requestParams params w).

(** The body of the request that [handleDefine] sends to the service. *)
Definition apiRequestBody (params : RequestParams.t) (w : World.t) : JSON.t :=
  JSON.Obj ([ ("word"%string, JSON.Str (wordToDefine params w));
              ("length"%string, KeyParams.number (JS.parseInt (requestedLength params w))) ]
            ++ optionalProp "tone" (default (World.tone w) (RequestParams.tone params))
            ++ optionalProp "context"
                 (default (World.contextValue w) (RequestParams.context params))
            ++ optionalProp "lang" (default (World.lang w) (RequestParams.lang params))).

(** The result that [handleDefine] displays and stores for the response
    [responseData]. *)
Definition finalResultData (params : RequestParams.t) (w : World.t)
    (responseData : list (string * JSON.t)) : JSON.t :=
  JSON.Obj
    (JSON.setProp "cacheHit" (JSON.Bool false)
       (JSON.setProp "requestedLength"
          (KeyParams.number (JS.parseInt (requestedLength params w))) responseData)).

(** The text under which [saveToCache] stores a result at the clock reading
    [savedAt]. *)
Definition storedText (savedAt : positive) (resultData : JSON.t) : string :=
  JSON.stringify
    (JSON.Obj (JSON.setProp "savedAt" (JSON.Num (Z.pos savedAt)) (ownProps resultData))).

(** The message of the error that [handleDefine] catches for an outcome of
    the request that is no success; as in [handleDefine], the [message] of a
    response is read as a string, and counts as absent when it is none. *)
Definition failureMessage (fetched : FetchOutcome) : string :=
  let message :=
    match fetched with
    | FetchRejects message => message
    | FetchResponds _ status responseData =>
        match asString (JSON.getProp "message" responseData) with
        | Some (String c m) => String c m
        | _ => ("API request failed with status: " +:+ JS.Number_toString status)%string
        end
    end in
  if JS.isEmpty message
  then "An unexpected error occurred while fetching the definition."%string
  else message.

(** The request fails: [fetch] or [response.json()] rejects, or the status
    of the response is not in the range 200-299. *)
Definition requestFails (fetched : FetchOutcome) : bool :=
  match fetched with
  | FetchRejects _ => true
  | FetchResponds ok _ _ => negb ok
  end.

(** An environment in which the request succeeds with the object
    [responseData] and every call to AsyncStorage resolves. *)
Definition servedBy (now savedAt indexedAt : positive) (responseData : list (string * JSON.t))
  : DefineEnv.t :=
  DefineEnv.mk false (FetchResponds true 200 responseData) now false savedAt indexedAt.

(** The response of the service for the word "cat". *)
Definition catResponse : list (string * JSON.t) :=
  [ ("word"%string, JSON.Str "cat");
    ("result"%string, JSON.Str "a small domesticated feline");
    ("actualLength"%string, JSON.Num 27) ].

(** ** Notions used in the properties of the sorted views *)

(** Two timestamps are in the order that the sort order asks for: rising
    for ['oldest'], falling for ['newest'] and for any other value. *)
Definition inTimeOrder (sortOrder : string) (a b : Z) : Prop :=
  if String.eqb sortOrder "oldest" then a <= b else b <= a.

(** The sort order compares timestamps, not words. *)
Definition sortsByTime (sortOrder : string) : bool :=
  negb (String.eqb sortOrder "a-z") && negb (String.eqb sortOrder "z-a").

(** A state whose history holds three searches, the oldest first. *)
Definition threeSearchesWorld : World.t :=
  World.mk "" "30" "" "" "" None false None []
    [ HistoryItem.mk "ant" (Some 30) None None None 10 noResult;
      HistoryItem.mk "cat" (Some 30) None None None 30 noResult;
      HistoryItem.mk "bee" (Some 30) None None None 20 noResult ]
    [] ∅ true true true true (Toast.mk false "" info) ∅ [].

(** * Properties *)

(** ** The model on concrete inputs *)

Example parseInt_of_text : JS.parseInt (JS.Str "30") = JS.Finite 30.
Proof. reflexivity. Qed.

Example parseInt_stops_at_first_non_digit :
  JS.parseInt (JS.Str "  -12abc") = JS.Finite (-12).
Proof. reflexivity. Qed.

Example parseInt_of_letters_is_NaN : JS.parseInt (JS.Str "abc") = JS.NaN.
Proof. reflexivity. Qed.

Example parseInt_of_undefined_is_NaN : JS.parseInt JS.Undefined = JS.NaN.
Proof. reflexivity. Qed.

(** Above 2^53 [parseInt] rounds: 2^53 + 1 lies between two Numbers and goes
    to the one with the even significand. *)
Example parseInt_rounds_to_the_nearest_Number :
  JS.parseInt (JS.Str "9007199254740993") = JS.Finite 9007199254740992
  /\ JS.parseInt (JS.Str "9007199254740995") = JS.Finite 9007199254740996.
Proof. split; vm_compute; reflexivity. Qed.

(** A numeral of 310 digits is beyond the largest Number. *)
Example parseInt_overflows_to_Infinity :
  JS.parseInt (JS.Str (String "1" (JS.zeros 309))) = JS.Infinity false
  /\ JS.parseInt (JS.Str (String "-" (String "1" (JS.zeros 309)))) = JS.Infinity true.
Proof. split; vm_compute; reflexivity. Qed.

(** From 10^21 on a number is printed with an exponent, of which [parseInt]
    reads the digits before the point. *)
Example Number_toString_with_exponent :
  JS.Number_toString (10 ^ 21) = "1e+21"%string
  /\ JS.Number_toString (15 * 10 ^ 20) = "1.5e+21"%string
  /\ JS.Number_toString (10 ^ 21 - 2 ^ 17) = "999999999999999900000"%string
  /\ JS.Number_toString (2 ^ 60) = "1152921504606847000"%string
  /\ JS.parseInt (JS.Num (10 ^ 21)) = JS.Finite 1.
Proof. repeat split; vm_compute; reflexivity. Qed.

Example trim_both_ends : JS.trim "  Hello World  " = "Hello World"%string.
Proof. reflexivity. Qed.

Example toLowerCase_letters_only : JS.toLowerCase "Hello World[]" = "hello world[]"%string.
Proof. reflexivity. Qed.

Example validateInputs_accepts_250 : validateInputs "cat" (JS.Str "250") = None.
Proof. reflexivity. Qed.

Example validateInputs_refuses_251 :
  validateInputs "cat" (JS.Str "251") = Some "Please enter a valid length (1-250)."%string.
Proof. reflexivity. Qed.

Example validateInputs_refuses_spaces :
  validateInputs "   " (JS.Num 30) = Some "Please enter a word or phrase."%string.
Proof. reflexivity. Qed.

Example parse_with_white_space :
  JSON.parse " [1, [true, null], -20 , {}] "
  = Some (JSON.Arr [JSON.Num 1; JSON.Arr [JSON.Bool true; JSON.Null]; JSON.Num (-20);
                    JSON.Obj []]).
Proof. reflexivity. Qed.

Example parse_refuses_leading_zero : JSON.parse "012" = None.
Proof. reflexivity. Qed.

Example parse_refuses_trailing_comma : JSON.parse "[1,]" = None.
Proof. reflexivity. Qed.

Example parse_of_stringify :
  JSON.parse (JSON.stringify catPayload) = Some catPayload.
Proof. reflexivity. Qed.

Example stringify_escapes :
  JSON.stringify (JSON.Str (String (ascii_of_N 10) (String JSON.dquote "a")))
  = String JSON.dquote
      (String JSON.backslash (String "n"
         (String JSON.backslash (String JSON.dquote (String "a" (String JSON.dquote "")))))).
Proof. reflexivity. Qed.

Example generateCacheKey_ignores_case_and_margins :
  generateCacheKey (RequestParams.mk (Some "  Ephemeral "%string) (JS.Str "25")
                      (Some "Formal"%string) None None)
  = generateCacheKey (RequestParams.mk (Some "ephemeral"%string) (JS.Num 25)
                        (Some "formal"%string) (Some "none"%string) (Some "AUTO"%string)).
Proof. reflexivity. Qed.

(** The scenario of the specification: the same request issued twice. The
    first run misses the cache, asks the service and stores the entry; the
    second is served from the cache, so the service is asked once, and its
    history item replaces the first. *)
Example ephemeral_twice :
  let params :=
    RequestParams.mk (Some "Ephemeral"%string) (JS.Num 25) (Some "formal"%string) None None in
  let responseData :=
    [ ("word"%string, JSON.Str "Ephemeral");
      ("result"%string, JSON.Str "lasting a very short time");
      ("actualLength"%string, JSON.Num 5);
      ("status"%string, JSON.Str "ok");
      ("config"%string,
       JSON.Obj [ ("tone"%string, JSON.Str "formal");
                  ("effectiveLang"%string, JSON.Str "en") ]) ] in
  let w1 :=
    handleDefine (DefineEnv.mk false (FetchResponds true 200 responseData) 100 false 101 102)
      params loadedWorld in
  let w2 :=
    handleDefine (DefineEnv.mk false (FetchRejects "offline") 200 false 201 202) params w1 in
  map HistoryItem.timestamp (World.history w1) = [100]
  /\ size (World.definitionsCacheIndex w1) = 1%nat
  /\ length (List.filter (fun e => match e with Fetch _ => true | _ => false end)
               (World.trace w2)) = 1%nat
  /\ map HistoryItem.timestamp (World.history w2) = [200]
  /\ option_map (fun r => prop r "cacheHit") (World.definitionResult w2)
     = Some (Some (JSON.Bool true))
  /\ World.toastState w2 = Toast.mk true "Definition loaded from local cache." info.
Proof. vm_compute. repeat split; reflexivity. Qed.

(** Fifty-one searches that differ in their length leave the fifty most
    recent ones. *)
Example fifty_one_distinct_records :
  let search (i : nat) :=
    (Pos.of_nat i,
     Some (HistoryInput.mk (Some "word"%string) (Some (Z.of_nat i)) None None None noResult)) in
  let w := recordCalls (map search (seq 1 51)) loadedWorld in
  map HistoryItem.length (World.history w)
  = map (fun i => Some (Z.of_nat i)) (rev (seq 2 50)).
Proof. vm_compute. reflexivity. Qed.

#[local] Arguments String.append : simpl nomatch.

(** A property of a character decided by its code: look at the 256 codes. *)
Ltac each_char c := destruct c as [[] [] [] [] [] [] [] []].

(** ** Strings and numbers *)

Lemma append_nil_r (s : string) : s +:+ "" = s.
Proof. induction s; cbn; congruence. Qed.

Lemma append_assoc (a b c : string) : (a +:+ b) +:+ c = a +:+ (b +:+ c).
Proof. induction a; cbn; congruence. Qed.

(** Decimal digits *)

Lemma span_digits_uint (d : Decimal.uint) (rest : string) :
  noDigitAhead rest ->
  JS.span JS.isDigit (NilEmpty.string_of_uint d +:+ rest)
  = (NilEmpty.string_of_uint d, rest).
Proof.
  intros Hrest. induction d; cbn [NilEmpty.string_of_uint String.append JS.span];
    try (rewrite IHd; reflexivity).
  destruct rest as [|c r]; [reflexivity|]. cbn [JS.span].
  destruct (JS.isDigit c) eqn:E; [|reflexivity].
  exfalso. apply Hrest. now constructor.
Qed.

Lemma to_uint_no_leading_zero (p : positive) (u : Decimal.uint) :
  Pos.to_uint p <> Decimal.D0 u.
Proof.
  intros E.
  pose proof (Unsigned.to_of (Pos.to_uint p)) as H.
  rewrite Unsigned.of_to in H. cbn in H. rewrite E in H.
  rewrite unorm_D0 in H.
  assert (u = Decimal.Nil \/ u <> Decimal.Nil) as [->|Hu]
    by (destruct u; [left; reflexivity|right; discriminate..]).
  - apply (Unsigned.to_uint_nonzero p). exact E.
  - pose proof (nb_digits_unorm u Hu) as L. rewrite <- H in L. cbn in L. lia.
Qed.

Lemma digitsValue_pos (p : positive) :
  JS.digitsValue (NilEmpty.string_of_uint (Pos.to_uint p)) = Some (Z.pos p).
Proof.
  unfold JS.digitsValue. rewrite NilEmpty.usu. cbn.
  unfold Z.of_uint. rewrite Unsigned.of_to. reflexivity.
Qed.

Lemma decimal_pos (p : positive) :
  JS.decimal (Z.pos p) = NilEmpty.string_of_uint (Pos.to_uint p).
Proof.
  unfold JS.decimal. cbn.
  pose proof (Unsigned.to_uint_nonnil p). now destruct (Pos.to_uint p).
Qed.

Lemma decimal_neg (p : positive) :
  JS.decimal (Z.neg p) = String "-" (NilEmpty.string_of_uint (Pos.to_uint p)).
Proof.
  unfold JS.decimal. cbn.
  pose proof (Unsigned.to_uint_nonnil p). now destruct (Pos.to_uint p).
Qed.

(** the digits of a positive number: a non-empty run that starts with a non-zero digit *)
Lemma digits_pos_shape (p : positive) :
  exists c s, NilEmpty.string_of_uint (Pos.to_uint p) = String c s
    /\ JS.isDigit c = true /\ c <> "0"%char.
Proof.
  pose proof (Unsigned.to_uint_nonnil p) as Hn.
  pose proof (to_uint_no_leading_zero p) as Hz.
  destruct (Pos.to_uint p); cbn; try congruence;
    try (eexists _, _; split; [reflexivity|split; [reflexivity|discriminate]]).
Qed.

Lemma parseInt_string_decimal (n : Z) :
  JS.parseInt_string (JS.decimal n) = JS.ofInteger n.
Proof.
  destruct n as [|p|p].
  - reflexivity.
  - rewrite decimal_pos.
    destruct (digits_pos_shape p) as (c & s & E & Hc & _).
    unfold JS.parseInt_string.
    assert (Ht : JS.trimStart (NilEmpty.string_of_uint (Pos.to_uint p))
                 = NilEmpty.string_of_uint (Pos.to_uint p)).
    { rewrite E. cbn. each_char c; try discriminate; reflexivity. }
    rewrite Ht.
    assert (Hs : match NilEmpty.string_of_uint (Pos.to_uint p) with
                 | String "-" r => (-1, r)
                 | String "+" r => (1, r)
                 | _ => (1, NilEmpty.string_of_uint (Pos.to_uint p))
                 end = (1, NilEmpty.string_of_uint (Pos.to_uint p))).
    { rewrite E. each_char c; try discriminate; reflexivity. }
    rewrite Hs.
    pose proof (span_digits_uint (Pos.to_uint p) "") as Hsp.
    rewrite append_nil_r in Hsp. rewrite Hsp by (intros H; inversion H).
    cbn [fst]. rewrite digitsValue_pos. rewrite E. cbn [JS.isEmpty].
    now rewrite Z.mul_1_l.
  - rewrite decimal_neg.
    destruct (digits_pos_shape p) as (c & s & E & Hc & _).
    unfold JS.parseInt_string. cbn [JS.trimStart]. 
    change (JS.isWhiteSpace "-") with false. cbn iota.
    pose proof (span_digits_uint (Pos.to_uint p) "") as Hsp.
    rewrite append_nil_r in Hsp. rewrite Hsp by (intros H; inversion H).
    cbn [fst]. rewrite digitsValue_pos. rewrite E. cbn [JS.isEmpty].
    reflexivity.
Qed.

(** Below 2^53 every integer is a Number, and is printed as its decimal
    numeral. *)
Lemma ofInteger_safe (n : Z) : Z.abs n < 2 ^ 53 -> JS.ofInteger n = JS.Finite n.
Proof.
  intros H. unfold JS.ofInteger, JS.nearest.
  destruct (Z.ltb_spec (Z.abs n) (2 ^ 53)) as [_|Hge]; [|lia].
  f_equal. now destruct n.
Qed.

Lemma Number_toString_safe (n : Z) :
  Z.abs n < 2 ^ 53 -> JS.Number_toString n = JS.decimal n.
Proof.
  intros H. unfold JS.Number_toString.
  destruct (Z.ltb_spec (Z.abs n) (2 ^ 53)) as [_|Hge]; [reflexivity|lia].
Qed.

Lemma parseInt_string_safe (n : Z) :
  Z.abs n < 2 ^ 53 -> JS.parseInt_string (JS.Number_toString n) = JS.Finite n.
Proof.
  intros H. rewrite (Number_toString_safe n H), parseInt_string_decimal.
  now apply ofInteger_safe.
Qed.

(** ** JSON strings *)
Lemma parseString_quoteChar (c : ascii) (r : string) :
  JSON.parseString (JSON.quoteChar c +:+ r) = JSON.consTo c (JSON.parseString r).
Proof.
  each_char c; reflexivity.
Qed.

Lemma parseString_quoteBody (s rest : string) :
  JSON.parseString (JSON.quoteBody s +:+ String JSON.dquote rest) = Some (s, rest).
Proof.
  induction s as [|c s IH]; [reflexivity|].
  cbn [JSON.quoteBody]. rewrite append_assoc, parseString_quoteChar, IH. reflexivity.
Qed.

Lemma quote_append (s rest : string) :
  JSON.quote s +:+ rest = String JSON.dquote (JSON.quoteBody s +:+ String JSON.dquote rest).
Proof. unfold JSON.quote. cbn. now rewrite append_assoc. Qed.

(** ** JSON numbers *)

Lemma closes_noDigit rest : closes rest = true -> noDigitAhead rest.
Proof.
  intros H E. destruct E as [c s Hc]. cbn in H.
  each_char c; discriminate.
Qed.

Lemma parseNumber_digits (p : positive) (sign : Z) (rest : string) :
  closes rest = true ->
  (let '(ds, rest') := JS.span JS.isDigit (NilEmpty.string_of_uint (Pos.to_uint p) +:+ rest) in
   match ds with
   | EmptyString => None
   | String "0" (String _ _) => None
   | _ =>
     match rest' with
     | String "." _ | String "e" _ | String "E" _ => None
     | _ => match JS.digitsValue ds with
            | Some n => Some (sign * n, rest')
            | None => None
            end
     end
   end) = Some (sign * Z.pos p, rest).
Proof.
  intros Hc. rewrite span_digits_uint by now apply closes_noDigit.
  rewrite digitsValue_pos.
  destruct (digits_pos_shape p) as (c & s & E & Hd & Hz). rewrite E.
  assert (Hrest : match rest with
                  | String "." _ | String "e" _ | String "E" _ => @None (Z * string)
                  | _ => Some (sign * Z.pos p, rest)
                  end = Some (sign * Z.pos p, rest)).
  { destruct rest as [|a r]; [reflexivity|]. cbn in Hc.
    each_char a; try discriminate; reflexivity. }
  each_char c; try discriminate; try exact Hrest.
  congruence.
Qed.

Lemma parseNumber_decimal (n : Z) (rest : string) :
  closes rest = true ->
  JSON.parseNumber (JS.decimal n +:+ rest) = Some (n, rest).
Proof.
  intros Hc. destruct n as [|p|p].
  - change (JS.decimal 0) with "0". cbn [String.append].
    unfold JSON.parseNumber. cbn [JS.span]. change (JS.isDigit "0") with true. cbn iota.
    pose proof (closes_noDigit _ Hc) as Hn.
    assert (Hs : JS.span JS.isDigit rest = ("", rest)).
    { destruct rest as [|a r]; [reflexivity|]. cbn [JS.span].
      destruct (JS.isDigit a) eqn:E; [|reflexivity]. exfalso. apply Hn. now constructor. }
    rewrite Hs.
    destruct rest as [|a r]; [reflexivity|]. cbn in Hc.
    each_char a; try discriminate; reflexivity.
  - rewrite decimal_pos. unfold JSON.parseNumber.
    destruct (digits_pos_shape p) as (c & s & E & Hd & Hz).
    assert (Hsign : match NilEmpty.string_of_uint (Pos.to_uint p) +:+ rest with
                    | String "-" r => (-1, r)
                    | _ => (1, NilEmpty.string_of_uint (Pos.to_uint p) +:+ rest)
                    end = (1, NilEmpty.string_of_uint (Pos.to_uint p) +:+ rest)).
    { rewrite E. cbn [String.append].
      each_char c; try discriminate; reflexivity. }
    rewrite Hsign. rewrite (parseNumber_digits p 1 rest Hc). f_equal. 
  - rewrite decimal_neg. unfold JSON.parseNumber. cbn [String.append].
    rewrite (parseNumber_digits p (-1) rest Hc). reflexivity.
Qed.

(** ** JSON values *)

Lemma stringify_head (v : JSON.t) :
  exists c s, JSON.stringify v = String c s /\ startsValue c = true.
Proof.
  destruct v as [|[]|n|s|l|m]; try (eexists _, _; split; reflexivity).
  cbn [JSON.stringify]. destruct n as [|p|p].
  - eexists _, _; split; reflexivity.
  - rewrite decimal_pos.
    destruct (digits_pos_shape p) as (c & s & E & Hd & _). rewrite E.
    exists c, s. split; [reflexivity|].
    each_char c; try discriminate; reflexivity.
  - rewrite decimal_neg. eexists _, _; split; reflexivity.
Qed.

Lemma skipWs_startsValue c s :
  startsValue c = true -> JSON.skipWs (String c s) = String c s.
Proof. each_char c; try discriminate; reflexivity. Qed.

Lemma expect_miss_value (d c : ascii) (s : string) :
  startsValue c = true -> startsValue d = false -> JSON.expect d (String c s) = None.
Proof.
  intros Hc Hd. unfold JSON.expect. rewrite skipWs_startsValue by assumption.
  destruct (Ascii.eqb_spec d c) as [->|]; [congruence|reflexivity].
Qed.

Lemma expect_hit (c : ascii) (s : string) :
  JSON.isWs c = false -> JSON.expect c (String c s) = Some s.
Proof.
  intros H. unfold JSON.expect. cbn [JSON.skipWs]. rewrite H.
  now rewrite Ascii.eqb_refl.
Qed.

Lemma expect_other (d c : ascii) (s : string) :
  JSON.isWs c = false -> d <> c -> JSON.expect d (String c s) = None.
Proof.
  intros H Hd. unfold JSON.expect. cbn [JSON.skipWs]. rewrite H.
  destruct (Ascii.eqb_spec d c); congruence.
Qed.

Lemma parseValue_number fuel c s :
  (JS.isDigit c || Ascii.eqb c "-") = true ->
  JSON.parseValue (S fuel) (String c s)
  = match JSON.parseNumber (String c s) with
    | Some (n, r') => Some (JSON.Num n, r')
    | None => None
    end.
Proof. each_char c; try discriminate; reflexivity. Qed.

Lemma decimal_head (n : Z) :
  exists c s, JS.decimal n = String c s /\ (JS.isDigit c || Ascii.eqb c "-") = true.
Proof.
  destruct n as [|p|p].
  - eexists _, _; split; reflexivity.
  - rewrite decimal_pos.
    destruct (digits_pos_shape p) as (c & s & E & Hd & _). rewrite E.
    exists c, s. split; [reflexivity|]. now rewrite Hd.
  - rewrite decimal_neg. eexists _, _; split; reflexivity.
Qed.

Lemma fold_setProp_fresh (m acc : list (string * JSON.t)) :
  NoDup (map fst (acc ++ m)) ->
  fold_left (fun o kv => JSON.setProp (fst kv) (snd kv) o) m acc = acc ++ m.
Proof.
  revert acc. induction m as [|[k v] m IH]; intros acc Hnd; cbn [fold_left].
  - now rewrite app_nil_r.
  - assert (Hset : JSON.setProp k v acc = acc ++ [(k, v)]).
    { clear IH. induction acc as [|[k' v'] acc IHa]; [reflexivity|].
      cbn [JSON.setProp]. cbn in Hnd. apply NoDup_cons in Hnd as [Hk' Hnd].
      destruct (String.eqb_spec k' k) as [->|Hne].
      - exfalso. apply Hk'. rewrite map_app. cbn. apply elem_of_app. right. left.
      - cbn. f_equal. now apply IHa. }
    cbn [fst snd]. rewrite Hset. rewrite IH; rewrite <- app_assoc; [reflexivity|exact Hnd].
Qed.

Lemma parseElements_stringify (l : list JSON.t) :
  l <> [] -> Forall roundTrips l ->
  forall fuel rest,
    (fold_right (fun x n => S (fuelOf x + n)) 0 l <= fuel)%nat ->
    JSON.parseElements fuel (JSON.joinComma (map JSON.stringify l) +:+ String "]" rest)
    = Some (l, rest).
Proof.
  induction l as [|x l IH]; [congruence|]. intros _ HF fuel rest Hfuel.
  apply Forall_cons in HF as [Hx HF].
  cbn [fold_right] in Hfuel. destruct fuel as [|f]; [lia|].
  cbn [JSON.parseElements].
  destruct l as [|y l'].
  - cbn [map JSON.joinComma].
    rewrite (Hx f (String "]" rest)) by (try reflexivity; cbn in Hfuel; lia).
    rewrite expect_other by (try reflexivity; discriminate).
    rewrite expect_hit by reflexivity. reflexivity.
  - change (JSON.joinComma (map JSON.stringify (x :: y :: l')))
      with (JSON.stringify x +:+ "," +:+ JSON.joinComma (map JSON.stringify (y :: l'))).
    rewrite !append_assoc. cbn [String.append].
    rewrite (Hx f) by (try reflexivity; lia).
    rewrite expect_hit by reflexivity.
    rewrite (IH ltac:(discriminate) HF f rest) by lia. reflexivity.
Qed.

Lemma parseMembers_stringify (m : list (string * JSON.t)) :
  m <> [] -> Forall (fun kv => roundTrips (snd kv)) m ->
  forall fuel rest,
    (fold_right (fun kv n => S (fuelOf (snd kv) + n)) 0 m <= fuel)%nat ->
    JSON.parseMembers fuel (JSON.joinComma (map member m) +:+ String "}" rest)
    = Some (m, rest).
Proof.
  induction m as [|[k v] m IH]; [congruence|]. intros _ HF fuel rest Hfuel.
  apply Forall_cons in HF as [Hx HF]. cbn [snd] in Hx.
  cbn [fold_right snd] in Hfuel. destruct fuel as [|f]; [lia|].
  cbn [JSON.parseMembers].
  destruct m as [|kv' m'].
  - cbn [map JSON.joinComma]. unfold member at 1. cbn [fst snd].
    rewrite !append_assoc, quote_append.
    rewrite expect_hit by reflexivity.
    rewrite parseString_quoteBody. cbn [String.append].
    rewrite expect_hit by reflexivity.
    rewrite (Hx f (String "}" rest)) by (try reflexivity; cbn in Hfuel; lia).
    rewrite expect_other by (try reflexivity; discriminate).
    rewrite expect_hit by reflexivity. reflexivity.
  - change (JSON.joinComma (map member ((k, v) :: kv' :: m')))
      with (member (k, v) +:+ "," +:+ JSON.joinComma (map member (kv' :: m'))).
    unfold member at 1. cbn [fst snd].
    rewrite !append_assoc, quote_append.
    rewrite expect_hit by reflexivity.
    rewrite parseString_quoteBody. cbn [String.append].
    rewrite expect_hit by reflexivity.
    rewrite (Hx f) by (try reflexivity; lia).
    rewrite expect_hit by reflexivity.
    rewrite (IH ltac:(discriminate) HF f rest) by lia. reflexivity.
Qed.

Lemma parseValue_Arr f r :
  JSON.parseValue (S f) (String "[" r)
  = match JSON.expect "]" r with
    | Some r' => Some (JSON.Arr [], r')
    | None => match JSON.parseElements f r with
              | Some (l, r') => Some (JSON.Arr l, r')
              | None => None
              end
    end.
Proof. reflexivity. Qed.

Lemma parseValue_Obj f r :
  JSON.parseValue (S f) (String "{" r)
  = match JSON.expect "}" r with
    | Some r' => Some (JSON.Obj [], r')
    | None => match JSON.parseMembers f r with
              | Some (m, r') =>
                  Some (JSON.Obj (fold_left (fun o kv => JSON.setProp (fst kv) (snd kv) o) m []), r')
              | None => None
              end
    end.
Proof. reflexivity. Qed.

Lemma parseValue_Str f r :
  JSON.parseValue (S f) (String JSON.dquote r)
  = match JSON.parseString r with
    | Some (str, r') => Some (JSON.Str str, r')
    | None => None
    end.
Proof. reflexivity. Qed.

Lemma joinComma_head (f : JSON.t -> string) (x : JSON.t) (l : list JSON.t) (rest : string) c s :
  f x = String c s ->
  exists s', JSON.joinComma (map f (x :: l)) +:+ rest = String c s'.
Proof.
  intros E. destruct l; cbn [map JSON.joinComma]; rewrite E; cbn [String.append]; eauto.
Qed.

Theorem parseValue_stringify (v : JSON.t) : JSON.wf v -> roundTrips v.
Proof.
  induction v as [| b | n | s | l IH | m IH] using JSON_ind_nested;
    intros Hwf fuel rest Hfuel Hrest;
    (destruct fuel as [|f]; [cbn in Hfuel; lia|]).
  - reflexivity.
  - destruct b; reflexivity.
  - cbn [JSON.stringify].
    destruct (decimal_head n) as (c & s & E & Hc).
    pose proof (parseNumber_decimal n rest Hrest) as Hn.
    rewrite E in *. cbn [String.append] in *.
    rewrite parseValue_number by assumption. now rewrite Hn.
  - cbn [JSON.stringify]. rewrite quote_append, parseValue_Str.
    now rewrite parseString_quoteBody.
  - inversion Hwf as [| | | | l' Hl |]; subst.
    assert (HF : Forall roundTrips l).
    { clear -IH Hl. induction l; [constructor|].
      apply Forall_cons in IH as [? ?]. apply Forall_cons in Hl as [? ?].
      constructor; auto. }
    cbn [JSON.stringify]. cbn [String.append]. rewrite append_assoc. cbn [String.append].
    rewrite parseValue_Arr.
    destruct l as [|x l].
    + cbn. reflexivity.
    + destruct (stringify_head x) as (c & s & E & Hc).
      destruct (joinComma_head JSON.stringify x l (String "]" rest) c s E) as [s' Es'].
      rewrite Es'. rewrite expect_miss_value by (assumption || reflexivity).
      rewrite <- Es'.
      rewrite parseElements_stringify; [reflexivity|discriminate|assumption|].
      cbn [fuelOf] in Hfuel. lia.
  - inversion Hwf as [| | | | | m' Hnd Hm]; subst.
    assert (HF : Forall (fun kv => roundTrips (snd kv)) m).
    { clear -IH Hm. induction m; [constructor|].
      apply Forall_cons in IH as [? ?]. apply Forall_cons in Hm as [? ?].
      constructor; auto. }
    cbn [JSON.stringify].
    change (map (fun kv => JSON.quote (fst kv) +:+ ":" +:+ JSON.stringify (snd kv)) m)
      with (map member m).
    cbn [String.append]. rewrite append_assoc. cbn [String.append].
    rewrite parseValue_Obj.
    destruct m as [|[k x] m].
    + cbn. reflexivity.
    +
      assert (Es' : exists s', JSON.joinComma (map member ((k, x) :: m)) +:+ String "}" rest
                               = String JSON.dquote s').
      { destruct m; cbn [map JSON.joinComma]; unfold member at 1; cbn [fst snd];
          rewrite !append_assoc, quote_append; eauto. }
      destruct Es' as [s' Es']. rewrite Es'.
      rewrite expect_miss_value by reflexivity. rewrite <- Es'.
      rewrite parseMembers_stringify; [|discriminate|assumption|cbn [fuelOf] in Hfuel; lia].
      rewrite (fold_setProp_fresh _ []) by exact Hnd. reflexivity.
Qed.

Lemma length_append (a b : string) :
  String.length (a +:+ b) = (String.length a + String.length b)%nat.
Proof. induction a; cbn; congruence. Qed.

Lemma stringify_nonempty (v : JSON.t) : (1 <= String.length (JSON.stringify v))%nat.
Proof.
  destruct (stringify_head v) as (c & s & E & _). rewrite E. cbn. lia.
Qed.

Lemma size_le_length (v : JSON.t) : (fuelOf v <= String.length (JSON.stringify v))%nat.
Proof.
  induction v as [| b | n | s | l IH | m IH] using JSON_ind_nested;
    try apply stringify_nonempty.
  - cbn [fuelOf JSON.stringify]. cbn [String.append String.length].
    rewrite length_append. cbn [String.length].
    enough (fold_right (fun x n => S (fuelOf x + n)) 0 l
            <= S (String.length (JSON.joinComma (map JSON.stringify l))))%nat by lia.
    induction l as [|x l IHl]; [cbn; lia|].
    apply Forall_cons in IH as [Hx IH]. specialize (IHl IH).
    destruct l as [|y l'].
    + cbn. lia.
    + change (JSON.joinComma (map JSON.stringify (x :: y :: l')))
        with (JSON.stringify x +:+ "," +:+ JSON.joinComma (map JSON.stringify (y :: l'))).
      rewrite !length_append. cbn [fold_right String.length] in *.
      lia.
  - cbn [fuelOf JSON.stringify].
    change (map (fun kv => JSON.quote (fst kv) +:+ ":" +:+ JSON.stringify (snd kv)) m)
      with (map member m).
    cbn [String.append String.length].
    rewrite length_append. cbn [String.length].
    enough (fold_right (fun kv n => S (fuelOf (snd kv) + n)) 0 m
            <= S (String.length (JSON.joinComma (map member m))))%nat by lia.
    induction m as [|[k x] m IHm]; [cbn; lia|].
    apply Forall_cons in IH as [Hx IH]. specialize (IHm IH). cbn [snd] in Hx.
    assert (Hmem : (fuelOf x <= String.length (member (k, x)))%nat).
    { unfold member. rewrite !length_append. cbn [snd]. lia. }
    destruct m as [|y m'].
    + cbn [map JSON.joinComma fold_right snd]. lia.
    + change (JSON.joinComma (map member ((k, x) :: y :: m')))
        with (member (k, x) +:+ "," +:+ JSON.joinComma (map member (y :: m'))).
      rewrite !length_append. cbn [fold_right String.length snd] in *. lia.
Qed.

Theorem parse_stringify (v : JSON.t) : JSON.wf v -> JSON.parse (JSON.stringify v) = Some v.
Proof.
  intros Hwf. unfold JSON.parse.
  pose proof (parseValue_stringify v Hwf (S (String.length (JSON.stringify v))) "") as H.
  rewrite append_nil_r in H. rewrite H; [reflexivity| |reflexivity].
  pose proof (size_le_length v). lia.
Qed.

Lemma stringify_inj (v1 v2 : JSON.t) :
  JSON.wf v1 -> JSON.wf v2 -> JSON.stringify v1 = JSON.stringify v2 -> v1 = v2.
Proof.
  intros H1 H2 E. apply parse_stringify in H1, H2. congruence.
Qed.

(** ** The cache key *)

Lemma parseInt_Num (n : Z) : Z.abs n < 2 ^ 53 -> JS.parseInt (JS.Num n) = JS.Finite n.
Proof. apply parseInt_string_safe. Qed.

Lemma sortedParams_sorted (k : KeyParams.t) :
  JSON.Obj (sortedParams k) = keyObject k.
Proof. reflexivity. Qed.

Lemma generateCacheKey_eq (params : RequestParams.t) :
  generateCacheKey params
  = CACHE_KEY_PREFIX +:+ JSON.stringify (keyObject (keyParams params)).
Proof. reflexivity. Qed.

Lemma number_wf (n : JS.number) : JSON.wf (KeyParams.number n).
Proof. destruct n; constructor. Qed.

Lemma number_written (a b : JS.number) :
  KeyParams.number a = KeyParams.number b <-> written a = written b.
Proof. destruct a, b; cbn; split; congruence. Qed.

Lemma keyObject_wf (k : KeyParams.t) : JSON.wf (keyObject k).
Proof.
  constructor.
  - apply (bool_decide_unpack _). vm_compute. reflexivity.
  - repeat constructor. apply number_wf.
Qed.

Lemma keyObject_keyFields (k1 k2 : KeyParams.t) :
  keyObject k1 = keyObject k2 <-> keyFields k1 = keyFields k2.
Proof.
  destruct k1, k2. unfold keyObject, keyFields. cbn. split.
  - intros E. injection E as -> -> E -> ->. apply number_written in E. now rewrite E.
  - intros E. injection E as -> E -> -> ->. apply number_written in E. now rewrite E.
Qed.

(** Two requests have one key exactly when their normal forms have the same
    fields, as the key holds them. *)
Lemma generateCacheKey_keyFields (p1 p2 : RequestParams.t) :
  generateCacheKey p1 = generateCacheKey p2
  <-> keyFields (keyParams p1) = keyFields (keyParams p2).
Proof.
  rewrite !generateCacheKey_eq, <- keyObject_keyFields. split.
  - intros E. apply String.app_inj in E.
    apply stringify_inj in E; auto using keyObject_wf.
  - now intros ->.
Qed.

(** Claim C1, amended. [generateCacheKey] is a total function of its
    argument: whichever optional fields are absent, its value is the prefix
    followed by the serialized normal form, which holds the word trimmed and
    lower-cased, the tone, the context and the language lower-cased with
    their defaults "neutral", "none" and "auto", and the length passed
    through [parseInt]. Two requests have the same key exactly when these
    normal forms agree, lengths that are not finite ([NaN] and the
    infinities, all written [null]) counting as one. *)
Theorem generateCacheKey_injective_on_normal_forms (p1 p2 : RequestParams.t) :
  generateCacheKey p1
  = CACHE_KEY_PREFIX
    +:+ JSON.stringify
          (JSON.Obj
             [ ("context"%string,
                JSON.Str (JS.toLowerCase (JS.strOr (RequestParams.context p1) "none")));
               ("lang"%string,
                JSON.Str (JS.toLowerCase (JS.strOr (RequestParams.lang p1) "auto")));
               ("length"%string,
                match JS.parseInt (JS.or (RequestParams.length p1) (JS.Num 0)) with
                | JS.Finite n => JSON.Num n
                | JS.NaN | JS.Infinity _ => JSON.Null
                end);
               ("tone"%string,
                JSON.Str (JS.toLowerCase (JS.strOr (RequestParams.tone p1) "neutral")));
               ("word"%string,
                JSON.Str
                  (JS.toLowerCase (JS.trim (JS.strOr (RequestParams.word p1) "")))) ])
  /\ (generateCacheKey p1 = generateCacheKey p2
      <-> JS.toLowerCase (JS.trim (JS.strOr (RequestParams.word p1) ""))
          = JS.toLowerCase (JS.trim (JS.strOr (RequestParams.word p2) ""))
          /\ written (JS.parseInt (JS.or (RequestParams.length p1) (JS.Num 0)))
             = written (JS.parseInt (JS.or (RequestParams.length p2) (JS.Num 0)))
          /\ JS.toLowerCase (JS.strOr (RequestParams.tone p1) "neutral")
             = JS.toLowerCase (JS.strOr (RequestParams.tone p2) "neutral")
          /\ JS.toLowerCase (JS.strOr (RequestParams.context p1) "none")
             = JS.toLowerCase (JS.strOr (RequestParams.context p2) "none")
          /\ JS.toLowerCase (JS.strOr (RequestParams.lang p1) "auto")
             = JS.toLowerCase (JS.strOr (RequestParams.lang p2) "auto")).
Proof.
  split; [reflexivity|].
  rewrite generateCacheKey_keyFields. unfold keyFields, keyParams.
  cbn [KeyParams.word KeyParams.length KeyParams.tone KeyParams.context KeyParams.lang].
  split.
  - intros E. injection E as Hw Hl Ht Hc Hg. auto.
  - intros (Hw & Hl & Ht & Hc & Hg). now rewrite Hw, Hl, Ht, Hc, Hg.
Qed.

(** Claim C1 as stated fails: a length that does not parse is normalized to
    [NaN] and a length of 310 digits to [Infinity], two normal forms, and
    the two requests have one key, in which both are written [null]. *)
Lemma non_finite_lengths_share_a_key :
  ~ (forall p1 p2 : RequestParams.t,
       generateCacheKey p1 = generateCacheKey p2 ->
       JS.parseInt (JS.or (RequestParams.length p1) (JS.Num 0))
       = JS.parseInt (JS.or (RequestParams.length p2) (JS.Num 0))).
Proof.
  intros H. specialize (H unreadableLength hugeLength).
  assert (Hkey : generateCacheKey unreadableLength = generateCacheKey hugeLength)
    by (vm_compute; reflexivity).
  specialize (H Hkey). clear Hkey. vm_compute in H. discriminate H.
Qed.

Lemma parseInt_or_zero (v : JS.value) :
  JS.parseInt (JS.or v (JS.Num 0))
  = match v with
    | JS.Undefined => JS.Finite 0
    | JS.Num n =>
        if Z.abs n <? 2 ^ 53 then JS.Finite n
        else JS.parseInt_string (JS.Number_toString n)
    | JS.Str s => if JS.isEmpty s then JS.Finite 0 else JS.parseInt_string s
    end.
Proof.
  destruct v as [|n|s]; [reflexivity| |].
  - unfold JS.or. cbn [JS.truthy].
    destruct (Z.eqb_spec n 0) as [->|Hn]; [reflexivity|]. cbn [negb].
    destruct (Z.ltb_spec (Z.abs n) (2 ^ 53)) as [Hs|Hs]; [|reflexivity].
    now apply parseInt_Num.
  - destruct s; reflexivity.
Qed.

(** Claim C8, amended. The normalized length is [parseInt] of the length,
    and 0 only when the length is absent, the empty string or the number 0.
    A number below 2^53 is normalized to itself, and a larger one to what
    [parseInt] reads from its printed form. A non-empty string is
    normalized to whatever [parseInt] reads: [NaN] when the string does not
    start with an integer, an infinity when the integer is beyond the
    largest Number, and the nearest Number otherwise. The key holds a
    finite length as that number, and [null] for [NaN] and the infinities,
    not 0. *)
Theorem keyParams_length_default (params : RequestParams.t) :
  KeyParams.length (keyParams params)
  = match RequestParams.length params with
    | JS.Undefined => JS.Finite 0
    | JS.Num n =>
        if Z.abs n <? 2 ^ 53 then JS.Finite n
        else JS.parseInt_string (JS.Number_toString n)
    | JS.Str s => if JS.isEmpty s then JS.Finite 0 else JS.parseInt_string s
    end
  /\ JSON.getProp "length" (sortedParams (keyParams params))
     = Some match KeyParams.length (keyParams params) with
            | JS.Finite n => JSON.Num n
            | JS.NaN | JS.Infinity _ => JSON.Null
            end.
Proof.
  split; [apply parseInt_or_zero|reflexivity].
Qed.

(** Claim C8 as stated fails: for the length ["abc"], which does not parse,
    the normalized length is [NaN] and not the default 0. *)
Lemma length_not_defaulted_when_invalid :
  ~ (forall params : RequestParams.t,
       KeyParams.length (keyParams params)
       = match JS.parseInt (RequestParams.length params) with
         | JS.Finite n => JS.Finite n
         | JS.NaN | JS.Infinity _ => JS.Finite 0
         end).
Proof.
  intros H. specialize (H unreadableLength).
  vm_compute in H. discriminate.
Qed.


(** ** The history ledger *)

Lemma sameSearch_identity (h n : HistoryItem.t) :
  sameSearch h n = true <-> identity h = identity n.
Proof.
  unfold sameSearch, identity. rewrite !andb_true_iff, !String.eqb_eq, bool_decide_eq_true.
  split.
  - intros ((((-> & ->) & ->) & ->) & ->). reflexivity.
  - intros [= -> -> -> -> ->]. auto.
Qed.

Lemma sameSearch_false (h n : HistoryItem.t) :
  sameSearch h n = false <-> identity h <> identity n.
Proof.
  rewrite <- sameSearch_identity. destruct (sameSearch h n); split; congruence.
Qed.

Lemma recordHistory_cons (newItem : HistoryItem.t) (prevHistory : list HistoryItem.t) :
  recordHistory newItem prevHistory
  = newItem :: take (pred HISTORY_MAX_ITEMS)
                 (List.filter (fun h => negb (sameSearch h newItem)) prevHistory).
Proof. reflexivity. Qed.


Lemma filtered_identities (newItem : HistoryItem.t) (l : list HistoryItem.t) (h : HistoryItem.t) :
  h ∈ List.filter (fun h => negb (sameSearch h newItem)) l ->
  h ∈ l /\ identity h <> identity newItem.
Proof.
  rewrite list_elem_of_In, filter_In, <- list_elem_of_In.
  intros [Hin Hs]. split; [assumption|].
  apply sameSearch_false. now destruct (sameSearch h newItem).
Qed.



Lemma recordHistory_rest (newItem : HistoryItem.t) (prevHistory : list HistoryItem.t)
    (h : HistoryItem.t) :
  h ∈ take (pred HISTORY_MAX_ITEMS)
        (List.filter (fun h => negb (sameSearch h newItem)) prevHistory) ->
  h ∈ prevHistory /\ identity h <> identity newItem.
Proof.
  intros Hin. apply (filtered_identities newItem).
  eapply sublist_subseteq; [apply sublist_take|exact Hin].
Qed.





(** Claim C10. [addToHistory] called without an item, or with an item whose
    word is absent or empty, returns the state unchanged: no entry is added,
    removed or given a new timestamp. *)
Theorem addToHistory_ignores_wordless_item (now : positive) (item : option HistoryInput.t)
    (w : World.t) :
  item = None
  \/ (exists i, item = Some i
       /\ (HistoryInput.word i = None \/ HistoryInput.word i = Some ""%string)) ->
  addToHistory now item w = w.
Proof.
  intros [->|(i & -> & [H|H])]; cbn; [reflexivity| |]; now rewrite H.
Qed.




(** An item with an empty word, recorded on a history with entries. *)
Lemma addToHistory_ignores_wordless_item_witness :
  addToHistory 5 (Some (HistoryInput.mk (Some ""%string) (Some 30) None None None noResult))
    repeatedHistoryWorld
  = repeatedHistoryWorld.
Proof.
  apply addToHistory_ignores_wordless_item.
  right. eexists. split; [reflexivity|]. right. reflexivity.
Defined.

(** ** Favorites and quiz list *)

Lemma existsb_sameWord_favorites (trimmedWord : string) (l : list FavoriteItem.t) :
  existsb (fun fav => sameWord (FavoriteItem.word fav) trimmedWord) l = true
  <-> JS.toLowerCase trimmedWord
      ∈ map (fun fav => JS.toLowerCase (FavoriteItem.word fav)) l.
Proof.
  rewrite existsb_exists, list_elem_of_fmap. unfold sameWord. split.
  - intros (x & Hin & E). apply String.eqb_eq in E.
    exists x. split; [congruence|now apply list_elem_of_In].
  - intros (x & E & Hin). exists x. split; [now apply list_elem_of_In|].
    apply String.eqb_eq. congruence.
Qed.

Lemma existsb_sameWord_quiz (trimmedWord : string) (l : list QuizItem.t) :
  existsb (fun item => sameWord (QuizItem.word item) trimmedWord) l = true
  <-> JS.toLowerCase trimmedWord
      ∈ map (fun item => JS.toLowerCase (QuizItem.word item)) l.
Proof.
  rewrite existsb_exists, list_elem_of_fmap. unfold sameWord. split.
  - intros (x & Hin & E). apply String.eqb_eq in E.
    exists x. split; [congruence|now apply list_elem_of_In].
  - intros (x & E & Hin). exists x. split; [now apply list_elem_of_In|].
    apply String.eqb_eq. congruence.
Qed.

(** What one call of [addFavorite] does, by cases. *)
Lemma addFavorite_cases (now : positive) (wordToAdd : option string) (w : World.t) :
  let trimmedWord := JS.trim (default "" wordToAdd) in
  if blank wordToAdd then addFavorite now wordToAdd w = w
  else if bool_decide (JS.toLowerCase trimmedWord ∈ favoriteWords w)
  then addFavorite now wordToAdd w
       = showToast (trimmedWord +:+ " is already in favorites.") info w
  else addFavorite now wordToAdd w
       = showToast ("Favorited: " +:+ trimmedWord) success
           (World.setFavorites (cons (FavoriteItem.mk trimmedWord (Z.pos now))) w).
Proof.
  intros trimmedWord. unfold addFavorite. destruct (blank wordToAdd); [reflexivity|].
  fold trimmedWord.
  destruct (existsb _ (World.favorites w)) eqn:E; cbn [negb].
  - apply existsb_sameWord_favorites in E. rewrite bool_decide_eq_true_2; [reflexivity|exact E].
  - rewrite bool_decide_eq_false_2; [reflexivity|].
    intros Hin. apply existsb_sameWord_favorites in Hin. congruence.
Qed.

Lemma addToQuiz_cases (now : positive) (wordToAdd : option string) (w : World.t) :
  let trimmedWord := JS.trim (default "" wordToAdd) in
  if blank wordToAdd then addToQuiz now wordToAdd w = w
  else if bool_decide (JS.toLowerCase trimmedWord ∈ quizWords w)
  then addToQuiz now wordToAdd w
       = showToast (trimmedWord +:+ " is already in the Quiz list.") info w
  else addToQuiz now wordToAdd w
       = showToast ("Added to Quiz List: " +:+ trimmedWord) success
           (World.setQuizList
              (cons (QuizItem.mk trimmedWord (JS.Number_toString (Z.pos now)))) w).
Proof.
  intros trimmedWord. unfold addToQuiz. destruct (blank wordToAdd); [reflexivity|].
  fold trimmedWord.
  destruct (existsb _ (World.quizList w)) eqn:E; cbn [negb].
  - apply existsb_sameWord_quiz in E. rewrite bool_decide_eq_true_2; [reflexivity|exact E].
  - rewrite bool_decide_eq_false_2; [reflexivity|].
    intros Hin. apply existsb_sameWord_quiz in Hin. congruence.
Qed.

Lemma addCall_invariant (c : AddCall) (w : World.t) :
  NoDup (favoriteWords w) -> NoDup (quizWords w) ->
  NoDup (favoriteWords (addCall w c)) /\ NoDup (quizWords (addCall w c)).
Proof.
  intros Hf Hq. destruct c as [now wordToAdd|now wordToAdd]; cbn [addCall].
  - pose proof (addFavorite_cases now wordToAdd w) as H. cbv zeta in H.
    destruct (blank wordToAdd); [rewrite H; auto|].
    case_bool_decide as Hin; rewrite H; [auto|].
    split; [|exact Hq]. unfold favoriteWords. cbn. apply NoDup_cons. auto.
  - pose proof (addToQuiz_cases now wordToAdd w) as H. cbv zeta in H.
    destruct (blank wordToAdd); [rewrite H; auto|].
    case_bool_decide as Hin; rewrite H; [auto|].
    split; [exact Hf|]. unfold quizWords. cbn. apply NoDup_cons. auto.
Qed.

(** Claim C9, amended. Starting from favorites and a quiz list without two
    entries for the same case-insensitive word, after any sequence of
    [addFavorite] and [addToQuiz] calls neither collection has two such
    entries. Adding a blank word (absent, empty or white space only) does
    nothing at all; adding a word whose trimmed form is already present,
    case-insensitively, leaves the collection as it is and shows the
    "already" notice; otherwise an entry for the trimmed word is put
    first. *)
Theorem favorites_and_quiz_stay_deduplicated (w0 : World.t) (calls : list AddCall) :
  NoDup (favoriteWords w0) -> NoDup (quizWords w0) ->
  let w := addCalls calls w0 in
  NoDup (favoriteWords w) /\ NoDup (quizWords w)
  /\ forall (now : positive) (wordToAdd : option string),
       let trimmedWord := JS.trim (default "" wordToAdd) in
       (if blank wordToAdd
        then addFavorite now wordToAdd w = w
        else if bool_decide (JS.toLowerCase trimmedWord ∈ favoriteWords w)
        then World.favorites (addFavorite now wordToAdd w) = World.favorites w
             /\ World.toastState (addFavorite now wordToAdd w)
                = Toast.mk true (trimmedWord +:+ " is already in favorites.") info
        else World.favorites (addFavorite now wordToAdd w)
             = FavoriteItem.mk trimmedWord (Z.pos now) :: World.favorites w)
       /\
       (if blank wordToAdd
        then addToQuiz now wordToAdd w = w
        else if bool_decide (JS.toLowerCase trimmedWord ∈ quizWords w)
        then World.quizList (addToQuiz now wordToAdd w) = World.quizList w
             /\ World.toastState (addToQuiz now wordToAdd w)
                = Toast.mk true (trimmedWord +:+ " is already in the Quiz list.") info
        else World.quizList (addToQuiz now wordToAdd w)
             = QuizItem.mk trimmedWord (JS.Number_toString (Z.pos now)) :: World.quizList w).
Proof.
  intros Hf Hq w.
  assert (Hinv : NoDup (favoriteWords w) /\ NoDup (quizWords w)).
  { subst w. revert w0 Hf Hq. induction calls as [|c calls IH]; intros w0 Hf Hq; [auto|].
    cbn [addCalls fold_left]. destruct (addCall_invariant c w0 Hf Hq). now apply IH. }
  destruct Hinv as [Hf' Hq']. split; [exact Hf'|]. split; [exact Hq'|].
  intros now wordToAdd trimmedWord. split.
  - pose proof (addFavorite_cases now wordToAdd w) as H. cbv zeta in H. fold trimmedWord in H.
    destruct (blank wordToAdd); [exact H|].
    case_bool_decide; rewrite H; [split|]; reflexivity.
  - pose proof (addToQuiz_cases now wordToAdd w) as H. cbv zeta in H. fold trimmedWord in H.
    destruct (blank wordToAdd); [exact H|].
    case_bool_decide; rewrite H; [split|]; reflexivity.
Qed.

(** Claim C9 as stated fails: a word of three spaces has no equivalent among
    the (empty) favorites, yet nothing is prepended. *)
Lemma blank_word_is_not_prepended :
  ~ (forall (now : positive) (wordToAdd : string) (w : World.t),
       existsb (fun fav => sameWord (FavoriteItem.word fav) wordToAdd) (World.favorites w)
       = false ->
       exists entry,
         World.favorites (addFavorite now (Some wordToAdd) w) = entry :: World.favorites w).
Proof.
  intros H. destruct (H 1%positive "   "%string loadedWorld) as [entry E]; [reflexivity|].
  vm_compute in E. discriminate.
Qed.

(** The hypotheses of the theorem on favorites and quiz list hold of the
    loaded empty state. *)
Lemma favorites_and_quiz_stay_deduplicated_witness :
  let w := addCalls [AddFavorite 1 (Some " Cat "%string); AddToQuiz 2 (Some "cat"%string);
                     AddFavorite 3 (Some "CAT"%string)] loadedWorld in
  NoDup (favoriteWords w) /\ NoDup (quizWords w).
Proof.
  pose proof (favorites_and_quiz_stay_deduplicated loadedWorld
       [AddFavorite 1 (Some " Cat "%string); AddToQuiz 2 (Some "cat"%string);
        AddFavorite 3 (Some "CAT"%string)]) as H.
  cbv zeta in H. destruct H as (H1 & H2 & _).
  - constructor.
  - constructor.
  - split; assumption.
Defined.

(** ** Validation *)

Lemma trim_empty : JS.trim "" = ""%string.
Proof. reflexivity. Qed.

Lemma validateInputs_None (wordToValidate : string) (lengthToValidate : JS.value) :
  validateInputs wordToValidate lengthToValidate = None
  <-> JS.trim wordToValidate <> ""%string
      /\ exists n, JS.parseInt lengthToValidate = JS.Finite n
                   /\ 1 <= n <= MAX_REQUESTED_LENGTH.
Proof.
  unfold validateInputs.
  assert (Hw : JS.isEmpty wordToValidate || JS.isEmpty (JS.trim wordToValidate)
               = JS.isEmpty (JS.trim wordToValidate)).
  { destruct wordToValidate; reflexivity. }
  rewrite Hw. destruct (JS.trim wordToValidate) as [|c s] eqn:Et; cbn [JS.isEmpty].
  - split; [discriminate|]. intros [H _]. congruence.
  - destruct (JS.parseInt lengthToValidate) as [|n|negative].
    + split; [discriminate|]. intros [_ (m & [=] & _)].
    + destruct (Z.ltb_spec n 1); cbn [orb].
      * split; [discriminate|]. intros [_ (m & [= <-] & ?)]. lia.
      * unfold Z.gtb. destruct (Z.compare_spec n MAX_REQUESTED_LENGTH).
        -- split; [|reflexivity]. intros _. split; [discriminate|]. exists n. split; [reflexivity|lia].
        -- split; [|reflexivity]. intros _. split; [discriminate|]. exists n. split; [reflexivity|lia].
        -- split; [discriminate|]. intros [_ (m & [= <-] & ?)]. lia.
    + split; [discriminate|]. intros [_ (m & [=] & _)].
Qed.

(** Claim C7. When the word that [handleDefine] is to define is empty after
    trimming, or its length does not parse to an integer between 1 and
    [MAX_REQUESTED_LENGTH], the validation error is stored and shown, and
    nothing else happens: no call to AsyncStorage or to the service, and the
    store, the displayed result, the cache index, the history, the favorites
    and the quiz list are as before. *)
Theorem handleDefine_rejects_invalid_input
    (env : DefineEnv.t) (params : RequestParams.t) (w : World.t) :
  wordToDefine params w = ""%string
  \/ ~ (exists n, JS.parseInt (requestedLength params w) = JS.Finite n
                  /\ 1 <= n <= MAX_REQUESTED_LENGTH) ->
  exists validationError,
    validateInputs (wordToDefine params w) (requestedLength params w) = Some validationError
    /\ let w' := handleDefine env params w in
       World.error w' = Some validationError
       /\ World.toastState w' = Toast.mk true validationError error
       /\ World.trace w' = World.trace w
       /\ World.storage w' = World.storage w
       /\ World.definitionResult w' = World.definitionResult w
       /\ World.definitionsCacheIndex w' = World.definitionsCacheIndex w
       /\ World.history w' = World.history w
       /\ World.favorites w' = World.favorites w
       /\ World.quizList w' = World.quizList w
       /\ World.isLoading w' = World.isLoading w.
Proof.
  intros Hbad.
  destruct (validateInputs (wordToDefine params w) (requestedLength params w))
    as [validationError|] eqn:Ev.
  - exists validationError. split; [reflexivity|].
    unfold handleDefine. rewrite Ev. cbn. repeat split; reflexivity.
  - apply validateInputs_None in Ev as [Hw Hl].
    destruct Hbad as [Hbad|Hbad]; [|contradiction].
    rewrite Hbad in Hw. exfalso. apply Hw. reflexivity.
Qed.

(** A request for the length 251 on a state with a cached entry. *)
Lemma handleDefine_rejects_invalid_input_witness :
  exists validationError,
    validateInputs (wordToDefine (RequestParams.mk (Some "cat"%string) (JS.Str "251") None None None) cachedWorld)
                   (requestedLength (RequestParams.mk (Some "cat"%string) (JS.Str "251") None None None) cachedWorld)
    = Some validationError
    /\ World.trace (handleDefine (DefineEnv.mk false (FetchRejects "offline") 1 false 2 3)
                      (RequestParams.mk (Some "cat"%string) (JS.Str "251") None None None)
                      cachedWorld)
       = [].
Proof.
  destruct (handleDefine_rejects_invalid_input
              (DefineEnv.mk false (FetchRejects "offline") 1 false 2 3)
              (RequestParams.mk (Some "cat"%string) (JS.Str "251") None None None)
              cachedWorld) as (e & He & H).
  - right. intros (n & Hn & Hr). vm_compute in Hn. injection Hn as <-.
    unfold MAX_REQUESTED_LENGTH in Hr. lia.
  - exists e. split; [exact He|]. cbv zeta in H. destruct H as (_ & _ & Ht & _). exact Ht.
Defined.

(** ** The definition cache *)


Lemma indexHas_lookup (index : gmap string Z) (cacheKey : string) :
  indexHas index cacheKey = true <-> exists ts, index !! cacheKey = Some ts /\ ts <> 0.
Proof.
  unfold indexHas. destruct (index !! cacheKey) as [ts|].
  - destruct (Z.eqb_spec ts 0); cbn; split; try discriminate.
    + intros (? & [= <-] & ?). contradiction.
    + eauto.
    + reflexivity.
  - split; [discriminate|]. intros (? & [=] & _).
Qed.

(** When the data are loaded and the index names the key, the lookup reads
    the key from the store, once. *)
Lemma getCachedDefinition_reads (readRejects : bool) (params : RequestParams.t) (w : World.t) :
  World.isInitialDataLoaded w = true ->
  indexHas (World.definitionsCacheIndex w) (generateCacheKey params) = true ->
  World.trace (snd (getCachedDefinition readRejects params w))
  = GetItem (generateCacheKey params)
      (if readRejects then ReadRejected
       else ReadValue (World.storage w !! generateCacheKey params))
    :: World.trace w.
Proof.
  intros Hl Hi. unfold getCachedDefinition. rewrite Hl, Hi. cbn [negb].
  unfold AsyncStorage.getItem.
  destruct readRejects; [reflexivity|].
  destruct (World.storage w !! generateCacheKey params) as [data|]; [|reflexivity].
  destruct (JS.isEmpty data); [reflexivity|].
  destruct (JSON.parse data); reflexivity.
Qed.

(** Otherwise it returns absent and touches nothing. *)
Lemma getCachedDefinition_skips (readRejects : bool) (params : RequestParams.t) (w : World.t) :
  World.isInitialDataLoaded w = false
  \/ indexHas (World.definitionsCacheIndex w) (generateCacheKey params) = false ->
  getCachedDefinition readRejects params w = (None, w).
Proof.
  unfold getCachedDefinition. intros [H|H].
  - now rewrite H.
  - rewrite H. now destruct (World.isInitialDataLoaded w).
Qed.



(** The same repair, told from the state before the lookup: the data are
    loaded, the index names the key, and the read rejects or the store has
    nothing under the key. *)
Lemma getCachedDefinition_heals_missing_entry
    (readRejects : bool) (params : RequestParams.t) (w : World.t) :
  World.isInitialDataLoaded w = true ->
  indexHas (World.definitionsCacheIndex w) (generateCacheKey params) = true ->
  readRejects = true \/ World.storage w !! generateCacheKey params = None ->
  fst (getCachedDefinition readRejects params w) = None
  /\ World.definitionsCacheIndex (snd (getCachedDefinition readRejects params w))
     = delete (generateCacheKey params) (World.definitionsCacheIndex w).
Proof.
  intros Hl Hi Hmiss. unfold getCachedDefinition, AsyncStorage.getItem.
  rewrite Hl, Hi. cbn [negb].
  destruct readRejects; [split; reflexivity|].
  destruct Hmiss as [|Hs]; [discriminate|]. rewrite Hs. split; reflexivity.
Qed.

(** A stored text that is empty or is not JSON is repaired in the same way. *)
Lemma getCachedDefinition_heals_unreadable_entry
    (params : RequestParams.t) (w : World.t) (data : string) :
  World.isInitialDataLoaded w = true ->
  indexHas (World.definitionsCacheIndex w) (generateCacheKey params) = true ->
  World.storage w !! generateCacheKey params = Some data ->
  JS.isEmpty data = true \/ JSON.parse data = None ->
  fst (getCachedDefinition false params w) = None
  /\ World.definitionsCacheIndex (snd (getCachedDefinition false params w))
     = delete (generateCacheKey params) (World.definitionsCacheIndex w).
Proof.
  intros Hl Hi Hs Hbad. unfold getCachedDefinition. rewrite Hl, Hi. cbn [negb].
  unfold AsyncStorage.getItem. rewrite Hs.
  destruct (JS.isEmpty data) eqn:Ee; [split; reflexivity|].
  destruct Hbad as [|Hp]; [discriminate|]. rewrite Hp. split; reflexivity.
Qed.

(** The result of a lookup depends on the load flags, the index and the
    store only. *)
Lemma getCachedDefinition_frame
    (readRejects : bool) (params : RequestParams.t) (w1 w2 : World.t) :
  World.isInitialDataLoaded w1 = World.isInitialDataLoaded w2 ->
  World.definitionsCacheIndex w1 = World.definitionsCacheIndex w2 ->
  World.storage w1 = World.storage w2 ->
  fst (getCachedDefinition readRejects params w1)
  = fst (getCachedDefinition readRejects params w2).
Proof.
  intros Hl Hi Hs. unfold getCachedDefinition, AsyncStorage.getItem.
  rewrite Hl, Hi, Hs.
  destruct (World.isInitialDataLoaded w2); cbn [negb]; [|reflexivity].
  destruct (indexHas _ _); cbn [negb]; [|reflexivity].
  destruct readRejects; [reflexivity|].
  destruct (World.storage w2 !! generateCacheKey params) as [data|]; [|reflexivity].
  destruct (JS.isEmpty data); [reflexivity|].
  destruct (JSON.parse data); reflexivity.
Qed.

Lemma saveToCache_rejected
    (savedAt indexedAt : positive) (params : RequestParams.t) (resultData : JSON.t)
    (w : World.t) :
  saveToCache true savedAt indexedAt params resultData w
  = showToast "Could not save definition locally." error
      (World.emit
         (SetItem (generateCacheKey params)
            (JSON.stringify
               (JSON.Obj (JSON.setProp "savedAt" (JSON.Num (Z.pos savedAt))
                            (ownProps resultData))))
            false) w).
Proof. reflexivity. Qed.

Lemma saveToCache_resolved
    (savedAt indexedAt : positive) (params : RequestParams.t) (resultData : JSON.t)
    (w : World.t) :
  saveToCache false savedAt indexedAt params resultData w
  = World.setDefinitionsCacheIndex
      (fun prev => <[generateCacheKey params := Z.pos indexedAt]> prev)
      (World.emit
         (SetItem (generateCacheKey params)
            (JSON.stringify
               (JSON.Obj (JSON.setProp "savedAt" (JSON.Num (Z.pos savedAt))
                            (ownProps resultData))))
            true)
         (World.setStorage
            (<[generateCacheKey params :=
                 JSON.stringify
                   (JSON.Obj (JSON.setProp "savedAt" (JSON.Num (Z.pos savedAt))
                                (ownProps resultData)))]> (World.storage w)) w)).
Proof. reflexivity. Qed.

(** Claim C3, amended. When the write of [saveToCache] rejects, the index
    and the store are as before (the key is not added), the notice
    "Could not save definition locally." is shown while the error state and
    the displayed result stay, and a following lookup of the same request
    returns what it returned before the call: absent when the key was not in
    the index. *)
Theorem saveToCache_failed_write
    (savedAt indexedAt : positive) (params : RequestParams.t) (resultData : JSON.t)
    (w : World.t) (readRejects : bool) :
  let w' := saveToCache true savedAt indexedAt params resultData w in
  World.definitionsCacheIndex w' = World.definitionsCacheIndex w
  /\ World.storage w' = World.storage w
  /\ World.toastState w' = Toast.mk true "Could not save definition locally." error
  /\ World.error w' = World.error w
  /\ World.definitionResult w' = World.definitionResult w
  /\ fst (getCachedDefinition readRejects params w')
     = if indexHas (World.definitionsCacheIndex w) (generateCacheKey params)
       then fst (getCachedDefinition readRejects params w)
       else None.
Proof.
  cbv zeta. rewrite saveToCache_rejected. repeat split.
  destruct (indexHas _ _) eqn:Hi.
  - now apply getCachedDefinition_frame.
  - rewrite getCachedDefinition_skips; [reflexivity|]. right. exact Hi.
Qed.

(** Claim C3 as stated fails: when the key was cached by an earlier
    successful write, the lookup after a failed write still returns that
    entry. *)
Lemma earlier_entry_survives_failed_write :
  ~ (forall (savedAt indexedAt : positive) (params : RequestParams.t) (resultData : JSON.t)
            (w : World.t) (readRejects : bool),
       fst (getCachedDefinition readRejects params
              (saveToCache true savedAt indexedAt params resultData w)) = None).
Proof.
  intros H. specialize (H 1%positive 2%positive catParams catPayload cachedWorld false).
  vm_compute in H. discriminate.
Qed.

Lemma removeAll_lookup (keys : list string) (s : gmap string string) (k : string) :
  AsyncStorage.removeAll keys s !! k = if bool_decide (k ∈ keys) then None else s !! k.
Proof.
  induction keys as [|x keys IH]; cbn [AsyncStorage.removeAll fold_right].
  - reflexivity.
  - fold (AsyncStorage.removeAll keys s).
    destruct (decide (x = k)) as [->|Hne].
    + rewrite lookup_delete_eq. rewrite bool_decide_eq_true_2; [reflexivity|left].
    + rewrite lookup_delete_ne by exact Hne. rewrite IH.
      destruct (decide (k ∈ keys)) as [Hin|Hin].
      * rewrite !bool_decide_eq_true_2; [reflexivity|now right|exact Hin].
      * rewrite !bool_decide_eq_false_2; [reflexivity| |exact Hin].
        intros [E|E]%elem_of_cons; congruence.
Qed.

Lemma indexKeys_spec (index : gmap string Z) (k : string) :
  k ∈ indexKeys index <-> is_Some (index !! k).
Proof.
  unfold indexKeys. rewrite list_elem_of_fmap. split.
  - intros ([k' ts] & -> & Hin). apply elem_of_map_to_list in Hin. eauto.
  - intros [ts Hts]. exists (k, ts). split; [reflexivity|]. now apply elem_of_map_to_list.
Qed.

Lemma indexKeys_length (index : gmap string Z) :
  length (indexKeys index) = size index.
Proof. unfold indexKeys. rewrite length_fmap. apply length_map_to_list. Qed.

Lemma clearCache_unfold (outcome : AsyncStorage.RemoveOutcome) (w : World.t) :
  clearCache outcome w
  = match indexKeys (World.definitionsCacheIndex w), outcome with
    | [], _ =>
        (JS.Undefined,
         showToast "0 definition(s) cleared from cache." success
           (World.setDefinitionsCacheIndex (fun _ => ∅) w))
    | k :: keys, AsyncStorage.RemoveResolves =>
        (JS.Undefined,
         showToast (JS.Number_toString (Z.of_nat (length (k :: keys)))
                    +:+ " definition(s) cleared from cache.") success
           (World.setDefinitionsCacheIndex (fun _ => ∅)
              (snd (AsyncStorage.multiRemove outcome (k :: keys) w))))
    | k :: keys, AsyncStorage.RemoveRejects _ =>
        (JS.Undefined,
         World.setDefinitionsCacheIndex (fun _ => ∅)
           (showToast "Cache clear failed. Some items might remain." error
              (snd (AsyncStorage.multiRemove outcome (k :: keys) w))))
    end.
Proof.
  unfold clearCache. destruct (indexKeys _) as [|k keys]; [reflexivity|].
  destruct outcome; reflexivity.
Qed.

(** Claim C5, amended. [clearCache] resolves to [undefined]; it always
    leaves the index empty; it calls [multiRemove] once on all the keys of
    the index, and not at all when the index is empty. When the removal
    resolves, every key of the index is gone from the store, the other keys
    are untouched, and the toast gives the number of keys; when it rejects,
    the toast is the failure notice, without a number. *)
Theorem clearCache_resets_index (outcome : AsyncStorage.RemoveOutcome) (w : World.t) :
  let keysToRemove := indexKeys (World.definitionsCacheIndex w) in
  let w' := snd (clearCache outcome w) in
  fst (clearCache outcome w) = JS.Undefined
  /\ World.definitionsCacheIndex w' = ∅
  /\ World.trace w'
     = match keysToRemove, outcome with
       | [], _ => World.trace w
       | _, AsyncStorage.RemoveResolves => MultiRemove keysToRemove true :: World.trace w
       | _, AsyncStorage.RemoveRejects _ => MultiRemove keysToRemove false :: World.trace w
       end
  /\ match outcome with
     | AsyncStorage.RemoveResolves =>
         (forall k, World.storage w' !! k
                    = if bool_decide (is_Some (World.definitionsCacheIndex w !! k))
                      then None else World.storage w !! k)
         /\ World.toastState w'
            = Toast.mk true
                (JS.Number_toString (Z.of_nat (size (World.definitionsCacheIndex w)))
                 +:+ " definition(s) cleared from cache.") success
     | AsyncStorage.RemoveRejects _ =>
         World.toastState w'
         = match keysToRemove with
           | [] => Toast.mk true "0 definition(s) cleared from cache." success
           | _ => Toast.mk true "Cache clear failed. Some items might remain." error
           end
     end.
Proof.
  intros keysToRemove w'. subst w'. rewrite clearCache_unfold.
  pose proof (indexKeys_length (World.definitionsCacheIndex w)) as Hlen.
  pose proof (indexKeys_spec (World.definitionsCacheIndex w)) as Hkeys.
  fold keysToRemove in Hlen, Hkeys |- *.
  destruct keysToRemove as [|k keys] eqn:Ek.
  - repeat split; try (destruct outcome; reflexivity).
    destruct outcome; [|reflexivity]. split.
    + intros k. cbn. rewrite bool_decide_eq_false_2; [reflexivity|].
      intros Hk. apply Hkeys in Hk. inversion Hk.
    + cbn in Hlen. rewrite <- Hlen. reflexivity.
  - destruct outcome as [|removed]; repeat split.
    + intros k'. cbn [snd AsyncStorage.multiRemove World.storage World.setStorage
                      showToast World.setToastState World.setDefinitionsCacheIndex World.emit].
      rewrite removeAll_lookup.
      destruct (decide (k' ∈ k :: keys)) as [Hin|Hin].
      * rewrite !bool_decide_eq_true_2; [reflexivity|now apply Hkeys|exact Hin].
      * rewrite !bool_decide_eq_false_2; [reflexivity|now rewrite <- Hkeys|exact Hin].
    + rewrite <- Hlen. reflexivity.
Qed.

(** Claim C5 as stated fails: [clearCache] does not return the number of
    keys; on a state with one cached entry whose removal rejects it returns
    [undefined]. *)
Lemma clearCache_returns_no_count :
  ~ (forall (outcome : AsyncStorage.RemoveOutcome) (w : World.t),
       fst (clearCache outcome w)
       = JS.Num (Z.of_nat (length (indexKeys (World.definitionsCacheIndex w))))).
Proof.
  intros H. specialize (H (AsyncStorage.RemoveRejects []) cachedWorld).
  rewrite clearCache_unfold in H. destruct (indexKeys _); discriminate.
Qed.

(** ** Stored payloads *)

Lemma decimal_inj : Inj (=) (=) JS.decimal.
Proof.
  intros a b E. pose proof (parseNumber_decimal a "" eq_refl) as Ha.
  rewrite E, parseNumber_decimal in Ha by reflexivity. congruence.
Qed.

Lemma setProp_keys (k : string) (v : JSON.t) (m : list (string * JSON.t)) :
  map fst (JSON.setProp k v m)
  = if bool_decide (k ∈ map fst m) then map fst m else map fst m ++ [k].
Proof.
  induction m as [|[k' v'] m IH]; [reflexivity|]. cbn [JSON.setProp map fst].
  destruct (String.eqb_spec k' k) as [->|Hne].
  - rewrite bool_decide_eq_true_2 by left. reflexivity.
  - cbn [map fst]. rewrite IH.
    destruct (decide (k ∈ map fst m)) as [Hin|Hin].
    + rewrite !bool_decide_eq_true_2; [reflexivity|now right|exact Hin].
    + rewrite !bool_decide_eq_false_2; [reflexivity| |exact Hin].
      intros [E|E]%elem_of_cons; congruence.
Qed.

Lemma setProp_values (P : JSON.t -> Prop) (k : string) (v : JSON.t)
    (m : list (string * JSON.t)) :
  P v -> Forall (fun kv => P (snd kv)) m ->
  Forall (fun kv => P (snd kv)) (JSON.setProp k v m).
Proof.
  intros Hv. induction m as [|[k' v'] m IH]; intros Hm; cbn [JSON.setProp].
  - repeat constructor. exact Hv.
  - apply Forall_cons in Hm as [Hx Hm].
    destruct (String.eqb k' k); constructor; auto.
Qed.

Lemma setProp_wf (k : string) (v : JSON.t) (m : list (string * JSON.t)) :
  JSON.wf v -> JSON.wf (JSON.Obj m) -> JSON.wf (JSON.Obj (JSON.setProp k v m)).
Proof.
  intros Hv Hm. inversion Hm as [| | | | | m' Hnd Hvals]; subst. constructor.
  - rewrite setProp_keys. case_bool_decide as Hin; [exact Hnd|].
    apply NoDup_app. split; [exact Hnd|]. split.
    + intros x Hx [->|[]%elem_of_nil]%elem_of_cons. contradiction.
    + apply NoDup_singleton.
  - now apply setProp_values.
Qed.

Lemma ownProps_wf (v : JSON.t) : JSON.wf v -> JSON.wf (JSON.Obj (ownProps v)).
Proof.
  intros Hv. destruct v as [| b | n | s | l | m]; cbn [ownProps];
    try (constructor; constructor); [| |exact Hv].
  - constructor.
    + change (map fst ?x) with (fst <$> x). rewrite fmap_imap.
      change (imap _ (list_ascii_of_string s))
        with (imap (fun (j : nat) (_ : ascii) => JS.decimal (Z.of_nat j))
                (list_ascii_of_string s)).
      rewrite imap_seq_0. apply NoDup_fmap_2; [|apply NoDup_seq].
      intros a b E. apply decimal_inj in E. lia.
    + apply Forall_forall. intros [k x] Hin. cbn [snd].
      apply elem_of_lookup_imap in Hin as (i & c & [= -> ->] & _).
      constructor.
  - inversion Hv as [| | | | l' Hl |]; subst. constructor.
    + change (map fst ?x) with (fst <$> x). rewrite fmap_imap.
      change (imap _ l)
        with (imap (fun (j : nat) (_ : JSON.t) => JS.decimal (Z.of_nat j)) l).
      rewrite imap_seq_0. apply NoDup_fmap_2; [|apply NoDup_seq].
      intros a b E. apply decimal_inj in E. lia.
    + apply Forall_forall. intros [k x] Hin. cbn [snd].
      apply elem_of_lookup_imap in Hin as (i & c & [= -> ->] & Hc).
      rewrite Forall_forall in Hl. apply Hl.
      eapply list_elem_of_lookup_2. exact Hc.
Qed.

Lemma stringify_not_empty (v : JSON.t) : JS.isEmpty (JSON.stringify v) = false.
Proof. destruct (stringify_head v) as (c & s & -> & _). reflexivity. Qed.

(** A lookup that finds readable data. *)
Lemma getCachedDefinition_hit
    (params : RequestParams.t) (w : World.t) (definitionData : string) (parsed : JSON.t) :
  World.isInitialDataLoaded w = true ->
  indexHas (World.definitionsCacheIndex w) (generateCacheKey params) = true ->
  World.storage w !! generateCacheKey params = Some definitionData ->
  JS.isEmpty definitionData = false ->
  JSON.parse definitionData = Some parsed ->
  fst (getCachedDefinition false params w)
  = Some (JSON.Obj (JSON.setProp "cacheHit" (JSON.Bool true) (ownProps parsed))).
Proof.
  intros Hl Hi Hs He Hp. unfold getCachedDefinition, AsyncStorage.getItem.
  rewrite Hl, Hi, Hs, He, Hp. reflexivity.
Qed.

(** Claim C4, amended. In the loaded application, after a [saveToCache]
    whose write resolved, a lookup of the same request whose read resolves
    returns the properties of the payload with [savedAt] added and
    [cacheHit] set to [true], whatever [cacheHit] was stored; a lookup
    whose read rejects returns absent. *)
Theorem saveToCache_then_getCachedDefinition
    (savedAt indexedAt : positive) (params : RequestParams.t) (resultData : JSON.t)
    (w : World.t) :
  World.isInitialDataLoaded w = true ->
  JSON.wf resultData ->
  let w1 := saveToCache false savedAt indexedAt params resultData w in
  World.definitionsCacheIndex w1 !! generateCacheKey params = Some (Z.pos indexedAt)
  /\ fst (getCachedDefinition false params w1)
     = Some (JSON.Obj
               (JSON.setProp "cacheHit" (JSON.Bool true)
                  (JSON.setProp "savedAt" (JSON.Num (Z.pos savedAt))
                     (ownProps resultData))))
  /\ fst (getCachedDefinition true params w1) = None.
Proof.
  intros Hl Hwf w1. subst w1. rewrite saveToCache_resolved.
  set (cacheKey := generateCacheKey params).
  set (dataToSave := JSON.Obj (JSON.setProp "savedAt" (JSON.Num (Z.pos savedAt))
                                 (ownProps resultData))).
  assert (Hsaved : JSON.wf dataToSave).
  { apply setProp_wf; [constructor|now apply ownProps_wf]. }
  split; [|split].
  - apply lookup_insert_eq.
  - apply (getCachedDefinition_hit params _ (JSON.stringify dataToSave) dataToSave).
    + exact Hl.
    + unfold indexHas. fold cacheKey. cbn [World.definitionsCacheIndex World.setDefinitionsCacheIndex].
      now rewrite lookup_insert_eq.
    + apply lookup_insert_eq.
    + apply stringify_not_empty.
    + now apply parse_stringify.
  - unfold getCachedDefinition, AsyncStorage.getItem.
    change (World.isInitialDataLoaded (World.setDefinitionsCacheIndex _ _))
      with (World.isInitialDataLoaded w).
    rewrite Hl. cbn [negb]. fold cacheKey. unfold indexHas.
    cbn [World.definitionsCacheIndex World.setDefinitionsCacheIndex].
    rewrite lookup_insert_eq. reflexivity.
Qed.

(** Claim C4 as stated fails: in the loaded application, when the read of
    the entry rejects, the lookup after a successful [saveToCache] returns
    absent and not the stored payload. *)
Lemma rejected_read_after_store_misses :
  ~ (forall (readRejects : bool) (savedAt indexedAt : positive)
            (params : RequestParams.t) (resultData : JSON.t) (w : World.t),
       World.isInitialDataLoaded w = true ->
       JSON.wf resultData ->
       fst (getCachedDefinition readRejects params
              (saveToCache false savedAt indexedAt params resultData w))
       = Some (JSON.Obj
                 (JSON.setProp "cacheHit" (JSON.Bool true)
                    (JSON.setProp "savedAt" (JSON.Num (Z.pos savedAt))
                       (ownProps resultData))))).
Proof.
  intros H.
  specialize (H true 1%positive 2%positive catParams catPayload loadedWorld eq_refl).
  assert (Hwf : JSON.wf catPayload).
  { constructor; [apply (bool_decide_unpack _); vm_compute; reflexivity|repeat constructor]. }
  specialize (H Hwf). clear Hwf. vm_compute in H. discriminate H.
Qed.

(** The payload of the examples, stored and looked up on the loaded empty
    state: [cacheHit] comes back [true]. *)
Lemma saveToCache_then_getCachedDefinition_witness :
  fst (getCachedDefinition false catParams
         (saveToCache false 1700000000000 1700000000001 catParams catPayload loadedWorld))
  = Some (JSON.Obj [ ("word"%string, JSON.Str "cat");
                     ("result"%string, JSON.Str "a small domesticated feline");
                     ("requestedLength"%string, JSON.Num 30);
                     ("cacheHit"%string, JSON.Bool true);
                     ("savedAt"%string, JSON.Num 1700000000000) ]).
Proof.
  pose proof (saveToCache_then_getCachedDefinition 1700000000000 1700000000001
                catParams catPayload loadedWorld) as H.
  cbv zeta in H. destruct H as (_ & H & _).
  - reflexivity.
  - constructor; [apply (bool_decide_unpack _); vm_compute; reflexivity|repeat constructor].
  - exact H.
Defined.

(** * Further properties of the code *)

(** Projections of a state through the setters. *)
Ltac world_simpl :=
  cbn [fst snd World.word World.length World.tone World.contextValue World.lang
       World.definitionResult World.isLoading World.error World.favorites World.history
       World.quizList World.definitionsCacheIndex World.favLoaded World.histLoaded
       World.quizLoaded World.cacheIdxLoaded World.toastState World.storage World.trace
       World.setDefinitionResult World.setIsLoading World.setError World.setFavorites
       World.setHistory World.setQuizList World.setDefinitionsCacheIndex
       World.setToastState World.setStorage World.emit showToast
       setWord setTone setContextValue setLang].

(** ** Validation and keys *)

Lemma invalidLengthMessage_not_empty : JS.isEmpty invalidLengthMessage = false.
Proof. reflexivity. Qed.

Lemma validateInputs_message_not_empty
    (wordToValidate : string) (lengthToValidate : JS.value) (message : string) :
  validateInputs wordToValidate lengthToValidate = Some message ->
  JS.isEmpty message = false.
Proof.
  unfold validateInputs.
  destruct (JS.isEmpty wordToValidate || JS.isEmpty (JS.trim wordToValidate));
    [now intros [= <-]|].
  destruct (JS.parseInt lengthToValidate) as [|n|negative];
    [now intros [= <-]| |now intros [= <-]].
  destruct ((n <? 1) || (n >? MAX_REQUESTED_LENGTH)); [now intros [= <-]|discriminate].
Qed.

(** Property X1. [validateInputs] returns [null] exactly when the trimmed
    word is not empty and the length parses to an integer between 1 and
    [MAX_REQUESTED_LENGTH]; a blank word is reported first, whatever the
    length is; and no message is the empty string, so that its callers,
    which test the message for truthiness, never miss one. *)
Theorem validateInputs_accepts_exactly_valid_input
    (wordToValidate : string) (lengthToValidate : JS.value) :
  (validateInputs wordToValidate lengthToValidate = None
   <-> JS.trim wordToValidate <> ""%string
       /\ exists n, JS.parseInt lengthToValidate = JS.Finite n /\ 1 <= n <= 250)
  /\ (JS.trim wordToValidate = ""%string ->
      validateInputs wordToValidate lengthToValidate
      = Some "Please enter a word or phrase."%string)
  /\ (forall message, validateInputs wordToValidate lengthToValidate = Some message ->
      JS.isEmpty message = false).
Proof.
  split; [apply validateInputs_None|]. split.
  - intros Hw. unfold validateInputs. rewrite Hw.
    now destruct wordToValidate.
  - intros message. apply validateInputs_message_not_empty.
Qed.

(** Property X2. Every cache key starts with [CACHE_KEY_PREFIX] and is none
    of the four keys under which the collections are persisted: an entry of
    the cache never overwrites the favorites, the history, the quiz list or
    the cache index in the store. *)
Theorem generateCacheKey_is_no_collection_key (params : RequestParams.t) :
  String.prefix CACHE_KEY_PREFIX (generateCacheKey params) = true
  /\ generateCacheKey params <> FAVORITES_KEY
  /\ generateCacheKey params <> HISTORY_KEY
  /\ generateCacheKey params <> QUIZ_LIST_KEY
  /\ generateCacheKey params <> CACHE_INDEX_KEY.
Proof.
  rewrite generateCacheKey_eq. unfold CACHE_KEY_PREFIX. cbn [String.append].
  repeat split; discriminate.
Qed.

(** ** The definition cache *)

(** What a lookup changes: nothing but the index, where it can only delete
    its own key, and the trace, where it can only add its read. *)
Lemma getCachedDefinition_changes
    (readRejects : bool) (params : RequestParams.t) (w : World.t) :
  let w' := snd (getCachedDefinition readRejects params w) in
  (w' = w
   \/ exists r, w' = World.emit (GetItem (generateCacheKey params) r) w
   \/ w' = World.setDefinitionsCacheIndex
             (fun prev => delete (generateCacheKey params) prev)
             (World.emit (GetItem (generateCacheKey params) r) w)).
Proof.
  unfold getCachedDefinition, AsyncStorage.getItem.
  destruct (World.isInitialDataLoaded w); cbn [negb]; [|now left].
  destruct (indexHas _ _); cbn [negb]; [|now left].
  right. destruct readRejects; [eexists; right; reflexivity|].
  destruct (World.storage w !! generateCacheKey params) as [data|];
    [|eexists; right; reflexivity].
  destruct (JS.isEmpty data); [eexists; right; reflexivity|].
  destruct (JSON.parse data); eexists; [left|right]; reflexivity.
Qed.

(** Property X3. A lookup leaves the store, the history, the favorites, the
    quiz list, the displayed result, the error, the toast and the loading
    flag as they are. In the index it leaves every other key alone, and its
    own key it either keeps or deletes, in which case it returns absent. It
    makes at most one call to AsyncStorage, a read of its own key. *)
Theorem getCachedDefinition_only_repairs_the_index
    (readRejects : bool) (params : RequestParams.t) (w : World.t) :
  let w' := snd (getCachedDefinition readRejects params w) in
  World.storage w' = World.storage w
  /\ World.history w' = World.history w
  /\ World.favorites w' = World.favorites w
  /\ World.quizList w' = World.quizList w
  /\ World.definitionResult w' = World.definitionResult w
  /\ World.error w' = World.error w
  /\ World.toastState w' = World.toastState w
  /\ World.isLoading w' = World.isLoading w
  /\ (forall key, key <> generateCacheKey params ->
        World.definitionsCacheIndex w' !! key = World.definitionsCacheIndex w !! key)
  /\ (World.definitionsCacheIndex w' !! generateCacheKey params
      = World.definitionsCacheIndex w !! generateCacheKey params
      \/ (fst (getCachedDefinition readRejects params w) = None
          /\ World.definitionsCacheIndex w' !! generateCacheKey params = None))
  /\ (World.trace w' = World.trace w
      \/ exists r, World.trace w' = GetItem (generateCacheKey params) r :: World.trace w).
Proof.
  cbv zeta. unfold getCachedDefinition, AsyncStorage.getItem.
  destruct (World.isInitialDataLoaded w); cbn [negb];
    [|repeat split; auto].
  destruct (indexHas _ _); cbn [negb]; [|repeat split; auto].
  assert (Hkeep : forall key, key <> generateCacheKey params ->
            delete (generateCacheKey params) (World.definitionsCacheIndex w) !! key
            = World.definitionsCacheIndex w !! key)
    by (intros key Hk; now apply lookup_delete_ne).
  assert (Hgone : delete (generateCacheKey params) (World.definitionsCacheIndex w)
                  !! generateCacheKey params = None) by apply lookup_delete_eq.
  destruct readRejects; [world_simpl; repeat split; eauto|].
  destruct (World.storage w !! generateCacheKey params) as [data|];
    [|world_simpl; repeat split; eauto].
  destruct (JS.isEmpty data); [world_simpl; repeat split; eauto|].
  destruct (JSON.parse data); world_simpl; repeat split; eauto.
Qed.

Lemma generateCacheKey_normalForm (p1 p2 : RequestParams.t) :
  normalForm p1 = normalForm p2 -> generateCacheKey p1 = generateCacheKey p2.
Proof. intros E. now apply generateCacheKey_keyFields. Qed.

Lemma generateCacheKey_differs (p1 p2 : RequestParams.t) :
  normalForm p1 <> normalForm p2 -> generateCacheKey p1 <> generateCacheKey p2.
Proof.
  intros Hne E. apply Hne. now apply generateCacheKey_keyFields in E.
Qed.

Lemma saveToCache_loaded
    (writeRejects : bool) (savedAt indexedAt : positive) (params : RequestParams.t)
    (resultData : JSON.t) (w : World.t) :
  World.isInitialDataLoaded (saveToCache writeRejects savedAt indexedAt params resultData w)
  = World.isInitialDataLoaded w.
Proof. destruct writeRejects; reflexivity. Qed.

(** Property X4. Storing a result for one request does not change what a
    lookup of a request with another normal form returns, whether the write
    resolves or rejects; two lengths that are not finite, which the key
    writes alike, make no other normal form. *)
Theorem saveToCache_leaves_other_requests
    (writeRejects readRejects : bool) (savedAt indexedAt : positive)
    (stored looked : RequestParams.t) (resultData : JSON.t) (w : World.t) :
  normalForm stored <> normalForm looked ->
  fst (getCachedDefinition readRejects looked
         (saveToCache writeRejects savedAt indexedAt stored resultData w))
  = fst (getCachedDefinition readRejects looked w).
Proof.
  intros Hne. apply generateCacheKey_differs in Hne.
  destruct writeRejects.
  - rewrite saveToCache_rejected. now apply getCachedDefinition_frame.
  - rewrite saveToCache_resolved.
    unfold getCachedDefinition, AsyncStorage.getItem.
    change (World.isInitialDataLoaded (World.setDefinitionsCacheIndex _ _))
      with (World.isInitialDataLoaded w).
    destruct (World.isInitialDataLoaded w); cbn [negb]; [|reflexivity].
    unfold indexHas. world_simpl.
    rewrite !lookup_insert_ne by exact Hne.
    destruct (World.definitionsCacheIndex w !! generateCacheKey looked) as [ts|];
      [|reflexivity].
    destruct (negb (ts =? 0)); cbn [negb]; [|reflexivity].
    destruct readRejects; [reflexivity|].
    destruct (World.storage w !! generateCacheKey looked) as [data|]; [|reflexivity].
    destruct (JS.isEmpty data); [reflexivity|].
    destruct (JSON.parse data); reflexivity.
Qed.

(** Storing 'dog' beside a cached 'cat'. *)
Lemma saveToCache_leaves_other_requests_witness :
  fst (getCachedDefinition false catParams
         (saveToCache false 5 6
            (RequestParams.mk (Some "dog"%string) (JS.Num 30) None None None)
            catPayload cachedWorld))
  = fst (getCachedDefinition false catParams cachedWorld).
Proof.
  apply saveToCache_leaves_other_requests.
  vm_compute. discriminate.
Defined.

(** Property X5. Requests with the same normal form share one entry, two
    lengths that are not finite counting as one: once the data are loaded,
    what was stored for one of them is what a lookup of the other returns,
    with [savedAt] added and [cacheHit] set. *)
Theorem equivalent_requests_share_an_entry
    (savedAt indexedAt : positive) (stored looked : RequestParams.t)
    (resultData : JSON.t) (w : World.t) :
  normalForm stored = normalForm looked ->
  World.isInitialDataLoaded w = true ->
  JSON.wf resultData ->
  fst (getCachedDefinition false looked
         (saveToCache false savedAt indexedAt stored resultData w))
  = Some (JSON.Obj
            (JSON.setProp "cacheHit" (JSON.Bool true)
               (JSON.setProp "savedAt" (JSON.Num (Z.pos savedAt)) (ownProps resultData)))).
Proof.
  intros Hk Hl Hwf. apply generateCacheKey_normalForm in Hk.
  rewrite saveToCache_resolved. rewrite Hk.
  set (dataToSave := JSON.Obj (JSON.setProp "savedAt" (JSON.Num (Z.pos savedAt))
                                 (ownProps resultData))).
  assert (Hsaved : JSON.wf dataToSave).
  { apply setProp_wf; [constructor|now apply ownProps_wf]. }
  apply (getCachedDefinition_hit looked _ (JSON.stringify dataToSave) dataToSave).
  - exact Hl.
  - unfold indexHas. world_simpl. now rewrite lookup_insert_eq.
  - apply lookup_insert_eq.
  - apply stringify_not_empty.
  - now apply parse_stringify.
Qed.

(** The request for '  CAT ' with the default tone and language finds what was stored for 'cat'. *)
Lemma equivalent_requests_share_an_entry_witness :
  fst (getCachedDefinition false
         (RequestParams.mk (Some "  CAT "%string) (JS.Str "30") (Some "Neutral"%string)
            None (Some "auto"%string))
         (saveToCache false 5 6 catParams catPayload loadedWorld))
  = Some (JSON.Obj
            (JSON.setProp "cacheHit" (JSON.Bool true)
               (JSON.setProp "savedAt" (JSON.Num 5) (ownProps catPayload)))).
Proof.
  apply equivalent_requests_share_an_entry.
  - reflexivity.
  - reflexivity.
  - constructor; [apply (bool_decide_unpack _); vm_compute; reflexivity|repeat constructor].
Defined.

Lemma clearCache_index (outcome : AsyncStorage.RemoveOutcome) (w : World.t) :
  World.definitionsCacheIndex (snd (clearCache outcome w)) = ∅
  /\ World.isInitialDataLoaded (snd (clearCache outcome w)) = World.isInitialDataLoaded w.
Proof.
  rewrite clearCache_unfold.
  destruct (indexKeys _); [|destruct outcome]; split; reflexivity.
Qed.

(** Property X6. After [clearCache], whether the bulk removal resolved or
    rejected, every lookup returns absent without reading the store, and
    changes nothing. *)
Theorem clearCache_then_every_lookup_misses
    (outcome : AsyncStorage.RemoveOutcome) (readRejects : bool)
    (params : RequestParams.t) (w : World.t) :
  getCachedDefinition readRejects params (snd (clearCache outcome w))
  = (None, snd (clearCache outcome w)).
Proof.
  apply getCachedDefinition_skips. right.
  unfold indexHas. destruct (clearCache_index outcome w) as [-> _].
  now rewrite lookup_empty.
Qed.

(** ** The history ledger *)

Lemma addToHistory_records (now : positive) (i : HistoryInput.t) (c : ascii) (s : string)
    (w : World.t) :
  HistoryInput.word i = Some (String c s) ->
  addToHistory now (Some i) w
  = World.setHistory (recordHistory (historyItemOf now (String c s) i)) w.
Proof. intros H. unfold addToHistory. now rewrite H. Qed.

Lemma sameSearch_same_identity (h n1 n2 : HistoryItem.t) :
  identity n1 = identity n2 -> sameSearch h n1 = sameSearch h n2.
Proof.
  intros E. destruct (sameSearch h n2) eqn:E2.
  - apply sameSearch_identity. apply sameSearch_identity in E2. congruence.
  - apply sameSearch_false. apply sameSearch_false in E2. congruence.
Qed.

Lemma filter_all_kept {A : Type} (f : A -> bool) (l : list A) :
  (forall x, x ∈ l -> f x = true) -> List.filter f l = l.
Proof.
  induction l as [|x l IH]; intros H; [reflexivity|]. cbn.
  rewrite (H x) by left. f_equal. apply IH. intros y Hy. apply H. now right.
Qed.

Lemma recordHistory_twice (n1 n2 : HistoryItem.t) (h : list HistoryItem.t) :
  identity n1 = identity n2 ->
  recordHistory n2 (recordHistory n1 h) = recordHistory n2 h.
Proof.
  intros E. rewrite !recordHistory_cons. cbn [List.filter].
  assert (Hself : sameSearch n1 n2 = true) by now apply sameSearch_identity.
  rewrite Hself. cbn [negb]. f_equal.
  assert (Hf : List.filter (fun x => negb (sameSearch x n1)) h
               = List.filter (fun x => negb (sameSearch x n2)) h).
  { apply filter_ext. intros x. now rewrite (sameSearch_same_identity x n1 n2 E). }
  rewrite Hf.
  rewrite filter_all_kept.
  - apply take_take_idemp || (rewrite take_take; f_equal; lia).
  - intros x Hx. apply recordHistory_rest in Hx as [_ Hne].
    apply sameSearch_false in Hne. now rewrite Hne.
Qed.

(** Property X7. Recording a search and then a search with the same
    identity gives the history that the second recording alone gives: the
    entry of the first is replaced, not kept beside the new one. *)
Theorem recording_again_replaces_the_entry
    (now1 now2 : positive) (i1 i2 : HistoryInput.t)
    (c1 c2 : ascii) (s1 s2 : string) (w : World.t) :
  HistoryInput.word i1 = Some (String c1 s1) ->
  HistoryInput.word i2 = Some (String c2 s2) ->
  identity (historyItemOf now1 (String c1 s1) i1)
  = identity (historyItemOf now2 (String c2 s2) i2) ->
  World.history (addToHistory now2 (Some i2) (addToHistory now1 (Some i1) w))
  = World.history (addToHistory now2 (Some i2) w).
Proof.
  intros H1 H2 E.
  rewrite (addToHistory_records now1 i1 c1 s1 w H1).
  rewrite !(addToHistory_records now2 i2 c2 s2 _ H2).
  world_simpl. now apply recordHistory_twice.
Qed.

(** The same search recorded at two clock readings. *)
Lemma recording_again_replaces_the_entry_witness :
  World.history
    (addToHistory 9 (Some catSearch) (addToHistory 8 (Some catSearch) repeatedHistoryWorld))
  = World.history (addToHistory 9 (Some catSearch) repeatedHistoryWorld).
Proof.
  apply (recording_again_replaces_the_entry 8 9 catSearch catSearch "C" "C" "at" "at");
    reflexivity.
Defined.

(** Property X8. When the history holds [HISTORY_MAX_ITEMS] entries and a
    search with a new identity is recorded, the last entry is dropped and
    all the others follow the new entry in their order. *)
Theorem full_history_drops_its_last_entry
    (now : positive) (i : HistoryInput.t) (c : ascii) (s : string) (w : World.t)
    (earlier : list HistoryItem.t) (last : HistoryItem.t) :
  HistoryInput.word i = Some (String c s) ->
  World.history w = earlier ++ [last] ->
  length (World.history w) = HISTORY_MAX_ITEMS ->
  (forall h, h ∈ World.history w ->
     identity h <> identity (historyItemOf now (String c s) i)) ->
  World.history (addToHistory now (Some i) w)
  = historyItemOf now (String c s) i :: earlier.
Proof.
  intros Hw Hsplit Hlen Hnew.
  rewrite (addToHistory_records now i c s w Hw). world_simpl.
  rewrite recordHistory_cons. f_equal.
  rewrite filter_all_kept.
  - rewrite Hsplit in *. rewrite length_app in Hlen. cbn in Hlen.
    rewrite take_app_length'; [reflexivity|]. unfold HISTORY_MAX_ITEMS in *. lia.
  - intros h Hh. apply Hnew in Hh. apply sameSearch_false in Hh. now rewrite Hh.
Qed.

(** A fifty-first search on a full history. *)
Lemma full_history_drops_its_last_entry_witness :
  World.history (addToHistory 99 (Some dogSearch) fullHistoryWorld)
  = historyItemOf 99 "dog" dogSearch :: removelast (World.history fullHistoryWorld).
Proof.
  apply (full_history_drops_its_last_entry 99 dogSearch "d" "og" fullHistoryWorld
           (removelast (World.history fullHistoryWorld))
           (HistoryItem.mk "word" (Some 1) None None None 1 noResult)).
  - reflexivity.
  - vm_compute. reflexivity.
  - vm_compute. reflexivity.
  - apply Forall_forall. apply (bool_decide_unpack _). vm_compute. reflexivity.
Defined.

(** ** Favorites and quiz list *)

Lemma blank_trim (wordToAdd : option string) :
  blank wordToAdd = JS.isEmpty (JS.trim (default "" wordToAdd)).
Proof. destruct wordToAdd as [[|c s]|]; reflexivity. Qed.

Lemma toLowerCase_empty (s : string) : JS.isEmpty (JS.toLowerCase s) = JS.isEmpty s.
Proof. destruct s; reflexivity. Qed.

Lemma blank_same_word (a b : option string) :
  JS.toLowerCase (JS.trim (default "" a)) = JS.toLowerCase (JS.trim (default "" b)) ->
  blank a = blank b.
Proof.
  intros E. rewrite !blank_trim.
  rewrite <- (toLowerCase_empty (JS.trim (default "" a))).
  rewrite <- (toLowerCase_empty (JS.trim (default "" b))). now rewrite E.
Qed.

Lemma isFavorite_spec (wordToCheck : option string) (w : World.t) :
  isFavorite wordToCheck w = true
  <-> blank wordToCheck = false
      /\ JS.toLowerCase (JS.trim (default "" wordToCheck)) ∈ favoriteWords w.
Proof.
  unfold isFavorite. destruct (blank wordToCheck).
  - split; [discriminate|]. intros [[=] _].
  - rewrite existsb_sameWord_favorites. unfold favoriteWords. tauto.
Qed.

(** Property X9. After [addFavorite] of a word that is not blank,
    [isFavorite] answers true for every spelling of it that differs in case
    and in surrounding white space only, whether the word was added by this
    call or was already there. *)
Theorem addFavorite_then_isFavorite
    (now : positive) (wordToAdd wordToCheck : option string) (w : World.t) :
  blank wordToAdd = false ->
  JS.toLowerCase (JS.trim (default "" wordToCheck))
  = JS.toLowerCase (JS.trim (default "" wordToAdd)) ->
  isFavorite wordToCheck (addFavorite now wordToAdd w) = true.
Proof.
  intros Hb E. apply isFavorite_spec. split.
  - now rewrite (blank_same_word _ _ E).
  - rewrite E. pose proof (addFavorite_cases now wordToAdd w) as H. cbv zeta in H.
    rewrite Hb in H. case_bool_decide as Hin; rewrite H.
    + exact Hin.
    + unfold favoriteWords. world_simpl. cbn [map FavoriteItem.word]. left.
Qed.

(** After 'Cat ' is added, '  CAT' is a favorite. *)
Lemma addFavorite_then_isFavorite_witness :
  isFavorite (Some "  CAT"%string) (addFavorite 7 (Some "Cat "%string) loadedWorld) = true.
Proof.
  apply addFavorite_then_isFavorite; reflexivity.
Defined.

Lemma removeFavorite_favorites (wordToRemove : option string) (w : World.t) :
  blank wordToRemove = false ->
  World.favorites (removeFavorite wordToRemove w)
  = List.filter
      (fun fav => negb (sameWord (FavoriteItem.word fav) (JS.trim (default "" wordToRemove))))
      (World.favorites w).
Proof. intros Hb. unfold removeFavorite. rewrite Hb. reflexivity. Qed.

(** Property X10. After [removeFavorite] of a word that is not blank,
    [isFavorite] answers false for every spelling of it that differs in case
    and in surrounding white space only; the favorites that are left are
    those of before in their order, and every favorite with another word is
    still there. *)
Theorem removeFavorite_then_isFavorite
    (wordToRemove wordToCheck : option string) (w : World.t) :
  blank wordToRemove = false ->
  JS.toLowerCase (JS.trim (default "" wordToCheck))
  = JS.toLowerCase (JS.trim (default "" wordToRemove)) ->
  isFavorite wordToCheck (removeFavorite wordToRemove w) = false
  /\ World.favorites (removeFavorite wordToRemove w) `sublist_of` World.favorites w
  /\ forall fav, fav ∈ World.favorites w ->
       JS.toLowerCase (FavoriteItem.word fav)
       <> JS.toLowerCase (JS.trim (default "" wordToRemove)) ->
       fav ∈ World.favorites (removeFavorite wordToRemove w).
Proof.
  intros Hb E. rewrite (removeFavorite_favorites _ _ Hb). split; [|split].
  - destruct (isFavorite wordToCheck (removeFavorite wordToRemove w)) eqn:Ef; [|reflexivity].
    apply isFavorite_spec in Ef as [_ Hin]. exfalso.
    unfold favoriteWords in Hin. rewrite (removeFavorite_favorites _ _ Hb) in Hin.
    apply list_elem_of_fmap in Hin as (fav & Hfav & Hin).
    rewrite list_elem_of_In in Hin. apply filter_In in Hin as [_ Hkeep].
    unfold sameWord in Hkeep. rewrite <- E, Hfav, String.eqb_refl in Hkeep. discriminate.
  - clear. induction (World.favorites w) as [|x l IH]; cbn; [constructor|].
    destruct (negb _); now constructor.
  - intros fav Hin Hne. rewrite list_elem_of_In. apply filter_In. split.
    + now rewrite <- list_elem_of_In.
    + unfold sameWord. destruct (String.eqb_spec (JS.toLowerCase (FavoriteItem.word fav))
        (JS.toLowerCase (JS.trim (default "" wordToRemove)))); [contradiction|reflexivity].
Qed.

(** After ' CAT ' is removed, 'cat' is no favorite. *)
Lemma removeFavorite_then_isFavorite_witness :
  isFavorite (Some "cat"%string)
    (removeFavorite (Some " CAT "%string) (addFavorite 7 (Some "Cat"%string) loadedWorld))
  = false.
Proof.
  apply (removeFavorite_then_isFavorite (Some " CAT "%string) (Some "cat"%string));
    reflexivity.
Defined.

Lemma filter_sameWord_absent (trimmedWord : string) (l : list FavoriteItem.t) :
  existsb (fun fav => sameWord (FavoriteItem.word fav) trimmedWord) l = false ->
  List.filter (fun fav => negb (sameWord (FavoriteItem.word fav) trimmedWord)) l = l.
Proof.
  induction l as [|x l IH]; [reflexivity|]. cbn [existsb List.filter].
  intros H. apply orb_false_iff in H as [Hx Hl]. rewrite Hx. cbn [negb].
  f_equal. now apply IH.
Qed.

Lemma sameWord_refl (s : string) : sameWord s s = true.
Proof. unfold sameWord. apply String.eqb_refl. Qed.

(** Property X11. Adding a word that is no favorite and removing it again
    gives back the list of favorites. *)
Theorem addFavorite_then_removeFavorite
    (now : positive) (word : option string) (w : World.t) :
  isFavorite word w = false ->
  World.favorites (removeFavorite word (addFavorite now word w)) = World.favorites w.
Proof.
  intros Hf. unfold isFavorite in Hf. unfold removeFavorite, addFavorite.
  destruct (blank word) eqn:Hb; [reflexivity|].
  rewrite Hf. cbn [negb]. world_simpl. cbn [List.filter FavoriteItem.word].
  rewrite sameWord_refl. cbn [negb]. now apply filter_sameWord_absent.
Qed.

(** Adding and removing 'dog' beside the favorite 'Cat'. *)
Lemma addFavorite_then_removeFavorite_witness :
  World.favorites
    (removeFavorite (Some "dog"%string)
       (addFavorite 8 (Some "dog"%string) (addFavorite 7 (Some "Cat"%string) loadedWorld)))
  = World.favorites (addFavorite 7 (Some "Cat"%string) loadedWorld).
Proof.
  apply addFavorite_then_removeFavorite. reflexivity.
Defined.

Lemma isFavorite_after_add (now : positive) (word : string) (w : World.t) :
  blank (Some word) = false ->
  isFavorite (Some word) w = false ->
  isFavorite (Some word) (addFavorite now (Some word) w) = true.
Proof.
  intros Hb Hf. unfold isFavorite in *. unfold addFavorite. rewrite Hb in *.
  rewrite Hf. cbn [negb]. world_simpl. cbn [existsb FavoriteItem.word].
  now rewrite sameWord_refl.
Qed.

Lemma isFavorite_after_remove (word : string) (w : World.t) :
  isFavorite (Some word) (removeFavorite (Some word) w) = false.
Proof.
  unfold isFavorite, removeFavorite. destruct (blank (Some word)); [reflexivity|].
  world_simpl. change (default ""%string (Some word)) with word.
  induction (World.favorites w) as [|x l IH]; [reflexivity|]. cbn [List.filter].
  destruct (sameWord (FavoriteItem.word x) (JS.trim word)) eqn:E; cbn [negb]; [exact IH|].
  cbn [existsb]. now rewrite E.
Qed.

(** Property X12. When the displayed result has a word that is not blank,
    [toggleFavorite] returns and flips the answer of [isFavorite] for that
    word; the history, the quiz list and the displayed result stay. *)
Theorem toggleFavorite_flips_the_bookmark
    (now : positive) (w : World.t) (m : list (string * JSON.t)) (word : string) :
  World.definitionResult w = Some (JSON.Obj m) ->
  JSON.getProp "word" m = Some (JSON.Str word) ->
  blank (Some word) = false ->
  exists w', toggleFavorite now w = Some w'
    /\ isFavorite (Some word) w' = negb (isFavorite (Some word) w)
    /\ World.history w' = World.history w
    /\ World.quizList w' = World.quizList w
    /\ World.definitionResult w' = World.definitionResult w.
Proof.
  intros Hr Hw Hb. unfold toggleFavorite. rewrite Hr. cbn [prop]. rewrite Hw.
  change (default (JSON.Str "Word") (Some (JSON.Str word))) with (JSON.Str word).
  eexists. split; [reflexivity|].
  destruct (isFavorite (Some word) w) eqn:Hf; cbn [negb].
  - split; [apply isFavorite_after_remove|].
    unfold removeFavorite. rewrite Hb. world_simpl. now rewrite Hr.
  - split; [now apply isFavorite_after_add|].
    unfold addFavorite. rewrite Hb.
    destruct (negb _); world_simpl; now rewrite Hr.
Qed.

(** The bookmark of a displayed result for 'cat'. *)
Lemma toggleFavorite_flips_the_bookmark_witness :
  exists w',
    toggleFavorite 7 (World.setDefinitionResult (Some catPayload) loadedWorld) = Some w'
    /\ isFavorite (Some "cat"%string) w'
       = negb (isFavorite (Some "cat"%string)
                 (World.setDefinitionResult (Some catPayload) loadedWorld)).
Proof.
  destruct (toggleFavorite_flips_the_bookmark 7
              (World.setDefinitionResult (Some catPayload) loadedWorld)
              [ ("word"%string, JSON.Str "cat");
                ("result"%string, JSON.Str "a small domesticated feline");
                ("requestedLength"%string, JSON.Num 30);
                ("cacheHit"%string, JSON.Bool false) ] "cat"
              eq_refl eq_refl eq_refl) as (w' & Hrun & Hflip & _).
  exists w'. split; assumption.
Defined.

(** ** The quiz list *)

Lemma removeFromQuiz_quizList (idToRemove : string) (w : World.t) :
  World.quizList (removeFromQuiz idToRemove w)
  = List.filter (fun item => negb (String.eqb (QuizItem.id item) idToRemove))
      (World.quizList w).
Proof. reflexivity. Qed.

Lemma find_none_filter (idToRemove : string) (l : list QuizItem.t) :
  (forall item, item ∈ l -> QuizItem.id item <> idToRemove) ->
  List.find (fun item => String.eqb (QuizItem.id item) idToRemove) l = None
  /\ List.filter (fun item => negb (String.eqb (QuizItem.id item) idToRemove)) l = l.
Proof.
  induction l as [|x l IH]; intros H; [split; reflexivity|].
  cbn [List.find List.filter].
  assert (Hx : String.eqb (QuizItem.id x) idToRemove = false).
  { apply String.eqb_neq. apply H. left. }
  rewrite Hx. cbn [negb]. destruct IH as [-> ->]; [|split; reflexivity].
  intros item Hin. apply H. now right.
Qed.

(** Property X13. [removeFromQuiz] keeps exactly the items with another
    id, in their order; for an id that no item has, the quiz list is
    unchanged and the toast names the placeholder ['Word']; the favorites
    and the history are not touched. *)
Theorem removeFromQuiz_removes_by_id (idToRemove : string) (w : World.t) :
  let w' := removeFromQuiz idToRemove w in
  (forall item, item ∈ World.quizList w'
     <-> item ∈ World.quizList w /\ QuizItem.id item <> idToRemove)
  /\ World.quizList w' `sublist_of` World.quizList w
  /\ ((forall item, item ∈ World.quizList w -> QuizItem.id item <> idToRemove) ->
      World.quizList w' = World.quizList w
      /\ Toast.message (World.toastState w') = "Removed from Quiz List: Word"%string)
  /\ World.favorites w' = World.favorites w
  /\ World.history w' = World.history w.
Proof.
  cbv zeta. rewrite removeFromQuiz_quizList. repeat split.
  - rewrite list_elem_of_In in H. now apply filter_In in H as [H _]; rewrite <- list_elem_of_In in H.
  - rewrite list_elem_of_In in H. apply filter_In in H as [_ H].
    intros E. rewrite E, String.eqb_refl in H. discriminate.
  - intros [Hin Hne]. rewrite list_elem_of_In. apply filter_In. split.
    + now rewrite <- list_elem_of_In.
    + apply String.eqb_neq in Hne. now rewrite Hne.
  - induction (World.quizList w) as [|x l IH]; cbn [List.filter]; [constructor|].
    destruct (negb _); now constructor.
  - now apply find_none_filter.
  - unfold removeFromQuiz. world_simpl. cbn [Toast.message].
    apply find_none_filter in H as [-> _]. reflexivity.
Qed.

(** Property X14. Adding to the quiz list a word that it does not hold, at
    a clock reading that is the id of no item, and removing the item by that
    id gives back the quiz list; the toast of the removal names the trimmed
    word. *)
Theorem addToQuiz_then_removeFromQuiz
    (now : positive) (wordToAdd : option string) (w : World.t) :
  blank wordToAdd = false ->
  JS.toLowerCase (JS.trim (default "" wordToAdd)) ∉ quizWords w ->
  (forall item, item ∈ World.quizList w ->
     QuizItem.id item <> JS.Number_toString (Z.pos now)) ->
  World.quizList
    (removeFromQuiz (JS.Number_toString (Z.pos now)) (addToQuiz now wordToAdd w))
  = World.quizList w
  /\ Toast.message
       (World.toastState
          (removeFromQuiz (JS.Number_toString (Z.pos now)) (addToQuiz now wordToAdd w)))
     = ("Removed from Quiz List: " +:+ JS.trim (default "" wordToAdd))%string.
Proof.
  intros Hb Hnew Hid.
  pose proof (addToQuiz_cases now wordToAdd w) as H. cbv zeta in H. rewrite Hb in H.
  case_bool_decide as Hin; [contradiction|].
  split.
  - rewrite removeFromQuiz_quizList, H. world_simpl. cbn [List.filter QuizItem.id].
    rewrite String.eqb_refl. cbn [negb]. now apply find_none_filter.
  - unfold removeFromQuiz. rewrite H. world_simpl. cbn [Toast.message List.find QuizItem.id].
    rewrite String.eqb_refl. cbn [option_map QuizItem.word].
    rewrite blank_trim in Hb.
    destruct (JS.trim (default "" wordToAdd)); [discriminate|reflexivity].
Qed.

(** Adding ' dog ' at the clock reading 8 and removing the item '8'. *)
Lemma addToQuiz_then_removeFromQuiz_witness :
  World.quizList (removeFromQuiz "8" (addToQuiz 8 (Some " dog "%string)
                                        (addToQuiz 7 (Some "Cat"%string) loadedWorld)))
  = World.quizList (addToQuiz 7 (Some "Cat"%string) loadedWorld).
Proof.
  apply (addToQuiz_then_removeFromQuiz 8 (Some " dog "%string)
           (addToQuiz 7 (Some "Cat"%string) loadedWorld)).
  - reflexivity.
  - apply (bool_decide_unpack _). vm_compute. reflexivity.
  - apply Forall_forall. apply (bool_decide_unpack _). vm_compute. reflexivity.
Defined.

(** ** The request orchestrator *)

Lemma getCachedDefinition_started
    (readRejects : bool) (params : RequestParams.t) (w : World.t) :
  getCachedDefinition readRejects params (started w)
  = (fst (getCachedDefinition readRejects params w),
     started (snd (getCachedDefinition readRejects params w))).
Proof.
  unfold getCachedDefinition, AsyncStorage.getItem.
  change (World.isInitialDataLoaded (started w)) with (World.isInitialDataLoaded w).
  change (World.definitionsCacheIndex (started w)) with (World.definitionsCacheIndex w).
  change (World.storage (started w)) with (World.storage w).
  destruct (World.isInitialDataLoaded w); cbn [negb]; [|reflexivity].
  destruct (indexHas _ _); cbn [negb]; [|reflexivity].
  destruct readRejects; [reflexivity|].
  destruct (World.storage w !! generateCacheKey params) as [data|]; [|reflexivity].
  destruct (JS.isEmpty data); [reflexivity|].
  destruct (JSON.parse data); reflexivity.
Qed.

(** The three ways in which [handleDefine] ends on valid input. *)
Lemma handleDefine_valid (env : DefineEnv.t) (params : RequestParams.t) (w : World.t) :
  validateInputs (wordToDefine params w) (requestedLength params w) = None ->
  handleDefine env params w
  = let looked :=
      getCachedDefinition (DefineEnv.readRejects env) (requestParams params w) w in
    match fst looked with
    | Some cached =>
        showToast "Definition loaded from local cache." info
          (addToHistory (DefineEnv.historyNow env) (Some (historyInput cached))
             (World.setIsLoading false
                (World.setDefinitionResult (Some cached) (started (snd looked)))))
    | None =>
        let w3 := World.emit (Fetch (apiRequestBody params w)) (started (snd looked)) in
        match DefineEnv.fetched env with
        | FetchResponds true _ responseData =>
            World.setIsLoading false
              (saveToCache (DefineEnv.writeRejects env) (DefineEnv.savedAt env)
                 (DefineEnv.indexedAt env) (requestParams params w)
                 (finalResultData params w responseData)
                 (addToHistory (DefineEnv.historyNow env)
                    (Some (historyInput (finalResultData params w responseData)))
                    (World.setDefinitionResult
                       (Some (finalResultData params w responseData)) w3)))
        | fetched =>
            World.setIsLoading false
              (showToast (failureMessage fetched) error
                 (World.setDefinitionResult None
                    (World.setError (Some (failureMessage fetched)) w3)))
        end
    end.
Proof.
  intros Hv. unfold handleDefine. rewrite Hv.
  fold (started w). fold (requestParams params w).
  rewrite getCachedDefinition_started.
  cbv zeta.
  destruct (fst (getCachedDefinition _ _ w)); [reflexivity|].
  destruct (DefineEnv.fetched env) as [message|[] status responseData]; reflexivity.
Qed.

Lemma parse_empty : JSON.parse "" = None.
Proof. reflexivity. Qed.

(** A lookup that finds readable data reads the key and changes nothing. *)
Lemma getCachedDefinition_found
    (params : RequestParams.t) (w : World.t) (definitionData : string) (parsed : JSON.t) :
  World.isInitialDataLoaded w = true ->
  indexHas (World.definitionsCacheIndex w) (generateCacheKey params) = true ->
  World.storage w !! generateCacheKey params = Some definitionData ->
  JSON.parse definitionData = Some parsed ->
  getCachedDefinition false params w
  = (Some (JSON.Obj (JSON.setProp "cacheHit" (JSON.Bool true) (ownProps parsed))),
     World.emit (GetItem (generateCacheKey params) (ReadValue (Some definitionData))) w).
Proof.
  intros Hl Hi Hs Hp. unfold getCachedDefinition, AsyncStorage.getItem.
  rewrite Hl, Hi, Hs. cbn [negb].
  destruct definitionData as [|c r]; [discriminate|].
  cbn [JS.isEmpty]. now rewrite Hp.
Qed.

(** What [addToHistory] does to a state is an update of the history. *)
Lemma addToHistory_as_update (now : positive) (item : option HistoryInput.t) (w : World.t) :
  exists f, addToHistory now item w = World.setHistory f w
    /\ (f (World.history w) = World.history w
        \/ exists newItem, f (World.history w) = recordHistory newItem (World.history w)).
Proof.
  assert (Hsame : w = World.setHistory (fun h => h) w) by now destruct w.
  destruct item as [i|]; [|exists (fun h => h); split; [exact Hsame|now left]].
  unfold addToHistory.
  destruct (HistoryInput.word i) as [[|c s]|];
    [exists (fun h => h); split; [exact Hsame|now left]
    | |exists (fun h => h); split; [exact Hsame|now left]].
  eexists. split; [reflexivity|]. right. eexists. reflexivity.
Qed.

(** The state after a request that the cache serves. *)
Lemma handleDefine_cached
    (env : DefineEnv.t) (params : RequestParams.t) (w : World.t)
    (definitionData : string) (parsed : JSON.t) :
  validateInputs (wordToDefine params w) (requestedLength params w) = None ->
  World.isInitialDataLoaded w = true ->
  indexHas (World.definitionsCacheIndex w) (requestKey params w) = true ->
  DefineEnv.readRejects env = false ->
  World.storage w !! requestKey params w = Some definitionData ->
  JSON.parse definitionData = Some parsed ->
  let cached := JSON.Obj (JSON.setProp "cacheHit" (JSON.Bool true) (ownProps parsed)) in
  handleDefine env params w
  = showToast "Definition loaded from local cache." info
      (addToHistory (DefineEnv.historyNow env) (Some (historyInput cached))
         (World.setIsLoading false
            (World.setDefinitionResult (Some cached)
               (started
                  (World.emit
                     (GetItem (requestKey params w) (ReadValue (Some definitionData)))
                     w))))).
Proof.
  intros Hv Hl Hi Hr Hs Hp. rewrite (handleDefine_valid _ _ _ Hv). cbv zeta.
  rewrite Hr.
  rewrite (getCachedDefinition_found _ _ _ _ Hl Hi Hs Hp). reflexivity.
Qed.

(** Property X15. When the data are loaded, the index names the key of the
    request, the read resolves and the stored text parses, [handleDefine]
    displays the parsed entry with [cacheHit] set, clears the error and the
    loading flag, shows the notice of a cache hit and records the search;
    its only call is the read of that key: the service is not asked, and
    the store and the index are as before. *)
Theorem handleDefine_serves_a_cached_definition
    (env : DefineEnv.t) (params : RequestParams.t) (w : World.t)
    (definitionData : string) (parsed : JSON.t) :
  validateInputs (wordToDefine params w) (requestedLength params w) = None ->
  World.isInitialDataLoaded w = true ->
  indexHas (World.definitionsCacheIndex w) (requestKey params w) = true ->
  DefineEnv.readRejects env = false ->
  World.storage w !! requestKey params w = Some definitionData ->
  JSON.parse definitionData = Some parsed ->
  let cached := JSON.Obj (JSON.setProp "cacheHit" (JSON.Bool true) (ownProps parsed)) in
  let w' := handleDefine env params w in
  World.definitionResult w' = Some cached
  /\ World.isLoading w' = false
  /\ World.error w' = None
  /\ World.toastState w' = Toast.mk true "Definition loaded from local cache." info
  /\ World.trace w'
     = GetItem (requestKey params w) (ReadValue (Some definitionData)) :: World.trace w
  /\ World.storage w' = World.storage w
  /\ World.definitionsCacheIndex w' = World.definitionsCacheIndex w
  /\ World.history w'
     = World.history (addToHistory (DefineEnv.historyNow env) (Some (historyInput cached)) w).
Proof.
  intros Hv Hl Hi Hr Hs Hp. cbv zeta.
  rewrite (handleDefine_cached env params w definitionData parsed Hv Hl Hi Hr Hs Hp).
  set (cached := JSON.Obj _).
  set (item := Some (historyInput cached)).
  unfold addToHistory. destruct item as [i|]; [|unfold started; world_simpl; repeat split].
  destruct (HistoryInput.word i) as [[|c s]|]; unfold started; world_simpl; repeat split.
Qed.

(** A request for 'cat' on a state with that entry, the network being down. *)
Lemma handleDefine_serves_a_cached_definition_witness :
  World.trace
    (handleDefine (DefineEnv.mk false (FetchRejects "offline") 9 false 10 11) catParams
       cachedWorld)
  = [GetItem catKey (ReadValue (Some (JSON.stringify catPayload)))]
  /\ World.isLoading
       (handleDefine (DefineEnv.mk false (FetchRejects "offline") 9 false 10 11) catParams
          cachedWorld)
     = false.
Proof.
  pose proof (handleDefine_serves_a_cached_definition
                (DefineEnv.mk false (FetchRejects "offline") 9 false 10 11) catParams
                cachedWorld (JSON.stringify catPayload) catPayload) as H.
  cbv zeta in H. destruct H as (_ & Hload & _ & _ & Htrace & _).
  - reflexivity.
  - reflexivity.
  - reflexivity.
  - reflexivity.
  - reflexivity.
  - vm_compute. reflexivity.
  - split; [exact Htrace|exact Hload].
Defined.

(** What a lookup leaves alone. *)
Lemma getCachedDefinition_keeps
    (readRejects : bool) (params : RequestParams.t) (w : World.t) :
  World.storage (snd (getCachedDefinition readRejects params w)) = World.storage w
  /\ World.history (snd (getCachedDefinition readRejects params w)) = World.history w
  /\ World.toastState (snd (getCachedDefinition readRejects params w)) = World.toastState w.
Proof.
  destruct (getCachedDefinition_changes readRejects params w) as [->|[r [->| ->]]];
    repeat split.
Qed.

Lemma getProp_setProp (k : string) (v : JSON.t) (m : list (string * JSON.t)) :
  JSON.getProp k (JSON.setProp k v m) = Some v.
Proof.
  induction m as [|[k' v'] m IH]; cbn [JSON.setProp JSON.getProp].
  - now rewrite String.eqb_refl.
  - destruct (String.eqb k' k) eqn:E; cbn [JSON.getProp]; now rewrite E.
Qed.

(** The state after a request that the service answers. *)
Lemma handleDefine_fetched
    (env : DefineEnv.t) (params : RequestParams.t) (w : World.t)
    (status : Z) (responseData : list (string * JSON.t)) :
  validateInputs (wordToDefine params w) (requestedLength params w) = None ->
  fst (getCachedDefinition (DefineEnv.readRejects env) (requestParams params w) w) = None ->
  DefineEnv.fetched env = FetchResponds true status responseData ->
  handleDefine env params w
  = World.setIsLoading false
      (saveToCache (DefineEnv.writeRejects env) (DefineEnv.savedAt env)
         (DefineEnv.indexedAt env) (requestParams params w)
         (finalResultData params w responseData)
         (addToHistory (DefineEnv.historyNow env)
            (Some (historyInput (finalResultData params w responseData)))
            (World.setDefinitionResult (Some (finalResultData params w responseData))
               (World.emit (Fetch (apiRequestBody params w))
                  (started
                     (snd (getCachedDefinition (DefineEnv.readRejects env)
                             (requestParams params w) w))))))).
Proof.
  intros Hv Hmiss Hf. rewrite (handleDefine_valid _ _ _ Hv). cbv zeta.
  rewrite Hmiss, Hf. reflexivity.
Qed.

(** Property X16. When the lookup returns absent and the service answers
    with success, [handleDefine] displays the response with
    [requestedLength] and [cacheHit] false added, clears the error and the
    loading flag, records the search, and after the lookup makes exactly two
    calls: the request and one write of the result under the key of the
    request. When the write resolves, the store and the index hold the
    entry and no toast is shown; when it rejects, the store is as before and
    the toast says that the definition could not be saved locally. *)
Theorem handleDefine_fetches_and_stores_on_a_miss
    (env : DefineEnv.t) (params : RequestParams.t) (w : World.t)
    (status : Z) (responseData : list (string * JSON.t)) :
  validateInputs (wordToDefine params w) (requestedLength params w) = None ->
  fst (getCachedDefinition (DefineEnv.readRejects env) (requestParams params w) w) = None ->
  DefineEnv.fetched env = FetchResponds true status responseData ->
  let looked :=
    snd (getCachedDefinition (DefineEnv.readRejects env) (requestParams params w) w) in
  let result := finalResultData params w responseData in
  let text := storedText (DefineEnv.savedAt env) result in
  let w' := handleDefine env params w in
  World.definitionResult w' = Some result
  /\ prop result "cacheHit" = Some (JSON.Bool false)
  /\ World.isLoading w' = false
  /\ World.error w' = None
  /\ World.trace w'
     = SetItem (requestKey params w) text (negb (DefineEnv.writeRejects env))
       :: Fetch (apiRequestBody params w) :: World.trace looked
  /\ World.history w'
     = World.history
         (addToHistory (DefineEnv.historyNow env) (Some (historyInput result)) w)
  /\ (if DefineEnv.writeRejects env
      then World.storage w' = World.storage w
           /\ World.definitionsCacheIndex w' = World.definitionsCacheIndex looked
           /\ World.toastState w'
              = Toast.mk true "Could not save definition locally." error
      else World.storage w' = <[requestKey params w := text]> (World.storage w)
           /\ World.definitionsCacheIndex w'
              = <[requestKey params w := Z.pos (DefineEnv.indexedAt env)]>
                  (World.definitionsCacheIndex looked)
           /\ World.toastState w' = World.toastState w).
Proof.
  intros Hv Hmiss Hf. cbv zeta.
  rewrite (handleDefine_fetched env params w status responseData Hv Hmiss Hf).
  pose proof (getCachedDefinition_keeps (DefineEnv.readRejects env)
                (requestParams params w) w) as (Hst & Hhist & Htoast).
  set (looked := snd (getCachedDefinition _ _ w)) in *.
  set (result := finalResultData params w responseData).
  set (item := Some (historyInput result)).
  assert (Hflag : prop result "cacheHit" = Some (JSON.Bool false)).
  { unfold result, finalResultData. cbn [prop]. apply getProp_setProp. }
  destruct (DefineEnv.writeRejects env); cbn [negb].
  - rewrite saveToCache_rejected.
    unfold addToHistory. destruct item as [i|];
      [destruct (HistoryInput.word i) as [[|c s]|]|];
      unfold started; world_simpl; rewrite ?Hhist; repeat split; auto.
  - rewrite saveToCache_resolved.
    unfold addToHistory. destruct item as [i|];
      [destruct (HistoryInput.word i) as [[|c s]|]|];
      unfold started; world_simpl; rewrite ?Hhist, ?Hst, ?Htoast; repeat split; auto.
Qed.

(** A request for 'cat' on an empty cache. *)
Lemma handleDefine_fetches_and_stores_on_a_miss_witness :
  World.trace (handleDefine (servedBy 9 10 11 catResponse) catParams loadedWorld)
  = [ SetItem catKey
        (storedText 10 (finalResultData catParams loadedWorld catResponse)) true;
      Fetch (JSON.Obj [ ("word"%string, JSON.Str "cat"); ("length"%string, JSON.Num 30) ]) ]
  /\ World.definitionsCacheIndex
       (handleDefine (servedBy 9 10 11 catResponse) catParams loadedWorld)
     = {[ catKey := 11 ]}.
Proof.
  pose proof (handleDefine_fetches_and_stores_on_a_miss (servedBy 9 10 11 catResponse)
                catParams loadedWorld 200 catResponse) as H.
  cbv zeta in H. destruct H as (_ & _ & _ & _ & Htrace & _ & _ & Hindex & _).
  - reflexivity.
  - reflexivity.
  - reflexivity.
  - split; [exact Htrace|exact Hindex].
Defined.

Lemma failureMessage_not_empty (fetched : FetchOutcome) :
  JS.isEmpty (failureMessage fetched) = false.
Proof.
  unfold failureMessage.
  destruct fetched as [[|c m]|ok status responseData]; [reflexivity|reflexivity|].
  destruct (asString _) as [[|c m]|]; reflexivity.
Qed.

(** The state after a request that fails. *)
Lemma handleDefine_failed
    (env : DefineEnv.t) (params : RequestParams.t) (w : World.t) :
  validateInputs (wordToDefine params w) (requestedLength params w) = None ->
  fst (getCachedDefinition (DefineEnv.readRejects env) (requestParams params w) w) = None ->
  requestFails (DefineEnv.fetched env) = true ->
  handleDefine env params w
  = World.setIsLoading false
      (showToast (failureMessage (DefineEnv.fetched env)) error
         (World.setDefinitionResult None
            (World.setError (Some (failureMessage (DefineEnv.fetched env)))
               (World.emit (Fetch (apiRequestBody params w))
                  (started
                     (snd (getCachedDefinition (DefineEnv.readRejects env)
                             (requestParams params w) w))))))).
Proof.
  intros Hv Hmiss Hf. rewrite (handleDefine_valid _ _ _ Hv). cbv zeta.
  rewrite Hmiss. destruct (DefineEnv.fetched env) as [message|[] status responseData];
    [reflexivity|discriminate|reflexivity].
Qed.

(** Property X17. When the lookup returns absent and the request fails
    (the call rejects, or the response is not ok), [handleDefine] stores and
    shows a message that is not empty, clears the displayed result and the
    loading flag, and writes nothing: after the lookup the request is the
    only call, and the store and the history are as before. *)
Theorem handleDefine_reports_a_failed_request
    (env : DefineEnv.t) (params : RequestParams.t) (w : World.t) :
  validateInputs (wordToDefine params w) (requestedLength params w) = None ->
  fst (getCachedDefinition (DefineEnv.readRejects env) (requestParams params w) w) = None ->
  requestFails (DefineEnv.fetched env) = true ->
  let looked :=
    snd (getCachedDefinition (DefineEnv.readRejects env) (requestParams params w) w) in
  let w' := handleDefine env params w in
  World.error w' = Some (failureMessage (DefineEnv.fetched env))
  /\ JS.isEmpty (failureMessage (DefineEnv.fetched env)) = false
  /\ World.toastState w' = Toast.mk true (failureMessage (DefineEnv.fetched env)) error
  /\ World.definitionResult w' = None
  /\ World.isLoading w' = false
  /\ World.trace w' = Fetch (apiRequestBody params w) :: World.trace looked
  /\ World.storage w' = World.storage w
  /\ World.definitionsCacheIndex w' = World.definitionsCacheIndex looked
  /\ World.history w' = World.history w.
Proof.
  intros Hv Hmiss Hf. cbv zeta.
  rewrite (handleDefine_failed env params w Hv Hmiss Hf).
  pose proof (getCachedDefinition_keeps (DefineEnv.readRejects env)
                (requestParams params w) w) as (Hst & Hhist & _).
  unfold started. world_simpl. rewrite Hst, Hhist.
  repeat split. apply failureMessage_not_empty.
Qed.

(** A response with the status 500 and an empty message. *)
Lemma handleDefine_reports_a_failed_request_witness :
  World.error
    (handleDefine
       (DefineEnv.mk false (FetchResponds false 500 [("message"%string, JSON.Str "")])
          9 false 10 11)
       catParams loadedWorld)
  = Some "API request failed with status: 500"%string
  /\ World.storage
       (handleDefine
          (DefineEnv.mk false (FetchResponds false 500 [("message"%string, JSON.Str "")])
             9 false 10 11)
          catParams loadedWorld)
     = ∅.
Proof.
  pose proof (handleDefine_reports_a_failed_request
                (DefineEnv.mk false (FetchResponds false 500 [("message"%string, JSON.Str "")])
                   9 false 10 11)
                catParams loadedWorld) as H.
  cbv zeta in H. destruct H as (Herr & _ & _ & _ & _ & _ & Hst & _).
  - reflexivity.
  - reflexivity.
  - reflexivity.
  - split; [exact Herr|exact Hst].
Defined.

(** The ways in which [handleDefine] ends, each as a chain of updates of the
    state. *)
Ltac define_paths env params w Hv :=
  rewrite (handleDefine_valid env params w Hv); cbv zeta;
  let Hc := fresh "Hc" in
  pose proof (getCachedDefinition_changes (DefineEnv.readRejects env)
                (requestParams params w) w) as Hc;
  cbv zeta in Hc;
  destruct (getCachedDefinition (DefineEnv.readRejects env) (requestParams params w) w)
    as [cachedResult looked];
  cbn [fst snd] in Hc |- *;
  destruct cachedResult as [cached|];
    [|destruct (DefineEnv.fetched env) as [message|[] status responseData];
      [| destruct (DefineEnv.writeRejects env);
         [rewrite saveToCache_rejected|rewrite saveToCache_resolved] |]];
  repeat match goal with
    | |- context [addToHistory ?n ?i ?W] =>
        let f := fresh "f" in
        let Hf := fresh "Hf" in
        destruct (addToHistory_as_update n i W) as (f & -> & Hf)
    end;
  destruct Hc as [->|[r [->| ->]]];
  unfold started in *; world_simpl.

(** Property X18. Started when nothing is loading, [handleDefine] always
    ends with either an error or a result on the screen: the loading
    indicator and the empty form area are both hidden afterwards, whatever
    the input and whatever the environment does. *)
Theorem handleDefine_ends_with_a_result_or_an_error
    (env : DefineEnv.t) (params : RequestParams.t) (w : World.t) :
  World.isLoading w = false ->
  let w' := handleDefine env params w in
  showLoading w' = false
  /\ showFormArea w' = false
  /\ xorb (showError w') (showResult w') = true.
Proof.
  intros Hload. cbv zeta.
  destruct (validateInputs (wordToDefine params w) (requestedLength params w))
    as [validationError|] eqn:Hv.
  - apply validateInputs_message_not_empty in Hv as He.
    unfold handleDefine. rewrite Hv.
    unfold showLoading, showFormArea, showError, showResult, hasError. world_simpl.
    rewrite Hload. destruct validationError; [discriminate|].
    repeat split.
  - define_paths env params w Hv;
      unfold showLoading, showFormArea, showError, showResult, hasError; world_simpl;
      try (pose proof (failureMessage_not_empty (FetchRejects message)) as He;
           destruct (failureMessage (FetchRejects message)); [discriminate|]);
      try (pose proof (failureMessage_not_empty (FetchResponds false status responseData))
             as He;
           destruct (failureMessage (FetchResponds false status responseData));
           [discriminate|]);
      repeat split.
Qed.

(** A request from the empty form. *)
Lemma handleDefine_ends_with_a_result_or_an_error_witness :
  showFormArea
    (handleDefine (DefineEnv.mk false (FetchRejects "offline") 9 false 10 11) noParams
       loadedWorld)
  = false
  /\ showError
       (handleDefine (DefineEnv.mk false (FetchRejects "offline") 9 false 10 11) noParams
          loadedWorld)
     = true.
Proof.
  pose proof (handleDefine_ends_with_a_result_or_an_error
                (DefineEnv.mk false (FetchRejects "offline") 9 false 10 11) noParams
                loadedWorld) as H.
  cbv zeta in H. destruct H as (_ & Hform & _).
  - reflexivity.
  - split; [exact Hform|reflexivity].
Defined.

(** Property X19. [handleDefine] never touches the favorites, the quiz
    list or the fields of the form; in the store and in the index it changes
    no key but the one of its request; and it leaves the history alone or
    records one search in it. *)
Theorem handleDefine_touches_only_its_own_entry
    (env : DefineEnv.t) (params : RequestParams.t) (w : World.t) :
  let w' := handleDefine env params w in
  World.favorites w' = World.favorites w
  /\ World.quizList w' = World.quizList w
  /\ (World.word w', World.length w', World.tone w', World.contextValue w', World.lang w')
     = (World.word w, World.length w, World.tone w, World.contextValue w, World.lang w)
  /\ (forall key, key <> requestKey params w ->
        World.storage w' !! key = World.storage w !! key
        /\ World.definitionsCacheIndex w' !! key = World.definitionsCacheIndex w !! key)
  /\ (World.history w' = World.history w
      \/ exists newItem, World.history w' = recordHistory newItem (World.history w)).
Proof.
  cbv zeta.
  destruct (validateInputs (wordToDefine params w) (requestedLength params w))
    as [validationError|] eqn:Hv.
  - unfold handleDefine. rewrite Hv. world_simpl. repeat split; auto.
  - unfold requestKey.
    define_paths env params w Hv; repeat split; auto;
      intros; rewrite ?lookup_insert_ne, ?lookup_delete_ne by congruence; reflexivity.
Qed.

Lemma handleDefine_keeps_the_form
    (env : DefineEnv.t) (params : RequestParams.t) (w : World.t) :
  World.word (handleDefine env params w) = World.word w
  /\ World.length (handleDefine env params w) = World.length w
  /\ World.tone (handleDefine env params w) = World.tone w
  /\ World.contextValue (handleDefine env params w) = World.contextValue w
  /\ World.lang (handleDefine env params w) = World.lang w
  /\ World.isInitialDataLoaded (handleDefine env params w) = World.isInitialDataLoaded w.
Proof.
  destruct (validateInputs (wordToDefine params w) (requestedLength params w))
    as [validationError|] eqn:Hv.
  - unfold handleDefine. rewrite Hv. repeat split.
  - unfold World.isInitialDataLoaded.
    define_paths env params w Hv; repeat split.
Qed.

Lemma handleDefine_same_request
    (env : DefineEnv.t) (params : RequestParams.t) (w : World.t) :
  wordToDefine params (handleDefine env params w) = wordToDefine params w
  /\ requestedLength params (handleDefine env params w) = requestedLength params w
  /\ requestParams params (handleDefine env params w) = requestParams params w.
Proof.
  destruct (handleDefine_keeps_the_form env params w) as (Hw & Hl & Ht & Hc & Hg & _).
  unfold requestParams, wordToDefine, requestedLength.
  now rewrite Hw, Hl, Ht, Hc, Hg.
Qed.

Lemma getProp_setProp_ne (k k' : string) (v : JSON.t) (m : list (string * JSON.t)) :
  k <> k' -> JSON.getProp k (JSON.setProp k' v m) = JSON.getProp k m.
Proof.
  intros Hne. induction m as [|[k0 v0] m IH]; cbn [JSON.setProp JSON.getProp].
  - apply String.eqb_neq in Hne. rewrite String.eqb_sym in Hne. now rewrite Hne.
  - destruct (String.eqb_spec k0 k') as [->|Hk]; cbn [JSON.getProp].
    + apply String.eqb_neq in Hne. rewrite String.eqb_sym in Hne. now rewrite Hne.
    + now rewrite IH.
Qed.

(** Property X20. Once the data are loaded, after a request that was
    fetched and stored, the same request made again is served from the
    cache: its only call is the read of the key, and the displayed result
    has [cacheHit] set, the [savedAt] of the first run, and every other
    property as the first run displayed it. *)
Theorem handleDefine_again_is_served_from_the_cache
    (env1 env2 : DefineEnv.t) (params : RequestParams.t) (w : World.t)
    (status : Z) (responseData : list (string * JSON.t)) :
  validateInputs (wordToDefine params w) (requestedLength params w) = None ->
  World.isInitialDataLoaded w = true ->
  fst (getCachedDefinition (DefineEnv.readRejects env1) (requestParams params w) w) = None ->
  DefineEnv.fetched env1 = FetchResponds true status responseData ->
  DefineEnv.writeRejects env1 = false ->
  DefineEnv.readRejects env2 = false ->
  JSON.wf (JSON.Obj responseData) ->
  let w1 := handleDefine env1 params w in
  let w2 := handleDefine env2 params w1 in
  let first := finalResultData params w responseData in
  exists second,
    World.definitionResult w2 = Some (JSON.Obj second)
    /\ World.trace w2
       = GetItem (requestKey params w)
           (ReadValue (Some (storedText (DefineEnv.savedAt env1) first)))
         :: World.trace w1
    /\ World.error w2 = None
    /\ World.isLoading w2 = false
    /\ JSON.getProp "cacheHit" second = Some (JSON.Bool true)
    /\ JSON.getProp "savedAt" second = Some (JSON.Num (Z.pos (DefineEnv.savedAt env1)))
    /\ forall k, k <> "cacheHit"%string -> k <> "savedAt"%string ->
         JSON.getProp k second = prop first k.
Proof.
  intros Hv Hl Hmiss Hf Hwr Hrd Hwf. cbv zeta.
  set (first := finalResultData params w responseData).
  set (stored := JSON.setProp "savedAt" (JSON.Num (Z.pos (DefineEnv.savedAt env1)))
                   (ownProps first)).
  exists (JSON.setProp "cacheHit" (JSON.Bool true) stored).
  assert (Hfirst : JSON.wf first).
  { unfold first, finalResultData. apply setProp_wf; [constructor|].
    apply setProp_wf; [apply number_wf|exact Hwf]. }
  assert (Hstored : JSON.wf (JSON.Obj stored)).
  { apply setProp_wf; [constructor|now apply ownProps_wf]. }
  destruct (handleDefine_same_request env1 params w) as (Hsw & Hsl & Hsp).
  destruct (handleDefine_keeps_the_form env1 params w) as (_ & _ & _ & _ & _ & Hloaded).
  pose proof (handleDefine_fetched env1 params w status responseData Hv Hmiss Hf) as Hw1.
  rewrite Hwr, saveToCache_resolved in Hw1. fold first in Hw1.
  set (w1 := handleDefine env1 params w) in *.
  assert (Hkey : requestKey params w1 = requestKey params w)
    by (unfold requestKey; now rewrite Hsp).
  assert (Hrun : handleDefine env2 params w1
                 = showToast "Definition loaded from local cache." info
                     (addToHistory (DefineEnv.historyNow env2)
                        (Some (historyInput
                                 (JSON.Obj (JSON.setProp "cacheHit" (JSON.Bool true) stored))))
                        (World.setIsLoading false
                           (World.setDefinitionResult
                              (Some (JSON.Obj (JSON.setProp "cacheHit" (JSON.Bool true) stored)))
                              (started
                                 (World.emit
                                    (GetItem (requestKey params w)
                                       (ReadValue
                                          (Some (storedText (DefineEnv.savedAt env1) first))))
                                    w1)))))).
  { rewrite <- Hkey.
    apply (handleDefine_cached env2 params w1
             (storedText (DefineEnv.savedAt env1) first) (JSON.Obj stored)).
    - now rewrite Hsw, Hsl.
    - now rewrite Hloaded.
    - rewrite Hkey, Hw1. unfold indexHas, requestKey. world_simpl.
      now rewrite lookup_insert_eq.
    - exact Hrd.
    - rewrite Hkey, Hw1. unfold requestKey. world_simpl. apply lookup_insert_eq.
    - unfold storedText. fold stored. now apply parse_stringify. }
  rewrite Hrun.
  match goal with
  | |- context [addToHistory ?n ?i ?W] =>
      destruct (addToHistory_as_update n i W) as (f & -> & _)
  end.
  unfold started. world_simpl. repeat split.
  - apply getProp_setProp.
  - rewrite getProp_setProp_ne by discriminate. apply getProp_setProp.
  - intros k Hk1 Hk2. unfold stored.
    rewrite !getProp_setProp_ne by congruence.
    unfold first, finalResultData. reflexivity.
Qed.

(** The request for 'cat' made twice, the second time with the network down. *)
Lemma handleDefine_again_is_served_from_the_cache_witness :
  exists second,
    World.definitionResult
      (handleDefine (DefineEnv.mk false (FetchRejects "offline") 12 false 13 14) catParams
         (handleDefine (servedBy 9 10 11 catResponse) catParams loadedWorld))
    = Some (JSON.Obj second)
    /\ JSON.getProp "cacheHit" second = Some (JSON.Bool true).
Proof.
  pose proof (handleDefine_again_is_served_from_the_cache
                (servedBy 9 10 11 catResponse)
                (DefineEnv.mk false (FetchRejects "offline") 12 false 13 14)
                catParams loadedWorld 200 catResponse) as H.
  cbv zeta in H. destruct H as (second & Hres & _ & _ & _ & Hflag & _).
  - reflexivity.
  - reflexivity.
  - reflexivity.
  - reflexivity.
  - reflexivity.
  - reflexivity.
  - constructor; [apply (bool_decide_unpack _); vm_compute; reflexivity|repeat constructor].
  - exists second. split; [exact Hres|exact Hflag].
Defined.

(** ** The sorted views *)

Lemma insertBy_Permutation {A : Type} (compare : A -> A -> Z) (x : A) (l : list A) :
  insertBy compare x l ≡ₚ x :: l.
Proof.
  induction l as [|y l IH]; cbn [insertBy]; [reflexivity|].
  destruct (compare x y <=? 0); [reflexivity|].
  rewrite IH. apply Permutation_swap.
Qed.

Lemma sortBy_Permutation {A : Type} (compare : A -> A -> Z) (l : list A) :
  sortBy compare l ≡ₚ l.
Proof.
  unfold sortBy. induction l as [|x l IH]; cbn [fold_right]; [reflexivity|].
  rewrite insertBy_Permutation. now rewrite IH.
Qed.

(** Property X21. The sorted views lose and invent nothing: for every
    sort order and every locale comparison, [sortedFavorites] and
    [sortedHistory] are rearrangements of the favorites and of the history,
    and [recentHistory] holds at most five entries of [sortedHistory]. *)
Theorem sorted_views_keep_every_entry
    (localeCompare : string -> string -> Z) (ui : Ui.t) :
  sortedFavorites localeCompare ui ≡ₚ World.favorites (Ui.world ui)
  /\ sortedHistory localeCompare ui ≡ₚ World.history (Ui.world ui)
  /\ recentHistory localeCompare ui `sublist_of` sortedHistory localeCompare ui
  /\ (length (recentHistory localeCompare ui) <= 5)%nat.
Proof.
  unfold recentHistory, sortedFavorites, sortedHistory.
  split; [apply sortBy_Permutation|]. split; [apply sortBy_Permutation|].
  split; [apply sublist_take|]. rewrite length_take. lia.
Qed.

Lemma insertBy_sorted {A : Type} (R : A -> A -> Prop) (compare : A -> A -> Z)
    (x : A) (l : list A) :
  (forall a b, compare a b <= 0 -> R a b) ->
  (forall a b, 0 < compare a b -> R b a) ->
  (forall a b c, R a b -> R b c -> R a c) ->
  StronglySorted R l -> StronglySorted R (insertBy compare x l).
Proof.
  intros Hle Hgt Htrans. induction l as [|y l IH]; intros Hs; cbn [insertBy].
  - repeat constructor.
  - apply StronglySorted_inv in Hs as [Hl Hy].
    destruct (Z.leb_spec (compare x y) 0) as [Hc|Hc].
    + constructor; [now constructor|]. constructor; [now apply Hle|].
      eapply List.Forall_impl; [|exact Hy]. intros z Hz. eapply Htrans; [|exact Hz].
      now apply Hle.
    + constructor; [now apply IH|].
      rewrite insertBy_Permutation. constructor; [now apply Hgt|exact Hy].
Qed.

Lemma sortBy_sorted {A : Type} (R : A -> A -> Prop) (compare : A -> A -> Z) (l : list A) :
  (forall a b, compare a b <= 0 -> R a b) ->
  (forall a b, 0 < compare a b -> R b a) ->
  (forall a b c, R a b -> R b c -> R a c) ->
  StronglySorted R (sortBy compare l).
Proof.
  intros Hle Hgt Htrans. unfold sortBy.
  induction l as [|x l IH]; cbn [fold_right]; [constructor|].
  now apply insertBy_sorted.
Qed.

Lemma compareItems_by_time {A : Type} (localeCompare : string -> string -> Z)
    (word : A -> string) (timestamp : A -> Z) (sortOrder : string) (l : list A) :
  sortsByTime sortOrder = true ->
  StronglySorted (fun a b => inTimeOrder sortOrder (timestamp a) (timestamp b))
    (sortBy (compareItems localeCompare word timestamp sortOrder) l).
Proof.
  unfold sortsByTime, compareItems, inTimeOrder. intros Ho.
  apply andb_true_iff in Ho as [Haz Hza].
  apply negb_true_iff in Haz. apply negb_true_iff in Hza. rewrite Haz, Hza.
  destruct (String.eqb sortOrder "oldest"); apply sortBy_sorted; intros; lia.
Qed.

(** Property X22. For a sort order other than ['a-z'] and ['z-a'], the
    sorted views follow the timestamps: rising for ['oldest'], falling for
    ['newest'] and for any other value. *)
Theorem sorted_views_follow_the_timestamps
    (localeCompare : string -> string -> Z) (ui : Ui.t) :
  (sortsByTime (Ui.favSortOrder ui) = true ->
   StronglySorted
     (fun a b => inTimeOrder (Ui.favSortOrder ui)
                   (FavoriteItem.timestamp a) (FavoriteItem.timestamp b))
     (sortedFavorites localeCompare ui))
  /\ (sortsByTime (Ui.histSortOrder ui) = true ->
      StronglySorted
        (fun a b => inTimeOrder (Ui.histSortOrder ui)
                      (HistoryItem.timestamp a) (HistoryItem.timestamp b))
        (sortedHistory localeCompare ui)).
Proof.
  split; intros Ho; now apply compareItems_by_time.
Qed.

(** Three searches in the order newest first. *)
Lemma sorted_views_follow_the_timestamps_witness :
  StronglySorted
    (fun a b => inTimeOrder "newest" (HistoryItem.timestamp a) (HistoryItem.timestamp b))
    (sortedHistory (fun _ _ => 0) (Ui.mk threeSearchesWorld false "a-z" "newest")).
Proof.
  apply (proj2 (sorted_views_follow_the_timestamps (fun _ _ => 0)
                  (Ui.mk threeSearchesWorld false "a-z" "newest"))).
  reflexivity.
Defined.

Lemma StronglySorted_app_between {A : Type} (R : A -> A -> Prop) (l1 l2 : list A) :
  StronglySorted R (l1 ++ l2) ->
  forall a b, a ∈ l1 -> b ∈ l2 -> R a b.
Proof.
  induction l1 as [|x l1 IH]; intros Hs a b Ha Hb; [now apply elem_of_nil in Ha|].
  cbn in Hs. apply StronglySorted_inv in Hs as [Hs Hx].
  apply elem_of_cons in Ha as [->|Ha]; [|now apply IH].
  rewrite List.Forall_forall in Hx. apply Hx. apply in_or_app. right.
  now apply list_elem_of_In.
Qed.

(** Property X23. For a sort order other than ['a-z'] and ['z-a'], the
    recent searches are the front of the history in that order: the entries
    that are not shown all come after every shown entry, and shown and
    hidden entries together are as many as the history holds. *)
Theorem recentHistory_shows_the_front_of_the_order
    (localeCompare : string -> string -> Z) (ui : Ui.t) :
  sortsByTime (Ui.histSortOrder ui) = true ->
  exists rest,
    sortedHistory localeCompare ui = recentHistory localeCompare ui ++ rest
    /\ (length (World.history (Ui.world ui))
        = length (recentHistory localeCompare ui) + length rest)%nat
    /\ forall shown other,
         shown ∈ recentHistory localeCompare ui -> other ∈ rest ->
         inTimeOrder (Ui.histSortOrder ui)
           (HistoryItem.timestamp shown) (HistoryItem.timestamp other).
Proof.
  intros Ho. exists (drop 5 (sortedHistory localeCompare ui)).
  unfold recentHistory. split; [now rewrite take_drop|]. split.
  - rewrite <- length_app, take_drop. symmetry. apply Permutation_length.
    apply sortBy_Permutation.
  - apply (StronglySorted_app_between
             (fun a b => inTimeOrder (Ui.histSortOrder ui)
                           (HistoryItem.timestamp a) (HistoryItem.timestamp b))).
    rewrite take_drop. now apply compareItems_by_time.
Qed.

(** The recent searches of a full history: five shown, forty-five not. *)
Lemma recentHistory_shows_the_front_of_the_order_witness :
  exists rest,
    sortedHistory (fun _ _ => 0) (Ui.mk fullHistoryWorld false "newest" "newest")
    = recentHistory (fun _ _ => 0) (Ui.mk fullHistoryWorld false "newest" "newest") ++ rest
    /\ length rest = 45%nat.
Proof.
  destruct (recentHistory_shows_the_front_of_the_order (fun _ _ => 0)
              (Ui.mk fullHistoryWorld false "newest" "newest") eq_refl)
    as (rest & Hsplit & Hlen & _).
  exists rest. split; [exact Hsplit|].
  assert (Hall : length (World.history fullHistoryWorld) = 50%nat)
    by (vm_compute; reflexivity).
  assert (Hshown : length (recentHistory (fun _ _ => 0)
                             (Ui.mk fullHistoryWorld false "newest" "newest")) = 5%nat)
    by (vm_compute; reflexivity).
  cbn [Ui.world] in Hlen. rewrite Hall, Hshown in Hlen. lia.
Defined.

(** ** The Define screen *)

Lemma sortBy_empty {A : Type} (compare : A -> A -> Z) (l : list A) :
  (0 <? length (sortBy compare l))%nat = negb (bool_decide (l = [])).
Proof.
  rewrite (Permutation_length (sortBy_Permutation compare l)).
  now destruct l.
Qed.

(** Property X24. In every state the Define screen shows exactly one of
    the loading indicator, the error, the result and the form area; the
    recent searches are shown exactly when the form area is, the history is
    not empty and the word of the form is blank. *)
Theorem define_screen_shows_exactly_one_area
    (localeCompare : string -> string -> Z) (ui : Ui.t) :
  let w := Ui.world ui in
  List.count_occ bool_dec [showLoading w; showError w; showResult w; showFormArea w] true
  = 1%nat
  /\ (showRecentSearches localeCompare ui = true
      <-> showFormArea w = true
          /\ World.history w <> []
          /\ JS.trim (World.word w) = ""%string).
Proof.
  cbv zeta. split.
  - unfold showLoading, showError, showResult, showFormArea.
    destruct (World.isLoading (Ui.world ui)), (hasError (Ui.world ui)),
      (World.definitionResult (Ui.world ui)); reflexivity.
  - unfold showRecentSearches, sortedHistory. rewrite sortBy_empty.
    rewrite !andb_true_iff, negb_true_iff, bool_decide_eq_false.
    destruct (JS.trim (World.word (Ui.world ui))); cbn [JS.isEmpty];
      intuition (discriminate || auto).
Qed.

(** ** The search form *)

Lemma trimEnd_idempotent (s : string) : JS.trimEnd (JS.trimEnd s) = JS.trimEnd s.
Proof.
  induction s as [|c s IH]; [reflexivity|]. cbn [JS.trimEnd].
  destruct (JS.isWhiteSpace c && JS.isEmpty (JS.trimEnd s)) eqn:E; [reflexivity|].
  cbn [JS.trimEnd]. rewrite IH, E. reflexivity.
Qed.

Lemma trimStart_trimEnd (s : string) :
  JS.trimStart (JS.trimEnd (JS.trimStart s)) = JS.trimEnd (JS.trimStart s).
Proof.
  induction s as [|c s IH]; [reflexivity|]. cbn [JS.trimStart].
  destruct (JS.isWhiteSpace c) eqn:E; [exact IH|].
  cbn [JS.trimEnd]. rewrite E. cbn [andb JS.trimStart]. now rewrite E.
Qed.

Lemma trim_idempotent (s : string) : JS.trim (JS.trim s) = JS.trim s.
Proof.
  unfold JS.trim. now rewrite trimStart_trimEnd, trimEnd_idempotent.
Qed.

Lemma canDefine_valid (w : World.t) :
  canDefine w = true ->
  validateInputs (wordToDefine noParams w) (requestedLength noParams w) = None.
Proof.
  unfold canDefine. intros H.
  destruct (validateInputs (World.word w) (JS.Str (World.length w))) eqn:Ev; [discriminate|].
  apply validateInputs_None in Ev as [Hw Hl]. apply validateInputs_None.
  unfold wordToDefine, requestedLength, noParams.
  cbn [RequestParams.word RequestParams.length JS.strOr JS.or JS.truthy].
  rewrite trim_idempotent. split; [exact Hw|exact Hl].
Qed.

(** Property X25. [submitDefine] leaves the state alone unless the form
    validates and nothing is loading; when it does run [handleDefine], the
    validation of [handleDefine] passes too and the run ends with the
    loading flag cleared; and an alert shows the validation message of the
    form, and only when no error is displayed. *)
Theorem submitDefine_defines_only_a_valid_form (env : DefineEnv.t) (w : World.t) :
  (canDefine w && negb (World.isLoading w) = false ->
   snd (submitDefine env w) = w)
  /\ (canDefine w && negb (World.isLoading w) = true ->
      submitDefine env w = (None, handleDefine env noParams w)
      /\ validateInputs (wordToDefine noParams w) (requestedLength noParams w) = None
      /\ World.isLoading (handleDefine env noParams w) = false)
  /\ (forall message, fst (submitDefine env w) = Some message ->
      validateInputs (World.word w) (JS.Str (World.length w)) = Some message
      /\ hasError w = false).
Proof.
  unfold submitDefine. split; [|split].
  - intros ->. destruct (validateInputs _ _) as [validationError|]; [|reflexivity].
    destruct (JS.isEmpty validationError || hasError w); reflexivity.
  - intros H. rewrite H. apply andb_true_iff in H as [Hc Hl].
    apply canDefine_valid in Hc. split; [reflexivity|]. split; [exact Hc|].
    define_paths env noParams w Hc; reflexivity.
  - intros message.
    destruct (canDefine w && negb (World.isLoading w)); [discriminate|].
    destruct (validateInputs _ _) as [validationError|]; [|discriminate].
    destruct (JS.isEmpty validationError); [discriminate|]. cbn [orb].
    destruct (hasError w); [discriminate|]. cbn [fst]. now intros [= ->].
Qed.

(** A submission of the form holding ' cat ' and the length 30. *)
Lemma submitDefine_defines_only_a_valid_form_witness :
  submitDefine (servedBy 9 10 11 catResponse) (setWord " cat " loadedWorld)
  = (None, handleDefine (servedBy 9 10 11 catResponse) noParams (setWord " cat " loadedWorld)).
Proof.
  destruct (submitDefine_defines_only_a_valid_form (servedBy 9 10 11 catResponse)
              (setWord " cat " loadedWorld)) as (_ & Hrun & _).
  destruct Hrun as (Hrun & _ & _); [reflexivity|exact Hrun].
Defined.

(** Property X26. [clearSearch] keeps the length of the form, the
    favorites, the history, the quiz list, the store and the index; it
    leaves neither an error nor a result on the screen; and a submission
    right after it is refused with the alert that asks for a word. *)
Theorem clearSearch_then_submitDefine (env : DefineEnv.t) (ui : Ui.t) :
  let w := Ui.world ui in
  let w' := Ui.world (clearSearch ui) in
  (World.length w', World.favorites w', World.history w', World.quizList w')
  = (World.length w, World.favorites w, World.history w, World.quizList w)
  /\ (World.storage w', World.definitionsCacheIndex w')
     = (World.storage w, World.definitionsCacheIndex w)
  /\ showError w' = false
  /\ showResult w' = false
  /\ showFormArea w' = negb (World.isLoading w)
  /\ submitDefine env w' = (Some "Please enter a word or phrase."%string, w').
Proof.
  cbv zeta. unfold clearSearch. cbn [Ui.world].
  unfold showError, showResult, showFormArea, hasError, submitDefine, canDefine. world_simpl.
  repeat split; try now destruct (World.isLoading (Ui.world ui)).
Qed.

(** Property X27. [clearHistory] empties the history when the alert is
    confirmed and does nothing when it is cancelled; in both cases the
    favorites, the quiz list, the store and the index stay, and every lookup
    returns what it returned before. *)
Theorem clearHistory_keeps_the_cache
    (confirmed readRejects : bool) (params : RequestParams.t) (w : World.t) :
  let w' := clearHistory confirmed w in
  World.history w' = (if confirmed then [] else World.history w)
  /\ World.favorites w' = World.favorites w
  /\ World.quizList w' = World.quizList w
  /\ World.storage w' = World.storage w
  /\ World.definitionsCacheIndex w' = World.definitionsCacheIndex w
  /\ fst (getCachedDefinition readRejects params w')
     = fst (getCachedDefinition readRejects params w).
Proof.
  cbv zeta. destruct confirmed; cbn [clearHistory]; [|repeat split].
  world_simpl. repeat split.
  unfold getCachedDefinition, AsyncStorage.getItem.
  change (World.isInitialDataLoaded (showToast _ _ (World.setHistory _ w)))
    with (World.isInitialDataLoaded w).
  world_simpl.
  destruct (World.isInitialDataLoaded w); cbn [negb]; [|reflexivity].
  destruct (indexHas _ _); cbn [negb]; [|reflexivity].
  destruct readRejects; [reflexivity|].
  destruct (World.storage w !! generateCacheKey params) as [data|]; [|reflexivity].
  destruct (JS.isEmpty data); [reflexivity|].
  destruct (JSON.parse data); reflexivity.
Qed.

(** Property X28. A lookup returns a definition exactly when the data are
    loaded, the index names the key with a timestamp that is not zero, the
    read resolves to a text that parses, and the definition is the parsed
    text with [cacheHit] set to [true]. *)
Theorem getCachedDefinition_returns_exactly_the_readable_entries
    (readRejects : bool) (params : RequestParams.t) (w : World.t) (found : JSON.t) :
  fst (getCachedDefinition readRejects params w) = Some found
  <-> World.isInitialDataLoaded w = true
      /\ indexHas (World.definitionsCacheIndex w) (generateCacheKey params) = true
      /\ readRejects = false
      /\ exists definitionData parsed,
           World.storage w !! generateCacheKey params = Some definitionData
           /\ JSON.parse definitionData = Some parsed
           /\ found = JSON.Obj (JSON.setProp "cacheHit" (JSON.Bool true) (ownProps parsed)).
Proof.
  split.
  - unfold getCachedDefinition, AsyncStorage.getItem.
    destruct (World.isInitialDataLoaded w); cbn [negb]; [|discriminate].
    destruct (indexHas _ _); cbn [negb]; [|discriminate].
    destruct readRejects; [discriminate|].
    destruct (World.storage w !! generateCacheKey params) as [data|]; [|discriminate].
    destruct (JS.isEmpty data); [discriminate|].
    destruct (JSON.parse data) as [parsed|] eqn:Hp; [|discriminate].
    cbn [fst]. intros [= <-]. repeat split. eauto.
  - intros (Hl & Hi & -> & data & parsed & Hs & Hp & ->).
    now rewrite (getCachedDefinition_found params w data parsed Hl Hi Hs Hp).
Qed.

(** ** Replaying a recorded search *)

Lemma replayParams_valid (item : HistoryItem.t) (n : Z) (w : World.t) :
  JS.trim (HistoryItem.word item) <> ""%string ->
  HistoryItem.length item = Some n ->
  1 <= n <= MAX_REQUESTED_LENGTH ->
  validateInputs (wordToDefine (replayParams item) w) (requestedLength (replayParams item) w)
  = None.
Proof.
  intros Hblank Hl Hrange. apply validateInputs_None.
  unfold wordToDefine, requestedLength, replayParams, lengthOr30.
  cbn [RequestParams.word RequestParams.length]. rewrite Hl.
  assert (Hnz : (n =? 0) = false) by (apply Z.eqb_neq; lia).
  unfold JS.or. cbn [JS.truthy]. rewrite Hnz. cbn [negb JS.truthy]. rewrite Hnz.
  cbn [negb].
  destruct (HistoryItem.word item) as [|c s]; [now contradiction Hblank|].
  cbn [JS.strOr]. split; [now rewrite trim_idempotent|].
  exists n. split; [apply parseInt_Num; unfold MAX_REQUESTED_LENGTH in Hrange; lia|exact Hrange].
Qed.

(** Property X29. A search that [handleDefine] records after a successful
    request can be replayed: when the response names a word that is not
    blank, the new first entry of the history carries that word and the
    validated length, and pressing it, in the recent searches or on the
    History screen, runs [handleDefine] with parameters that pass the
    validation. *)
Theorem recorded_search_can_be_replayed
    (env : DefineEnv.t) (params : RequestParams.t) (w : World.t)
    (status : Z) (responseData : list (string * JSON.t)) (word : string) :
  validateInputs (wordToDefine params w) (requestedLength params w) = None ->
  fst (getCachedDefinition (DefineEnv.readRejects env) (requestParams params w) w) = None ->
  DefineEnv.fetched env = FetchResponds true status responseData ->
  JSON.getProp "word" responseData = Some (JSON.Str word) ->
  JS.trim word <> ""%string ->
  exists item rest,
    World.history (handleDefine env params w) = item :: rest
    /\ HistoryItem.word item = word
    /\ (exists n, HistoryItem.length item = Some n
          /\ JS.parseInt (requestedLength params w) = JS.Finite n
          /\ 1 <= n <= MAX_REQUESTED_LENGTH)
    /\ forall (env2 : DefineEnv.t) (w2 : World.t),
         validateInputs (wordToDefine (replayParams item) w2)
           (requestedLength (replayParams item) w2) = None
         /\ handlePress env2 (Some item) w2 = handleDefine env2 (replayParams item) w2
         /\ handleHistoryPress env2 (Some item) w2
            = handleDefine env2 (replayParams item)
                (showToast (definingMessage word) info w2).
Proof.
  intros Hv Hmiss Hf Hword Hblank.
  rewrite (handleDefine_fetched env params w status responseData Hv Hmiss Hf).
  pose proof Hv as Hvalid. apply validateInputs_None in Hvalid as [_ (n & Hn & Hrange)].
  assert (Hw : prop (finalResultData params w responseData) "word" = Some (JSON.Str word)).
  { unfold finalResultData. cbn [prop].
    now rewrite !getProp_setProp_ne by discriminate. }
  assert (Hl : prop (finalResultData params w responseData) "requestedLength"
               = Some (JSON.Num n)).
  { unfold finalResultData. cbn [prop].
    rewrite getProp_setProp_ne by discriminate. rewrite getProp_setProp, Hn. reflexivity. }
  destruct word as [|c s]; [now contradiction Hblank|].
  unfold addToHistory, historyInput. cbn [HistoryInput.word]. rewrite Hw. cbn [asString].
  cbn [HistoryInput.length]. rewrite Hl. cbn [asInteger].
  destruct (DefineEnv.writeRejects env);
    [rewrite saveToCache_rejected|rewrite saveToCache_resolved];
    world_simpl; rewrite recordHistory_cons; eexists; eexists;
    (split; [reflexivity|]); cbn [HistoryItem.word HistoryItem.length];
    (split; [reflexivity|]); (split; [now exists n|]);
    intros env2 w2;
    (split; [now apply (replayParams_valid _ n)|split; reflexivity]).
Qed.

(** The search recorded for the response to 'cat'. *)
Lemma recorded_search_can_be_replayed_witness :
  exists item rest,
    World.history (handleDefine (servedBy 9 10 11 catResponse) catParams loadedWorld)
    = item :: rest
    /\ HistoryItem.word item = "cat"%string.
Proof.
  destruct (recorded_search_can_be_replayed (servedBy 9 10 11 catResponse) catParams
              loadedWorld 200 catResponse "cat")
    as (item & rest & Hhist & Hword & _).
  - reflexivity.
  - reflexivity.
  - reflexivity.
  - reflexivity.
  - vm_compute. discriminate.
  - exists item, rest. split; [exact Hhist|exact Hword].
Defined.


